(** * qlive: the room controller (controller/room.go)

    A shallow embedding of [RoomController] and of the two MongoDB
    collections it reads and writes.  The controller is a sequence of
    guarded reads followed by writes against the document store, so the
    store is an explicit state and every controller method is a
    computation in a small state monad [M].  Go's [(value, error)]
    returns are kept: a method that returns [nil, err] or [v, nil] is a
    [result]; one that may return both is a pair.

    The store is the collaborator the controller talks to: it holds the two
    collections, answers each round trip (it may fail any of them), and the
    round trips are recorded so that "which reads were made, in which
    order" can be stated.  The logger [xl] only prints; it is left out. *)

From Stdlib Require Import String List ZArith Bool Lia.
Import ListNotations.

Local Open Scope string_scope.
Local Open Scope list_scope.
Local Open Scope Z_scope.

Set Implicit Arguments.

(** ** package protocol *)

(** Modelled from the spec: the declarations of package [protocol] are not
    part of this file.  The seven presence states are the ones the data
    model lists; the controller names six of them
    ([protocol.UserStatusIdle], ...). *)
Inductive UserStatus : Set :=
| UserStatusIdle
| UserStatusSingleLive
| UserStatusPKWait
| UserStatusPKLive
| UserStatusWatching
| UserStatusJoinWait
| UserStatusJoined.

Definition UserStatus_eqb (a b : UserStatus) : bool :=
  match a, b with
  | UserStatusIdle, UserStatusIdle
  | UserStatusSingleLive, UserStatusSingleLive
  | UserStatusPKWait, UserStatusPKWait
  | UserStatusPKLive, UserStatusPKLive
  | UserStatusWatching, UserStatusWatching
  | UserStatusJoinWait, UserStatusJoinWait
  | UserStatusJoined, UserStatusJoined => true
  | _, _ => false
  end.

(** Modelled from the spec: [protocol.LiveRoom].  [Status] is a string type
    in the source (the controller filters on ["status": "single"]); its
    zero value is the empty string. *)
Module LiveRoom.
Record t : Set := mk {
  ID : string;
  Name : string;
  Creator : string;
  Status : string;
  RTCRoom : string;
  PlayURL : string;
  PKAnchor : string
}.

(** Assignments to one field, as in [room.Name = newRoom.Name]. *)
Definition set_Name (v : string) (r : t) : t :=
  mk (ID r) v (Creator r) (Status r) (RTCRoom r) (PlayURL r) (PKAnchor r).
Definition set_Status (v : string) (r : t) : t :=
  mk (ID r) (Name r) (Creator r) v (RTCRoom r) (PlayURL r) (PKAnchor r).
Definition set_RTCRoom (v : string) (r : t) : t :=
  mk (ID r) (Name r) (Creator r) (Status r) v (PlayURL r) (PKAnchor r).
Definition set_PlayURL (v : string) (r : t) : t :=
  mk (ID r) (Name r) (Creator r) (Status r) (RTCRoom r) v (PKAnchor r).
Definition set_PKAnchor (v : string) (r : t) : t :=
  mk (ID r) (Name r) (Creator r) (Status r) (RTCRoom r) (PlayURL r) v.
End LiveRoom.

(** Modelled from the spec: [protocol.ActiveUser].  [JoinPosition] is a
    pointer in the source ([activeUser.JoinPosition = nil]). *)
Module ActiveUser.
Record t : Set := mk {
  ID : string;
  Status : UserStatus;
  Room : string;
  JoinPosition : option Z
}.

Definition set_Status (v : UserStatus) (u : t) : t :=
  mk (ID u) v (Room u) (JoinPosition u).
Definition set_Room (v : string) (u : t) : t :=
  mk (ID u) (Status u) v (JoinPosition u).
Definition set_JoinPosition (v : option Z) (u : t) : t :=
  mk (ID u) (Status u) (Room u) v.
End ActiveUser.

(** ** package errors *)

(** Modelled from the spec: the codes of [errors.ServerError] that the
    controller builds. *)
Inductive ServerErrorCode : Set :=
| ServerErrorMongoOpFail
| ServerErrorTooManyRooms
| ServerErrorRoomNameUsed
| ServerErrorCanOnlyCreateOneRoom
| ServerErrorUserWatching
| ServerErrorUserJoined
| ServerErrorRoomNotFound
| ServerErrorUserBroadcasting.

(** Errors of the driver.  [ErrNoDocuments] is the one the controller tests
    for; the others stand for everything else the store can answer. *)
Inductive mongo_error : Set :=
| ErrNoDocuments
| ErrDuplicateKey
| ErrUnavailable.

(** Go's [error] as the controller produces it: a [*errors.ServerError] or
    an error of the driver handed through unchanged. *)
Inductive error : Set :=
| ServerError (Code : ServerErrorCode)
| MongoError (e : mongo_error).

Inductive result (E A : Type) : Type :=
| Ok (a : A)
| Err (e : E).
Arguments Ok {E A} a.
Arguments Err {E A} e.

(** [qmgo.IsErrNoDocuments] on a driver error and on a Go [error]. *)
Definition isNoDocuments (e : mongo_error) : bool :=
  match e with ErrNoDocuments => true | _ => false end.

Definition IsErrNoDocuments (err : error) : bool :=
  match err with MongoError e => isNoDocuments e | ServerError _ => false end.

(** ** bson values, filters and documents *)

Inductive bson : Set :=
| BString (s : string)
| BStatus (s : UserStatus)
| BInt (z : Z)
| BNull.

Definition bson_eqb (a b : bson) : bool :=
  match a, b with
  | BString x, BString y => String.eqb x y
  | BStatus x, BStatus y => UserStatus_eqb x y
  | BInt x, BInt y => Z.eqb x y
  | BNull, BNull => true
  | _, _ => false
  end.

(** The right-hand sides the controller writes in a filter:
    [v], [bson.M{"$ne": v}] and [bson.M{"$in": vs}]. *)
Inductive bson_cond : Set :=
| Is (v : bson)
| Ne (v : bson)
| OneOf (vs : list bson).

(** [bson.M] used as a filter, and as the argument of ["$set"]. *)
Definition filterM := list (string * bson_cond).
Definition setM := list (string * bson).

(** What a stored type looks like to the store: its fields by bson key.
    A key the type does not have reads as null. *)
Class Document (T : Type) := {
  field : T -> string -> bson;
  set_field : string -> bson -> T -> T
}.

(** A room by its bson keys.  The struct tags are those of package
    [protocol], which is not part of this file: ["_id"], ["name"],
    ["creator"] and ["status"] are spelled as the filters of room.go spell
    them (room.go:87, 105, 155, 232-235); the keys of [RTCRoom], [PlayURL]
    and [PKAnchor] do not occur in room.go and are the field names in
    lower camel case, as ["joinPosition"] (room.go:184) is.  The store does
    not let ["_id"] be set. *)
#[export] Instance LiveRoom_Document : Document LiveRoom.t := {
  field r k :=
    if String.eqb k "_id" then BString (LiveRoom.ID r)
    else if String.eqb k "name" then BString (LiveRoom.Name r)
    else if String.eqb k "creator" then BString (LiveRoom.Creator r)
    else if String.eqb k "status" then BString (LiveRoom.Status r)
    else if String.eqb k "rtcRoom" then BString (LiveRoom.RTCRoom r)
    else if String.eqb k "playURL" then BString (LiveRoom.PlayURL r)
    else if String.eqb k "pkAnchor" then BString (LiveRoom.PKAnchor r)
    else BNull;
  set_field k v r :=
    match v with
    | BString s =>
        if String.eqb k "name" then LiveRoom.set_Name s r
        else if String.eqb k "creator" then
          LiveRoom.mk (LiveRoom.ID r) (LiveRoom.Name r) s (LiveRoom.Status r)
            (LiveRoom.RTCRoom r) (LiveRoom.PlayURL r) (LiveRoom.PKAnchor r)
        else if String.eqb k "status" then LiveRoom.set_Status s r
        else if String.eqb k "rtcRoom" then LiveRoom.set_RTCRoom s r
        else if String.eqb k "playURL" then LiveRoom.set_PlayURL s r
        else if String.eqb k "pkAnchor" then LiveRoom.set_PKAnchor s r
        else r
    | _ => r
    end
}.

#[export] Instance ActiveUser_Document : Document ActiveUser.t := {
  field u k :=
    if String.eqb k "_id" then BString (ActiveUser.ID u)
    else if String.eqb k "room" then BString (ActiveUser.Room u)
    else if String.eqb k "status" then BStatus (ActiveUser.Status u)
    else if String.eqb k "joinPosition" then
      match ActiveUser.JoinPosition u with Some z => BInt z | None => BNull end
    else BNull;
  set_field k v u :=
    if String.eqb k "room" then
      match v with
      | BString s => ActiveUser.set_Room s u
      | _ => u
      end
    else if String.eqb k "status" then
      match v with
      | BStatus s => ActiveUser.set_Status s u
      | _ => u
      end
    else if String.eqb k "joinPosition" then
      match v with
      | BInt z => ActiveUser.set_JoinPosition (Some z) u
      | BNull => ActiveUser.set_JoinPosition None u
      | _ => u
      end
    else u
}.

Definition cond_holds (c : bson_cond) (v : bson) : bool :=
  match c with
  | Is w => bson_eqb v w
  | Ne w => negb (bson_eqb v w)
  | OneOf ws => existsb (bson_eqb v) ws
  end.

Definition matches {T} `{Document T} (f : filterM) (d : T) : bool :=
  forallb (fun kc => cond_holds (snd kc) (field d (fst kc))) f.

Definition apply_set {T} `{Document T} (kvs : setM) (d : T) : T :=
  fold_left (fun acc kv => set_field (fst kv) (snd kv) acc) kvs d.

(** The argument of ["$set"]: a whole struct, or a [bson.M] of fields.
    Modelled from the spec: the struct tags of package [protocol] are not
    part of this file; a struct is written with all its fields, the empty
    ones included, which is what the spec says of the updates ("clears
    Room and JoinPosition"). *)
Inductive update (T : Type) : Type :=
| SetDoc (d : T)
| SetFields (kvs : setM).
Arguments SetDoc {T} d.
Arguments SetFields {T} kvs.

Definition apply_update {T} `{Document T} (u : update T) (d : T) : T :=
  match u with
  | SetDoc d' => d'
  | SetFields kvs => apply_set kvs d
  end.

(** ** The document store *)

Inductive Coll : Set := Rooms | ActiveUsers.

Inductive Op : Set :=
| OpCount | OpOne | OpAll | OpInsertOne | OpUpdateOne | OpUpdateAll | OpRemoveId.

(** A round trip that the store fails: the error, and for a cursor read
    how many documents had been decoded when it failed. *)
Record Fault : Set := { fault_err : mongo_error; fault_decoded : nat }.

(** The state the controller runs against: the two collections in
    insertion order, what the store will answer to the coming round trips
    ([None]: it serves the request; past the end of the list every request
    is served), and the round trips issued so far. *)
Record Mongo : Type := {
  rooms : list LiveRoom.t;
  activeUsers : list ActiveUser.t;
  faults : list (option Fault);
  trace : list (Coll * Op)
}.

Definition M (A : Type) : Type := Mongo -> A * Mongo.

Definition ret {A} (a : A) : M A := fun db => (a, db).

Definition bind {A B} (m : M A) (k : A -> M B) : M B :=
  fun db => let (a, db') := m db in k a db'.

Notation "x <- m ;; k" := (bind m (fun x => k))
  (at level 61, m at next level, right associativity).
Notation "' p <- m ;; k" := (bind m (fun x => match x with p => k end))
  (at level 61, p pattern, m at next level, right associativity).

(** A handle on one collection of the database. *)
Record Collection (T : Type) : Type := {
  coll_name : Coll;
  coll_get : Mongo -> list T;
  coll_put : list T -> Mongo -> Mongo
}.

Definition roomColl : Collection LiveRoom.t := {|
  coll_name := Rooms;
  coll_get := rooms;
  coll_put l db := {| rooms := l; activeUsers := activeUsers db;
                      faults := faults db; trace := trace db |}
|}.

Definition activeUserColl : Collection ActiveUser.t := {|
  coll_name := ActiveUsers;
  coll_get := activeUsers;
  coll_put l db := {| rooms := rooms db; activeUsers := l;
                      faults := faults db; trace := trace db |}
|}.

(** One round trip: it is recorded, and the store's answer to it is taken
    off the schedule. *)
Definition roundtrip (c : Coll) (o : Op) : M (option Fault) :=
  fun db => (hd None (faults db),
             {| rooms := rooms db; activeUsers := activeUsers db;
                faults := tl (faults db); trace := trace db ++ [(c, o)] |}).

Definition read {T} (coll : Collection T) : M (list T) :=
  fun db => (coll_get coll db, db).

Definition write {T} (coll : Collection T) (l : list T) : M unit :=
  fun db => (tt, coll_put coll l db).

Fixpoint update_first {T} (p : T -> bool) (g : T -> T) (l : list T) : list T :=
  match l with
  | [] => []
  | d :: l' => if p d then g d :: l' else d :: update_first p g l'
  end.

Fixpoint remove_first {T} (p : T -> bool) (l : list T) : list T :=
  match l with
  | [] => []
  | d :: l' => if p d then l' else d :: remove_first p l'
  end.

Definition count_docs {T} (p : T -> bool) (l : list T) : Z :=
  Z.of_nat (length (filter p l)).

Section Queries.
Context {T : Type} `{Document T}.
Variable coll : Collection T.

(** [coll.Find(ctx, filter).Count()]: [(0, err)] when the store fails. *)
Definition Count (f : filterM) : M (Z * option mongo_error) :=
  flt <- roundtrip (coll_name coll) OpCount ;;
  docs <- read coll ;;
  match flt with
  | Some e => ret (0, Some (fault_err e))
  | None => ret (count_docs (matches f) docs, None)
  end.

(** [coll.Find(ctx, filter).One(&d)]: the first match, [ErrNoDocuments]
    when there is none. *)
Definition One (f : filterM) : M (result mongo_error T) :=
  flt <- roundtrip (coll_name coll) OpOne ;;
  docs <- read coll ;;
  match flt with
  | Some e => ret (Err (fault_err e))
  | None =>
      match find (matches f) docs with
      | Some d => ret (Ok d)
      | None => ret (Err ErrNoDocuments)
      end
  end.

(** [coll.Find(ctx, filter).All(&ds)] on a slice that starts empty: all
    matches, or what had been decoded together with the error. *)
Definition All (f : filterM) : M (list T * option mongo_error) :=
  flt <- roundtrip (coll_name coll) OpAll ;;
  docs <- read coll ;;
  match flt with
  | Some e => ret (firstn (fault_decoded e) (filter (matches f) docs), Some (fault_err e))
  | None => ret (filter (matches f) docs, None)
  end.

(** [coll.InsertOne(ctx, d)]: the store keeps ["_id"] unique. *)
Definition InsertOne (d : T) : M (option mongo_error) :=
  flt <- roundtrip (coll_name coll) OpInsertOne ;;
  docs <- read coll ;;
  match flt with
  | Some e => ret (Some (fault_err e))
  | None =>
      if existsb (fun d' => bson_eqb (field d' "_id") (field d "_id")) docs
      then ret (Some ErrDuplicateKey)
      else _ <- write coll (docs ++ [d]) ;; ret None
  end.

(** [coll.UpdateOne(ctx, filter, bson.M{"$set": u})]: qmgo answers
    [ErrNoDocuments] when nothing matched. *)
Definition UpdateOne (f : filterM) (u : update T) : M (option mongo_error) :=
  flt <- roundtrip (coll_name coll) OpUpdateOne ;;
  docs <- read coll ;;
  match flt with
  | Some e => ret (Some (fault_err e))
  | None =>
      if existsb (matches f) docs
      then _ <- write coll (update_first (matches f) (apply_update u) docs) ;; ret None
      else ret (Some ErrNoDocuments)
  end.

(** [coll.UpdateAll(ctx, filter, bson.M{"$set": u})]: the number of
    documents matched. *)
Definition UpdateAll (f : filterM) (u : update T) : M (Z * option mongo_error) :=
  flt <- roundtrip (coll_name coll) OpUpdateAll ;;
  docs <- read coll ;;
  match flt with
  | Some e => ret (0, Some (fault_err e))
  | None =>
      _ <- write coll (map (fun d => if matches f d then apply_update u d else d) docs) ;;
      ret (count_docs (matches f) docs, None)
  end.

(** [coll.RemoveId(ctx, id)]: [ErrNoDocuments] when nothing was deleted. *)
Definition RemoveId (id : string) : M (option mongo_error) :=
  flt <- roundtrip (coll_name coll) OpRemoveId ;;
  docs <- read coll ;;
  match flt with
  | Some e => ret (Some (fault_err e))
  | None =>
      if existsb (matches [("_id", Is (BString id))]) docs
      then _ <- write coll (remove_first (matches [("_id", Is (BString id))]) docs) ;; ret None
      else ret (Some ErrNoDocuments)
  end.
End Queries.

(** ** RoomController *)

Definition DefaultRoomNumberLimit : Z := 20.

(** The configuration part of the controller; the two collection handles
    are [roomColl] and [activeUserColl] above. *)
Record RoomController : Set := { roomNumberLimit : Z }.

(** [NewRoomController], the connection left out. *)
Definition NewRoomController : RoomController :=
  {| roomNumberLimit := DefaultRoomNumberLimit |}.

(** The statuses of the ["$in"] of [CloseRoom] (room.go:179-183). *)
Definition audienceStatuses : list bson :=
  [BStatus UserStatusWatching; BStatus UserStatusJoinWait; BStatus UserStatusJoined].

Section Controller.
Variable c : RoomController.

(** [CreateRoom] (room.go:69-148).  [create] is the part of the function
    after the check of the name (lines 103-147); the check itself (lines
    85-101) is the last [match]. *)
Definition CreateRoom (room : LiveRoom.t) : M (result error LiveRoom.t) :=
  ' (n, err) <- Count roomColl [] ;;
  match err with
  | Some _ => ret (Err (ServerError ServerErrorMongoOpFail))
  | None =>
  if n >=? roomNumberLimit c then ret (Err (ServerError ServerErrorTooManyRooms)) else
  let creatorID := LiveRoom.Creator room in
  let create : M (result error LiveRoom.t) :=
    ' (n, err) <- Count roomColl [("creator", Is (BString creatorID))] ;;
    match (match err with
           | Some e => negb (isNoDocuments e)
           | None => false
           end) with
    | true => ret (Err (ServerError ServerErrorMongoOpFail))
    | false =>
    if n >? 0 then ret (Err (ServerError ServerErrorCanOnlyCreateOneRoom)) else
    found <- One activeUserColl [("_id", Is (BString creatorID))] ;;
    match found with
    | Err e => ret (Err (MongoError e))
    | Ok activeUser =>
    if UserStatus_eqb (ActiveUser.Status activeUser) UserStatusWatching
    then ret (Err (ServerError ServerErrorUserWatching)) else
    if UserStatus_eqb (ActiveUser.Status activeUser) UserStatusJoined
       || UserStatus_eqb (ActiveUser.Status activeUser) UserStatusJoinWait
    then ret (Err (ServerError ServerErrorUserJoined)) else
    err <- InsertOne roomColl room ;;
    match err with
    | Some e => ret (Err (MongoError e))
    | None =>
    let activeUser := ActiveUser.set_Status UserStatusSingleLive activeUser in
    let activeUser := ActiveUser.set_Room (LiveRoom.ID room) activeUser in
    _ <- UpdateOne activeUserColl [("_id", Is (BString creatorID))] (SetDoc activeUser) ;;
    ret (Ok room)
    end
    end
    end in
  found <- One roomColl [("name", Is (BString (LiveRoom.Name room)))] ;;
  match found with
  | Err e =>
      if negb (isNoDocuments e)
      then ret (Err (ServerError ServerErrorMongoOpFail))
      else create
  | Ok existingRoom =>
      if negb (String.eqb (LiveRoom.Creator existingRoom) (LiveRoom.Creator room))
      then ret (Err (ServerError ServerErrorRoomNameUsed))
      else ret (Ok existingRoom)
  end
  end.

(** [CloseRoom] (room.go:151-191).  The errors of the two updates are only
    logged. *)
Definition CloseRoom (userID roomID : string) : M (option error) :=
  found <- One roomColl [("_id", Is (BString roomID)); ("creator", Is (BString userID))] ;;
  match found with
  | Err e =>
      if isNoDocuments e
      then ret (Some (ServerError ServerErrorRoomNotFound))
      else ret (Some (MongoError e))
  | Ok _ =>
  err <- RemoveId roomColl roomID ;;
  match err with
  | Some e => ret (Some (MongoError e))
  | None =>
  _ <- UpdateOne activeUserColl [("_id", Is (BString userID))]
         (SetFields [("room", BString ""); ("status", BStatus UserStatusIdle)]) ;;
  _ <- UpdateAll activeUserColl
         [("room", Is (BString roomID)); ("status", OneOf audienceStatuses)]
         (SetFields [("room", BString ""); ("status", BStatus UserStatusIdle);
                     ("joinPosition", BNull)]) ;;
  ret None
  end
  end.

(** [GetRoomByFields], [GetRoomByID] (room.go:194-214). *)
Definition GetRoomByFields (fields : filterM) : M (result error LiveRoom.t) :=
  found <- One roomColl fields ;;
  match found with
  | Err e =>
      if isNoDocuments e
      then ret (Err (ServerError ServerErrorRoomNotFound))
      else ret (Err (MongoError e))
  | Ok room => ret (Ok room)
  end.

Definition GetRoomByID (id : string) : M (result error LiveRoom.t) :=
  GetRoomByFields [("_id", Is (BString id))].

(** [ListAllRooms], [ListPKRooms] (room.go:217-240): the list and the error
    are both returned. *)
Definition ListAllRooms : M (list LiveRoom.t * option error) :=
  ' (rooms, err) <- All roomColl [] ;;
  ret (rooms, option_map MongoError err).

Definition ListPKRooms (userID : string) : M (list LiveRoom.t * option error) :=
  ' (rooms, err) <- All roomColl
      [("status", Is (BString "single")); ("creator", Ne (BString userID))] ;;
  ret (rooms, option_map MongoError err).

(** [UpdateRoom] (room.go:243-282).  [store] is the part after the check of
    the name (lines 266-281), run on the room as renamed or as found. *)
Definition UpdateRoom (id : string) (newRoom : LiveRoom.t) : M (result error LiveRoom.t) :=
  got <- GetRoomByID id ;;
  match got with
  | Err err => ret (Err err)
  | Ok room =>
  let store (room : LiveRoom.t) : M (result error LiveRoom.t) :=
    let room :=
      if negb (String.eqb (LiveRoom.Status newRoom) (LiveRoom.Status room))
      then LiveRoom.set_Status (LiveRoom.Status newRoom) room else room in
    let room :=
      if negb (String.eqb (LiveRoom.RTCRoom newRoom) "")
      then LiveRoom.set_RTCRoom (LiveRoom.RTCRoom newRoom) room else room in
    let room :=
      if negb (String.eqb (LiveRoom.PlayURL newRoom) "")
      then LiveRoom.set_PlayURL (LiveRoom.PlayURL newRoom) room else room in
    let room := LiveRoom.set_PKAnchor (LiveRoom.PKAnchor newRoom) room in
    err <- UpdateOne roomColl [("_id", Is (BString id))] (SetDoc room) ;;
    match err with
    | Some e => ret (Err (MongoError e))
    | None => ret (Ok room)
    end in
  if negb (String.eqb (LiveRoom.Name newRoom) "")
     && negb (String.eqb (LiveRoom.Name newRoom) (LiveRoom.Name room))
  then
    other <- GetRoomByFields [("_id", Ne (BString (LiveRoom.Name newRoom)));
                              ("name", Is (BString (LiveRoom.Name newRoom)))] ;;
    match other with
    | Err (ServerError ServerErrorRoomNotFound) =>
        store (LiveRoom.set_Name (LiveRoom.Name newRoom) room)
    | Err _ => ret (Err (ServerError ServerErrorMongoOpFail))
    | Ok _ => ret (Err (ServerError ServerErrorRoomNameUsed))
    end
  else store room
  end.

(** The test of lines 301 and 366: single live, PK live or waiting for PK. *)
Definition isBroadcasting (s : UserStatus) : bool :=
  UserStatus_eqb s UserStatusSingleLive
  || UserStatus_eqb s UserStatusPKLive
  || UserStatus_eqb s UserStatusPKWait.

(** [EnterRoom] (room.go:285-325). *)
Definition EnterRoom (userID roomID : string) : M (result error LiveRoom.t) :=
  got <- GetRoomByID roomID ;;
  match got with
  | Err err => ret (Err err)
  | Ok room =>
  found <- One activeUserColl [("_id", Is (BString userID))] ;;
  match found with
  | Err e => ret (Err (MongoError e))
  | Ok activeUser =>
  if isBroadcasting (ActiveUser.Status activeUser)
  then ret (Err (ServerError ServerErrorUserBroadcasting)) else
  if UserStatus_eqb (ActiveUser.Status activeUser) UserStatusJoined
     || UserStatus_eqb (ActiveUser.Status activeUser) UserStatusJoinWait
  then
    if String.eqb (ActiveUser.Room activeUser) roomID
    then ret (Ok room)
    else ret (Err (ServerError ServerErrorUserJoined))
  else
  let activeUser := ActiveUser.set_Status UserStatusWatching activeUser in
  let activeUser := ActiveUser.set_Room roomID activeUser in
  err <- UpdateOne activeUserColl [("_id", Is (BString userID))] (SetDoc activeUser) ;;
  match err with
  | Some e => ret (Err (MongoError e))
  | None => ret (Ok room)
  end
  end
  end.

(** [ListRoomsByFields] (room.go:328-342); [fields] may be the nil map. *)
Definition ListRoomsByFields (fields : option filterM) : M (list LiveRoom.t * option error) :=
  let fields := match fields with None => [] | Some f => f end in
  ' (rooms, _) <- All roomColl fields ;;
  ret (rooms, None).

(** [LeaveRoom] (room.go:345-379).  The error of the lookup of the room and
    the error of the update are only logged. *)
Definition LeaveRoom (userID roomID : string) : M (option error) :=
  _ <- GetRoomByID roomID ;;
  found <- One activeUserColl [("_id", Is (BString userID))] ;;
  match found with
  | Err e => ret (Some (MongoError e))
  | Ok activeUser =>
  if isBroadcasting (ActiveUser.Status activeUser)
  then ret (Some (ServerError ServerErrorUserBroadcasting)) else
  let activeUser := ActiveUser.set_Status UserStatusIdle activeUser in
  let activeUser := ActiveUser.set_Room "" activeUser in
  let activeUser := ActiveUser.set_JoinPosition None activeUser in
  _ <- UpdateOne activeUserColl [("_id", Is (BString userID))] (SetDoc activeUser) ;;
  ret None
  end.

(** The filter of [GetAudienceNumber] and [GetAllAudiences]
    (room.go:382-424). *)
Definition audienceFilter (roomID : string) : filterM :=
  [("room", Is (BString roomID));
   ("status", OneOf [BStatus UserStatusWatching; BStatus UserStatusJoined;
                     BStatus UserStatusJoinWait])].

Definition GetAudienceNumber (roomID : string) : M (result error Z) :=
  got <- GetRoomByID roomID ;;
  match got with
  | Err err => ret (Err err)
  | Ok room =>
  ' (audienceCount, err) <- Count activeUserColl (audienceFilter (LiveRoom.ID room)) ;;
  match err with
  | Some e => ret (Err (MongoError e))
  | None => ret (Ok audienceCount)
  end
  end.

Definition GetAllAudiences (roomID : string) : M (result error (list ActiveUser.t)) :=
  got <- GetRoomByID roomID ;;
  match got with
  | Err err => ret (Err err)
  | Ok room =>
  ' (users, err) <- All activeUserColl (audienceFilter (LiveRoom.ID room)) ;;
  match err with
  | Some e => ret (Err (MongoError e))
  | None => ret (Ok users)
  end
  end.
End Controller.

Unset Implicit Arguments.

(** ** Reading the store *)

(** The record the store holds under an ["_id"]. *)
Definition lookup_room (id : string) (db : Mongo) : option LiveRoom.t :=
  find (fun r => String.eqb (LiveRoom.ID r) id) (rooms db).

Definition lookup_user (id : string) (db : Mongo) : option ActiveUser.t :=
  find (fun u => String.eqb (ActiveUser.ID u) id) (activeUsers db).

(** A call that is turned down with a [ServerError]: the code, the round
    trips it made, and both collections as they were. *)
Definition rejected {A} (run : result error A * Mongo) (db : Mongo)
    (code : ServerErrorCode) (ops : list (Coll * Op)) : Prop :=
  fst run = Err (ServerError code)
  /\ rooms (snd run) = rooms db
  /\ activeUsers (snd run) = activeUsers db
  /\ trace (snd run) = trace db ++ ops.

(** ** Sample stores *)

Module Sample.
Definition r1 : LiveRoom.t := LiveRoom.mk "r1" "alice-room" "u1" "single" "rtc-1" "rtmp://play/1" "".
Definition r2 : LiveRoom.t := LiveRoom.mk "r2" "bob-room" "u2" "pk" "rtc-2" "rtmp://play/2" "u1".

Definition u1 : ActiveUser.t := ActiveUser.mk "u1" UserStatusSingleLive "r1" None.
Definition u2 : ActiveUser.t := ActiveUser.mk "u2" UserStatusPKLive "r2" None.
Definition u3 : ActiveUser.t := ActiveUser.mk "u3" UserStatusWatching "r1" None.
Definition u4 : ActiveUser.t := ActiveUser.mk "u4" UserStatusJoinWait "r1" (Some 1).
Definition u5 : ActiveUser.t := ActiveUser.mk "u5" UserStatusJoined "r1" (Some 2).
Definition u6 : ActiveUser.t := ActiveUser.mk "u6" UserStatusIdle "" None.

Definition db : Mongo :=
  {| rooms := [r1; r2]; activeUsers := [u1; u2; u3; u4; u5; u6]; faults := []; trace := [] |}.

(** Twenty rooms, each with its own name and creator: the store at the
    default limit. *)
Definition nth_room (i : nat) : LiveRoom.t :=
  let tag := String (Ascii.ascii_of_nat (97 + i)) "" in
  LiveRoom.mk ("r-" ++ tag) ("room-" ++ tag) ("u-" ++ tag) "single" "" "" "".

Definition full : Mongo :=
  {| rooms := map nth_room (seq 0 20);
     activeUsers := [ActiveUser.mk "u-a" UserStatusSingleLive "r-a" None];
     faults := []; trace := [] |}.
End Sample.

(** ** CloseRoom: what the claims speak of *)

Definition isAudience (s : UserStatus) : bool :=
  match s with
  | UserStatusWatching | UserStatusJoinWait | UserStatusJoined => true
  | _ => false
  end.

(** The store keeps ["_id"] unique in each collection. *)
Definition unique_ids (db : Mongo) : Prop :=
  NoDup (map LiveRoom.ID (rooms db)) /\ NoDup (map ActiveUser.ID (activeUsers db)).

Module CloseSample.
(** The creator of [r1] is recorded as a co-streamer of the own room. *)
Definition host : ActiveUser.t := ActiveUser.mk "u1" UserStatusJoined "r1" (Some 1).
Definition db : Mongo :=
  {| rooms := [Sample.r1]; activeUsers := [host; Sample.u3]; faults := []; trace := [] |}.
End CloseSample.

(** ** UpdateRoom: sample stores *)

Module UpdateSample.
(** A room whose name is also its ID, next to [r1]. *)
Definition lounge : LiveRoom.t := LiveRoom.mk "lounge" "lounge" "u2" "single" "" "" "".
Definition db : Mongo :=
  {| rooms := [Sample.r1; lounge]; activeUsers := []; faults := []; trace := [] |}.

(** A patch that renames to ["lounge"] and changes nothing else. *)
Definition rename : LiveRoom.t := LiveRoom.mk "" "lounge" "" "single" "" "" "".

(** A patch that only carries a play URL. *)
Definition new_url : LiveRoom.t := LiveRoom.mk "" "" "" "" "" "rtmp://play/9" "".
End UpdateSample.

(** ** Invariants

    A Hoare triple for computations against the store. *)
Definition hoare {A} (P : Mongo -> Prop) (m : M A) (Q : A -> Mongo -> Prop) : Prop :=
  forall db, P db -> Q (fst (m db)) (snd (m db)).

(** ** Stores that hold the same data *)

(** Both collections of [db] are those of [db0]. *)
Definition same_data (db0 db : Mongo) : Prop :=
  rooms db = rooms db0 /\ activeUsers db = activeUsers db0.

(** ** Lemmas on filters and on the store's operations *)

Lemma count_docs_all {T} `{Document T} (l : list T) :
  count_docs (matches []) l = Z.of_nat (length l).
Proof.
  unfold count_docs. do 2 f_equal. induction l; simpl; congruence.
Qed.

Lemma count_docs_pos {T} (p : T -> bool) (l : list T) :
  count_docs p l > 0 <-> exists d, In d l /\ p d = true.
Proof.
  unfold count_docs. split.
  - intros Hn. destruct (filter p l) as [|d l'] eqn:E; [simpl in Hn; lia|].
    exists d. apply filter_In. rewrite E. now left.
  - intros [d Hd]. apply filter_In in Hd.
    destruct (filter p l); [destruct Hd | simpl length; lia].
Qed.

Lemma matches_name n (r : LiveRoom.t) :
  matches [("name", Is (BString n))] r = String.eqb (LiveRoom.Name r) n.
Proof. unfold matches. simpl. apply andb_true_r. Qed.

Lemma matches_creator n (r : LiveRoom.t) :
  matches [("creator", Is (BString n))] r = String.eqb (LiveRoom.Creator r) n.
Proof. unfold matches. simpl. apply andb_true_r. Qed.

Lemma matches_room_id n (r : LiveRoom.t) :
  matches [("_id", Is (BString n))] r = String.eqb (LiveRoom.ID r) n.
Proof. unfold matches. simpl. apply andb_true_r. Qed.

Lemma matches_user_id n (u : ActiveUser.t) :
  matches [("_id", Is (BString n))] u = String.eqb (ActiveUser.ID u) n.
Proof. unfold matches. simpl. apply andb_true_r. Qed.

Lemma find_same {T} (p q : T -> bool) (l : list T) :
  (forall d, p d = q d) -> find p l = find q l.
Proof.
  intros Hpq. induction l as [|d l IH]; simpl; [reflexivity|].
  rewrite Hpq, IH. reflexivity.
Qed.

Lemma find_room_by_id id db :
  find (matches [("_id", Is (BString id))]) (rooms db) = lookup_room id db.
Proof. apply find_same. intros r. apply matches_room_id. Qed.

Lemma find_user_by_id id db :
  find (matches [("_id", Is (BString id))]) (activeUsers db) = lookup_user id db.
Proof. apply find_same. intros r. apply matches_user_id. Qed.

Lemma find_absent {T} (p : T -> bool) (l : list T) :
  (forall d, In d l -> p d = false) -> find p l = None.
Proof.
  induction l as [|d l IH]; simpl; intros Hall; [reflexivity|].
  rewrite (Hall d (or_introl eq_refl)). apply IH. intros d' Hd'. apply Hall. now right.
Qed.

Lemma find_present {T} (p : T -> bool) (l : list T) :
  (exists d, In d l /\ p d = true) -> exists d, find p l = Some d /\ In d l /\ p d = true.
Proof.
  intros [d [Hin Hp]]. destruct (find p l) as [d'|] eqn:E.
  - exists d'. split; [reflexivity|]. now apply find_some in E.
  - rewrite (find_none _ _ E d Hin) in Hp. discriminate.
Qed.

(** Unfolds the monad and the store's operations in the goal. *)
Ltac run :=
  cbv beta iota delta [bind Count One All InsertOne UpdateOne UpdateAll RemoveId
    roundtrip read write ret coll_name coll_get coll_put roomColl activeUserColl];
  cbn [rooms activeUsers faults trace fst snd hd tl negb orb andb
       isNoDocuments IsErrNoDocuments UserStatus_eqb isBroadcasting].

(** The same when the store serves every request. *)
Ltac run_served H := run; rewrite ?H; run.

(** ** CreateRoom: the guards, one at a time *)

Section CreateRoomGuards.
Variable c : RoomController.
Variable room : LiveRoom.t.
Variable db : Mongo.
Hypothesis served : faults db = [].

Let named (r : LiveRoom.t) : Prop := LiveRoom.Name r = LiveRoom.Name room.
Let owned (r : LiveRoom.t) : Prop := LiveRoom.Creator r = LiveRoom.Creator room.

Lemma CreateRoom_count_guard :
  Z.of_nat (length (rooms db)) >= roomNumberLimit c ->
  rejected (CreateRoom c room db) db ServerErrorTooManyRooms [(Rooms, OpCount)].
Proof.
  intros Hn. unfold rejected, CreateRoom. run_served served.
  rewrite count_docs_all.
  destruct (Z.geb_spec (Z.of_nat (length (rooms db))) (roomNumberLimit c)) as [_|Hlt]; [|lia].
  run. auto.
Qed.

Lemma CreateRoom_name_guard :
  Z.of_nat (length (rooms db)) < roomNumberLimit c ->
  (exists r, In r (rooms db) /\ named r) ->
  (forall r, In r (rooms db) -> named r -> ~ owned r) ->
  rejected (CreateRoom c room db) db ServerErrorRoomNameUsed
    [(Rooms, OpCount); (Rooms, OpOne)].
Proof.
  intros Hn Hex Hall. unfold rejected, CreateRoom. run_served served.
  rewrite count_docs_all.
  destruct (Z.geb_spec (Z.of_nat (length (rooms db))) (roomNumberLimit c)) as [Hge|_]; [lia|].
  run_served served.
  destruct (find_present (matches [("name", Is (BString (LiveRoom.Name room)))]) (rooms db))
    as [e [Hfind [Hin Hm]]].
  { destruct Hex as [r [Hin Hr]]. exists r. split; [exact Hin|].
    rewrite matches_name. now apply String.eqb_eq. }
  rewrite Hfind. rewrite matches_name in Hm. apply String.eqb_eq in Hm.
  destruct (String.eqb_spec (LiveRoom.Creator e) (LiveRoom.Creator room)) as [Heq|Hne].
  - destruct (Hall e Hin Hm Heq).
  - run. rewrite <- app_assoc. auto.
Qed.

(** Guards 1 and 2 let the call through: the count is below the limit and
    no stored room has the name. *)
Lemma CreateRoom_past_name_guard :
  Z.of_nat (length (rooms db)) < roomNumberLimit c ->
  (forall r, In r (rooms db) -> ~ named r) ->
  find (matches [("name", Is (BString (LiveRoom.Name room)))]) (rooms db) = None
  /\ (Z.of_nat (length (rooms db)) >=? roomNumberLimit c) = false.
Proof.
  intros Hn Hnone. split.
  - apply find_absent. intros r Hin. rewrite matches_name.
    apply String.eqb_neq. exact (Hnone r Hin).
  - destruct (Z.geb_spec (Z.of_nat (length (rooms db))) (roomNumberLimit c)); [lia|reflexivity].
Qed.

Lemma CreateRoom_creator_guard :
  Z.of_nat (length (rooms db)) < roomNumberLimit c ->
  (forall r, In r (rooms db) -> ~ named r) ->
  (exists r, In r (rooms db) /\ owned r) ->
  rejected (CreateRoom c room db) db ServerErrorCanOnlyCreateOneRoom
    [(Rooms, OpCount); (Rooms, OpOne); (Rooms, OpCount)].
Proof.
  intros Hn Hnone Hex. destruct (CreateRoom_past_name_guard Hn Hnone) as [Hfind Hlim].
  unfold rejected, CreateRoom. run_served served.
  rewrite count_docs_all, Hlim. run_served served. rewrite Hfind. run_served served.
  assert (Hpos : count_docs (matches [("creator", Is (BString (LiveRoom.Creator room)))])
                   (rooms db) > 0).
  { apply count_docs_pos. destruct Hex as [r [Hin Hr]]. exists r. split; [exact Hin|].
    rewrite matches_creator. now apply String.eqb_eq. }
  destruct (Z.gtb_spec (count_docs (matches [("creator", Is (BString (LiveRoom.Creator room)))])
              (rooms db)) 0) as [_|Hle]; [|lia].
  run. rewrite <- !app_assoc. auto.
Qed.

Lemma CreateRoom_past_creator_guard :
  (forall r, In r (rooms db) -> ~ owned r) ->
  (count_docs (matches [("creator", Is (BString (LiveRoom.Creator room)))]) (rooms db) >? 0)
  = false.
Proof.
  intros Hnone.
  destruct (Z.gtb_spec (count_docs (matches [("creator", Is (BString (LiveRoom.Creator room)))])
              (rooms db)) 0) as [Hpos|_]; [|reflexivity].
  apply Z.lt_gt, count_docs_pos in Hpos. destruct Hpos as [r [Hin Hr]].
  rewrite matches_creator in Hr. apply String.eqb_eq in Hr. destruct (Hnone r Hin Hr).
Qed.

Lemma CreateRoom_status_guard (u : ActiveUser.t) :
  Z.of_nat (length (rooms db)) < roomNumberLimit c ->
  (forall r, In r (rooms db) -> ~ named r) ->
  (forall r, In r (rooms db) -> ~ owned r) ->
  lookup_user (LiveRoom.Creator room) db = Some u ->
  (ActiveUser.Status u = UserStatusWatching ->
   rejected (CreateRoom c room db) db ServerErrorUserWatching
     [(Rooms, OpCount); (Rooms, OpOne); (Rooms, OpCount); (ActiveUsers, OpOne)])
  /\ (ActiveUser.Status u = UserStatusJoined \/ ActiveUser.Status u = UserStatusJoinWait ->
      rejected (CreateRoom c room db) db ServerErrorUserJoined
        [(Rooms, OpCount); (Rooms, OpOne); (Rooms, OpCount); (ActiveUsers, OpOne)]).
Proof.
  intros Hn Hnone Hfree Hu. destruct (CreateRoom_past_name_guard Hn Hnone) as [Hfind Hlim].
  pose proof (CreateRoom_past_creator_guard Hfree) as Hcnt.
  rewrite <- find_user_by_id in Hu.
  unfold rejected, CreateRoom. run_served served.
  rewrite count_docs_all, Hlim. run_served served. rewrite Hfind. run_served served.
  rewrite Hcnt. run_served served. rewrite Hu.
  split.
  - intros Hst. rewrite Hst. run. rewrite <- !app_assoc. auto.
  - intros [Hst|Hst]; rewrite Hst; run; rewrite <- !app_assoc; auto.
Qed.
End CreateRoomGuards.

(** ** CreateRoom: the claims *)

(** C1. CreateRoom checks, in this order, the room count against the limit,
    the name, the creator's other rooms and the creator's presence status.
    On a store that serves every request the first guard that fails decides
    the call: TooManyRooms when the count has reached the limit; RoomNameUsed
    when the name is held, by other creators only; CanOnlyCreateOneRoom when
    the creator has a room (under another name); UserWatching when the
    creator is watching; UserJoined when the creator is joined or joinWait.
    Each rejection comes after exactly the reads of the guards up to it and
    leaves both collections as they were; nothing is assumed about the
    guards after the failing one. *)
Theorem CreateRoom_guard_order (c : RoomController) (room : LiveRoom.t) (db : Mongo) :
  faults db = [] ->
  let n := Z.of_nat (length (rooms db)) in
  let named r := LiveRoom.Name r = LiveRoom.Name room in
  let owned r := LiveRoom.Creator r = LiveRoom.Creator room in
  let count := (Rooms, OpCount) in
  let one := (Rooms, OpOne) in
  let user := (ActiveUsers, OpOne) in
  (n >= roomNumberLimit c ->
   rejected (CreateRoom c room db) db ServerErrorTooManyRooms [count])
  /\ (n < roomNumberLimit c ->
      (exists r, In r (rooms db) /\ named r) ->
      (forall r, In r (rooms db) -> named r -> ~ owned r) ->
      rejected (CreateRoom c room db) db ServerErrorRoomNameUsed [count; one])
  /\ (n < roomNumberLimit c ->
      (forall r, In r (rooms db) -> ~ named r) ->
      (exists r, In r (rooms db) /\ owned r) ->
      rejected (CreateRoom c room db) db ServerErrorCanOnlyCreateOneRoom [count; one; count])
  /\ (forall u,
      n < roomNumberLimit c ->
      (forall r, In r (rooms db) -> ~ named r) ->
      (forall r, In r (rooms db) -> ~ owned r) ->
      lookup_user (LiveRoom.Creator room) db = Some u ->
      (ActiveUser.Status u = UserStatusWatching ->
       rejected (CreateRoom c room db) db ServerErrorUserWatching [count; one; count; user])
      /\ (ActiveUser.Status u = UserStatusJoined \/ ActiveUser.Status u = UserStatusJoinWait ->
          rejected (CreateRoom c room db) db ServerErrorUserJoined [count; one; count; user])).
Proof.
  intros Hs n named owned count one user.
  split; [|split; [|split]].
  - now apply CreateRoom_count_guard.
  - now apply CreateRoom_name_guard.
  - now apply CreateRoom_creator_guard.
  - intros u. now apply CreateRoom_status_guard.
Qed.

(** The five rejections on the sample store.  In the first, every guard
    would fail (at limit 2 the store is full, the name is [u2]'s, [u3] is
    watching) and the count decides; in the second the name decides although
    [u3] is watching. *)
Lemma CreateRoom_guard_order_witness :
  faults Sample.db = []
  /\ rejected (CreateRoom {| roomNumberLimit := 2 |}
                 (LiveRoom.mk "r3" "bob-room" "u3" "single" "" "" "") Sample.db)
       Sample.db ServerErrorTooManyRooms [(Rooms, OpCount)]
  /\ rejected (CreateRoom NewRoomController
                 (LiveRoom.mk "r3" "bob-room" "u3" "single" "" "" "") Sample.db)
       Sample.db ServerErrorRoomNameUsed [(Rooms, OpCount); (Rooms, OpOne)]
  /\ rejected (CreateRoom NewRoomController
                 (LiveRoom.mk "r3" "new-room" "u1" "single" "" "" "") Sample.db)
       Sample.db ServerErrorCanOnlyCreateOneRoom
       [(Rooms, OpCount); (Rooms, OpOne); (Rooms, OpCount)]
  /\ rejected (CreateRoom NewRoomController
                 (LiveRoom.mk "r3" "new-room" "u3" "single" "" "" "") Sample.db)
       Sample.db ServerErrorUserWatching
       [(Rooms, OpCount); (Rooms, OpOne); (Rooms, OpCount); (ActiveUsers, OpOne)]
  /\ rejected (CreateRoom NewRoomController
                 (LiveRoom.mk "r3" "new-room" "u4" "single" "" "" "") Sample.db)
       Sample.db ServerErrorUserJoined
       [(Rooms, OpCount); (Rooms, OpOne); (Rooms, OpCount); (ActiveUsers, OpOne)].
Proof.
  split; [reflexivity|].
  split; [|split; [|split; [|split]]].
  - apply (CreateRoom_guard_order {| roomNumberLimit := 2 |}
             (LiveRoom.mk "r3" "bob-room" "u3" "single" "" "" "") Sample.db eq_refl).
    vm_compute. discriminate.
  - apply (CreateRoom_guard_order NewRoomController
             (LiveRoom.mk "r3" "bob-room" "u3" "single" "" "" "") Sample.db eq_refl).
    + reflexivity.
    + exists Sample.r2. split; [right; left|]; reflexivity.
    + intros r [<-|[<-|[]]]; simpl; discriminate.
  - apply (CreateRoom_guard_order NewRoomController
             (LiveRoom.mk "r3" "new-room" "u1" "single" "" "" "") Sample.db eq_refl).
    + reflexivity.
    + intros r [<-|[<-|[]]]; simpl; discriminate.
    + exists Sample.r1. split; [left|]; reflexivity.
  - destruct (CreateRoom_guard_order NewRoomController
                (LiveRoom.mk "r3" "new-room" "u3" "single" "" "" "") Sample.db eq_refl)
      as (_ & _ & _ & H).
    apply (H Sample.u3).
    + reflexivity.
    + intros r [<-|[<-|[]]]; simpl; discriminate.
    + intros r [<-|[<-|[]]]; simpl; discriminate.
    + reflexivity.
    + reflexivity.
  - destruct (CreateRoom_guard_order NewRoomController
                (LiveRoom.mk "r3" "new-room" "u4" "single" "" "" "") Sample.db eq_refl)
      as (_ & _ & _ & H).
    apply (H Sample.u4).
    + reflexivity.
    + intros r [<-|[<-|[]]]; simpl; discriminate.
    + intros r [<-|[<-|[]]]; simpl; discriminate.
    + reflexivity.
    + right. reflexivity.
Defined.

(** C2, as stated, fails at the limit: with the default limit of 20 and 20
    rooms stored, the creator of the first room asks again for a room of the
    same name; the count guard comes first and the call is turned down
    instead of returning the stored room. *)
Lemma CreateRoom_same_creator_at_limit :
  let room := LiveRoom.mk "r-new" "room-a" "u-a" "single" "" "" "" in
  faults Sample.full = []
  /\ (exists e, In e (rooms Sample.full)
                /\ LiveRoom.Name e = LiveRoom.Name room
                /\ LiveRoom.Creator e = LiveRoom.Creator room)
  /\ fst (CreateRoom NewRoomController room Sample.full)
     = Err (ServerError ServerErrorTooManyRooms).
Proof.
  split; [reflexivity|]. split; [|reflexivity].
  exists (Sample.nth_room 0). split; [left; reflexivity|]. split; reflexivity.
Qed.

(** C2 (amended). On a store that serves every request and holds fewer rooms
    than the limit, a candidate whose name is the name of a stored room of
    the same creator, no room of another creator bearing that name, gets a
    stored room of that name and creator back; only the count and the lookup
    by name are issued, nothing is inserted and both collections stay as
    they were. *)
Theorem CreateRoom_same_creator_returns_existing
    (c : RoomController) (room : LiveRoom.t) (db : Mongo) :
  faults db = [] ->
  Z.of_nat (length (rooms db)) < roomNumberLimit c ->
  (exists e, In e (rooms db)
             /\ LiveRoom.Name e = LiveRoom.Name room
             /\ LiveRoom.Creator e = LiveRoom.Creator room) ->
  (forall r, In r (rooms db) -> LiveRoom.Name r = LiveRoom.Name room ->
             LiveRoom.Creator r = LiveRoom.Creator room) ->
  exists e,
    In e (rooms db)
    /\ LiveRoom.Name e = LiveRoom.Name room
    /\ LiveRoom.Creator e = LiveRoom.Creator room
    /\ fst (CreateRoom c room db) = Ok e
    /\ rooms (snd (CreateRoom c room db)) = rooms db
    /\ activeUsers (snd (CreateRoom c room db)) = activeUsers db
    /\ trace (snd (CreateRoom c room db)) = trace db ++ [(Rooms, OpCount); (Rooms, OpOne)].
Proof.
  intros Hs Hn Hex Hall.
  destruct (find_present (matches [("name", Is (BString (LiveRoom.Name room)))]) (rooms db))
    as [e [Hfind [Hin Hm]]].
  { destruct Hex as [r [Hin [Hr _]]]. exists r. split; [exact Hin|].
    rewrite matches_name. now apply String.eqb_eq. }
  rewrite matches_name in Hm. apply String.eqb_eq in Hm.
  exists e. repeat (split; [assumption || (now apply Hall) |]).
  unfold CreateRoom. run_served Hs. rewrite count_docs_all.
  destruct (Z.geb_spec (Z.of_nat (length (rooms db))) (roomNumberLimit c)) as [Hge|_]; [lia|].
  run_served Hs. rewrite Hfind.
  rewrite (proj2 (String.eqb_eq _ _) (Hall e Hin Hm)). run.
  rewrite <- app_assoc. auto.
Qed.

Lemma CreateRoom_same_creator_returns_existing_witness :
  exists e,
    In e (rooms Sample.db)
    /\ LiveRoom.Name e = "alice-room"
    /\ LiveRoom.Creator e = "u1"
    /\ fst (CreateRoom NewRoomController
              (LiveRoom.mk "r9" "alice-room" "u1" "single" "" "" "") Sample.db) = Ok e
    /\ rooms (snd (CreateRoom NewRoomController
              (LiveRoom.mk "r9" "alice-room" "u1" "single" "" "" "") Sample.db))
       = rooms Sample.db
    /\ activeUsers (snd (CreateRoom NewRoomController
              (LiveRoom.mk "r9" "alice-room" "u1" "single" "" "" "") Sample.db))
       = activeUsers Sample.db
    /\ trace (snd (CreateRoom NewRoomController
              (LiveRoom.mk "r9" "alice-room" "u1" "single" "" "" "") Sample.db))
       = trace Sample.db ++ [(Rooms, OpCount); (Rooms, OpOne)].
Proof.
  apply (CreateRoom_same_creator_returns_existing NewRoomController
           (LiveRoom.mk "r9" "alice-room" "u1" "single" "" "" "") Sample.db).
  - reflexivity.
  - reflexivity.
  - exists Sample.r1. split; [left; reflexivity|]. split; reflexivity.
  - intros r [<-|[<-|[]]]; simpl; intros; (reflexivity || discriminate).
Defined.

Lemma insert_fresh (room : LiveRoom.t) (db : Mongo) :
  lookup_room (LiveRoom.ID room) db = None ->
  existsb (fun d' : LiveRoom.t => bson_eqb (field d' "_id") (field room "_id")) (rooms db) = false.
Proof.
  intros Hnone. destruct (existsb _ (rooms db)) eqn:E; [|reflexivity].
  apply existsb_exists in E. destruct E as [r [Hin Hr]].
  simpl in Hr. unfold lookup_room in Hnone.
  rewrite (find_none _ _ Hnone r Hin) in Hr. discriminate.
Qed.

(** C8. When a call passes the four guards, the insert of the room succeeds
    and the store then fails the update of the creator's record, CreateRoom
    still answers with the room and no error: the room is stored, the
    creator's record is as it was, and the failure reaches nobody. *)
Theorem CreateRoom_absorbs_user_update_failure
    (c : RoomController) (room : LiveRoom.t) (db : Mongo)
    (u : ActiveUser.t) (flt : Fault) (later : list (option Fault)) :
  faults db = None :: None :: None :: None :: None :: Some flt :: later ->
  Z.of_nat (length (rooms db)) < roomNumberLimit c ->
  (forall r, In r (rooms db) -> LiveRoom.Name r <> LiveRoom.Name room) ->
  (forall r, In r (rooms db) -> LiveRoom.Creator r <> LiveRoom.Creator room) ->
  lookup_user (LiveRoom.Creator room) db = Some u ->
  ActiveUser.Status u <> UserStatusWatching ->
  ActiveUser.Status u <> UserStatusJoined ->
  ActiveUser.Status u <> UserStatusJoinWait ->
  lookup_room (LiveRoom.ID room) db = None ->
  fst (CreateRoom c room db) = Ok room
  /\ rooms (snd (CreateRoom c room db)) = rooms db ++ [room]
  /\ activeUsers (snd (CreateRoom c room db)) = activeUsers db
  /\ faults (snd (CreateRoom c room db)) = later
  /\ trace (snd (CreateRoom c room db))
     = trace db ++ [(Rooms, OpCount); (Rooms, OpOne); (Rooms, OpCount);
                    (ActiveUsers, OpOne); (Rooms, OpInsertOne); (ActiveUsers, OpUpdateOne)].
Proof.
  intros Hf Hn Hname Hcreator Hu Hw Hj Hjw Hid.
  destruct (CreateRoom_past_name_guard c room db Hn Hname) as [Hfind Hlim].
  pose proof (CreateRoom_past_creator_guard room db Hcreator) as Hcnt.
  rewrite <- find_user_by_id in Hu.
  unfold CreateRoom. run_served Hf.
  rewrite count_docs_all, Hlim. run_served Hf. rewrite Hfind. run_served Hf.
  rewrite Hcnt. run_served Hf. rewrite Hu.
  destruct (ActiveUser.Status u) eqn:Est; try congruence; run_served Hf;
    rewrite (insert_fresh room db Hid); run_served Hf; rewrite <- !app_assoc; auto.
Qed.

Lemma CreateRoom_absorbs_user_update_failure_witness :
  let db := {| rooms := rooms Sample.db; activeUsers := activeUsers Sample.db;
               faults := [None; None; None; None; None;
                          Some {| fault_err := ErrUnavailable; fault_decoded := 0 |}];
               trace := [] |} in
  let room := LiveRoom.mk "r3" "carol-room" "u6" "single" "" "" "" in
  fst (CreateRoom NewRoomController room db) = Ok room
  /\ rooms (snd (CreateRoom NewRoomController room db)) = rooms db ++ [room]
  /\ activeUsers (snd (CreateRoom NewRoomController room db)) = activeUsers db
  /\ faults (snd (CreateRoom NewRoomController room db)) = []
  /\ trace (snd (CreateRoom NewRoomController room db))
     = trace db ++ [(Rooms, OpCount); (Rooms, OpOne); (Rooms, OpCount);
                    (ActiveUsers, OpOne); (Rooms, OpInsertOne); (ActiveUsers, OpUpdateOne)].
Proof.
  intros db room.
  apply (CreateRoom_absorbs_user_update_failure NewRoomController room db Sample.u6
           {| fault_err := ErrUnavailable; fault_decoded := 0 |} []).
  - reflexivity.
  - reflexivity.
  - intros r [<-|[<-|[]]]; simpl; discriminate.
  - intros r [<-|[<-|[]]]; simpl; discriminate.
  - reflexivity.
  - simpl; discriminate.
  - simpl; discriminate.
  - simpl; discriminate.
  - reflexivity.
Defined.

(** ** CloseRoom *)

Section Keyed.
Context {T : Type}.
Variable key : T -> string.

Lemma map_no_match (p : T -> bool) (g : T -> T) (l : list T) :
  existsb p l = false -> map (fun d => if p d then g d else d) l = l.
Proof.
  induction l as [|d l IH]; simpl; [reflexivity|].
  intros Hex. apply orb_false_iff in Hex. destruct Hex as [Hd Hl].
  rewrite Hd, (IH Hl). reflexivity.
Qed.

Lemma key_absent (k : string) (l : list T) :
  ~ In k (map key l) -> existsb (fun d => String.eqb (key d) k) l = false.
Proof.
  induction l as [|d l IH]; simpl; [reflexivity|].
  intros Hnot. apply orb_false_iff. split.
  - apply String.eqb_neq. intros Heq. apply Hnot. now left.
  - apply IH. intros Hin. apply Hnot. now right.
Qed.

(** With unique keys, updating the first record under a key updates every
    record under it. *)
Lemma update_first_unique (k : string) (g : T -> T) (l : list T) :
  NoDup (map key l) ->
  update_first (fun d => String.eqb (key d) k) g l
  = map (fun d => if String.eqb (key d) k then g d else d) l.
Proof.
  induction l as [|d l IH]; simpl; [reflexivity|].
  intros Hnd. inversion Hnd as [|? ? Hnot Hnd']; subst.
  destruct (String.eqb_spec (key d) k) as [Heq|Hne].
  - subst k. rewrite (map_no_match _ g l (key_absent _ _ Hnot)). reflexivity.
  - rewrite (IH Hnd'). reflexivity.
Qed.

Lemma remove_first_unique (k : string) (l : list T) :
  NoDup (map key l) ->
  remove_first (fun d => String.eqb (key d) k) l
  = filter (fun d => negb (String.eqb (key d) k)) l.
Proof.
  induction l as [|d l IH]; simpl; [reflexivity|].
  intros Hnd. inversion Hnd as [|? ? Hnot Hnd']; subst.
  destruct (String.eqb_spec (key d) k) as [Heq|Hne]; simpl.
  - subst k. symmetry. apply forallb_filter_id.
    apply forallb_forall. intros d' Hd'. apply negb_true_iff, String.eqb_neq.
    intros Heq. apply Hnot. rewrite <- Heq. now apply in_map.
  - rewrite (IH Hnd'). reflexivity.
Qed.
End Keyed.

Lemma update_first_same {T} (p q : T -> bool) (g : T -> T) (l : list T) :
  (forall d, p d = q d) -> update_first p g l = update_first q g l.
Proof.
  intros Hpq. induction l as [|d l IH]; simpl; [reflexivity|].
  rewrite Hpq, IH. reflexivity.
Qed.

Lemma remove_first_same {T} (p q : T -> bool) (l : list T) :
  (forall d, p d = q d) -> remove_first p l = remove_first q l.
Proof.
  intros Hpq. induction l as [|d l IH]; simpl; [reflexivity|].
  rewrite Hpq, IH. reflexivity.
Qed.

Lemma existsb_same {T} (p q : T -> bool) (l : list T) :
  (forall d, p d = q d) -> existsb p l = existsb q l.
Proof.
  intros Hpq. induction l as [|d l IH]; simpl; [reflexivity|].
  rewrite Hpq, IH. reflexivity.
Qed.

Lemma matches_id_creator roomID userID (r : LiveRoom.t) :
  matches [("_id", Is (BString roomID)); ("creator", Is (BString userID))] r
  = String.eqb (LiveRoom.ID r) roomID && String.eqb (LiveRoom.Creator r) userID.
Proof. unfold matches. simpl. now rewrite andb_true_r. Qed.

Lemma matches_audience roomID (u : ActiveUser.t) :
  matches [("room", Is (BString roomID)); ("status", OneOf audienceStatuses)] u
  = String.eqb (ActiveUser.Room u) roomID && isAudience (ActiveUser.Status u).
Proof.
  unfold matches. simpl. destruct (ActiveUser.Status u); simpl; now rewrite ?andb_true_r.
Qed.

(** The update of the closer's record, whether or not the closer has one. *)
Lemma close_creator_update userID (users : list ActiveUser.t) :
  NoDup (map ActiveUser.ID users) ->
  (if existsb (matches [("_id", Is (BString userID))]) users
   then update_first (matches [("_id", Is (BString userID))])
          (apply_update (SetFields [("room", BString ""); ("status", BStatus UserStatusIdle)]))
          users
   else users)
  = map (fun u => if String.eqb (ActiveUser.ID u) userID
                  then ActiveUser.mk (ActiveUser.ID u) UserStatusIdle "" (ActiveUser.JoinPosition u)
                  else u) users.
Proof.
  intros Hnd.
  rewrite (existsb_same _ _ users (matches_user_id userID)).
  rewrite (update_first_same _ _ _ users (matches_user_id userID)).
  destruct (existsb _ users) eqn:E.
  - now rewrite (update_first_unique ActiveUser.ID userID _ users Hnd).
  - symmetry. now apply map_no_match.
Qed.

(** The two updates of CloseRoom, one after the other, on one record. *)
Lemma close_updates userID roomID (u : ActiveUser.t) :
  (fun d : ActiveUser.t =>
     if matches [("room", Is (BString roomID)); ("status", OneOf audienceStatuses)] d
     then apply_update (SetFields [("room", BString ""); ("status", BStatus UserStatusIdle);
                                   ("joinPosition", BNull)]) d
     else d)
    (if String.eqb (ActiveUser.ID u) userID
     then ActiveUser.mk (ActiveUser.ID u) UserStatusIdle "" (ActiveUser.JoinPosition u)
     else u)
  = (if String.eqb (ActiveUser.ID u) userID
     then ActiveUser.mk (ActiveUser.ID u) UserStatusIdle "" (ActiveUser.JoinPosition u)
     else if String.eqb (ActiveUser.Room u) roomID && isAudience (ActiveUser.Status u)
     then ActiveUser.mk (ActiveUser.ID u) UserStatusIdle "" None
     else u).
Proof.
  cbv beta. rewrite matches_audience.
  destruct (String.eqb (ActiveUser.ID u) userID); simpl.
  - rewrite andb_false_r. reflexivity.
  - destruct (String.eqb (ActiveUser.Room u) roomID && isAudience (ActiveUser.Status u));
      reflexivity.
Qed.

(** What CloseRoom writes, on a store that serves every request and keeps
    the IDs unique.  When no room has ID = roomID and Creator = userID it
    fails RoomNotFound and leaves both collections as they were.  When
    there is one, the room record is removed, the closer's presence record
    is set idle with empty Room by the first update (its JoinPosition is
    not among the fields set), every other record whose Room = roomID and
    whose Status is watching, joinWait or joined is set idle with empty
    Room and no JoinPosition by the second, and the remaining records are
    untouched. *)
Lemma CloseRoom_writes (userID roomID : string) (db : Mongo) :
  faults db = [] ->
  unique_ids db ->
  let owned r := LiveRoom.ID r = roomID /\ LiveRoom.Creator r = userID in
  let db' := snd (CloseRoom userID roomID db) in
  ((forall r, In r (rooms db) -> ~ owned r) ->
   fst (CloseRoom userID roomID db) = Some (ServerError ServerErrorRoomNotFound)
   /\ rooms db' = rooms db
   /\ activeUsers db' = activeUsers db)
  /\ ((exists r, In r (rooms db) /\ owned r) ->
      fst (CloseRoom userID roomID db) = None
      /\ rooms db' = filter (fun r => negb (String.eqb (LiveRoom.ID r) roomID)) (rooms db)
      /\ activeUsers db'
         = map (fun u =>
                  if String.eqb (ActiveUser.ID u) userID
                  then ActiveUser.mk (ActiveUser.ID u) UserStatusIdle ""
                         (ActiveUser.JoinPosition u)
                  else if String.eqb (ActiveUser.Room u) roomID
                          && isAudience (ActiveUser.Status u)
                  then ActiveUser.mk (ActiveUser.ID u) UserStatusIdle "" None
                  else u)
               (activeUsers db)).
Proof.
  intros Hs [Hrooms Husers] owned db'. subst db'. split.
  - intros Hnone. unfold CloseRoom. run_served Hs.
    rewrite find_absent; [run; auto|].
    intros r Hin. rewrite matches_id_creator.
    destruct (String.eqb_spec (LiveRoom.ID r) roomID) as [Hid|]; [|reflexivity].
    destruct (String.eqb_spec (LiveRoom.Creator r) userID) as [Hcr|]; [|reflexivity].
    destruct (Hnone r Hin (conj Hid Hcr)).
  - intros Hex.
    destruct (find_present
                (matches [("_id", Is (BString roomID)); ("creator", Is (BString userID))])
                (rooms db)) as [e [Hfind [Hin Hm]]].
    { destruct Hex as [r [Hin [Hid Hcr]]]. exists r. split; [exact Hin|].
      rewrite matches_id_creator. apply andb_true_iff. split; now apply String.eqb_eq. }
    rewrite matches_id_creator in Hm. apply andb_true_iff in Hm. destruct Hm as [Hid _].
    assert (Hthere : existsb (matches [("_id", Is (BString roomID))]) (rooms db) = true).
    { apply existsb_exists. exists e. split; [exact Hin|]. now rewrite matches_room_id. }
    unfold CloseRoom. run_served Hs. rewrite Hfind. run_served Hs. rewrite Hthere.
    run_served Hs.
    assert (Hroomsleft :
              remove_first (matches [("_id", Is (BString roomID))]) (rooms db)
              = filter (fun r => negb (String.eqb (LiveRoom.ID r) roomID)) (rooms db)).
    { rewrite (remove_first_same _ _ (rooms db) (matches_room_id roomID)).
      now apply (remove_first_unique LiveRoom.ID). }
    pose proof (close_creator_update userID (activeUsers db) Husers) as Hcreator.
    destruct (existsb (matches [("_id", Is (BString userID))]) (activeUsers db));
      run_served Hs; (split; [reflexivity|]); (split; [exact Hroomsleft|]);
      (etransitivity; [apply f_equal; exact Hcreator|]);
      rewrite map_map; apply map_ext; intros u; apply close_updates.
Qed.

(** C3. On a store that serves every request, the closer not being
    recorded in the audience of that very room with a join position (the
    creator of a room is its broadcaster, and a broadcaster is let into no
    audience): when no room has ID = roomID and Creator = userID, CloseRoom
    fails RoomNotFound and leaves both collections as they were; when
    there is one, CloseRoom succeeds, the room record is gone, every
    presence record whose Room = roomID and whose Status is watching,
    joinWait or joined is idle with empty Room and no JoinPosition, the
    closer's presence record is idle with empty Room, and the remaining
    records are untouched. *)
Theorem CloseRoom_cascade (userID roomID : string) (db : Mongo) :
  faults db = [] ->
  unique_ids db ->
  (forall c, In c (activeUsers db) ->
             ActiveUser.ID c = userID ->
             ActiveUser.Room c = roomID ->
             isAudience (ActiveUser.Status c) = true ->
             ActiveUser.JoinPosition c = None) ->
  let owned r := LiveRoom.ID r = roomID /\ LiveRoom.Creator r = userID in
  let db' := snd (CloseRoom userID roomID db) in
  ((forall r, In r (rooms db) -> ~ owned r) ->
   fst (CloseRoom userID roomID db) = Some (ServerError ServerErrorRoomNotFound)
   /\ rooms db' = rooms db
   /\ activeUsers db' = activeUsers db)
  /\ ((exists r, In r (rooms db) /\ owned r) ->
      fst (CloseRoom userID roomID db) = None
      /\ rooms db' = filter (fun r => negb (String.eqb (LiveRoom.ID r) roomID)) (rooms db)
      /\ activeUsers db'
         = map (fun u =>
                  if String.eqb (ActiveUser.Room u) roomID
                     && isAudience (ActiveUser.Status u)
                  then ActiveUser.mk (ActiveUser.ID u) UserStatusIdle "" None
                  else if String.eqb (ActiveUser.ID u) userID
                  then ActiveUser.mk (ActiveUser.ID u) UserStatusIdle ""
                         (ActiveUser.JoinPosition u)
                  else u)
               (activeUsers db)).
Proof.
  intros Hs Hunique Hcloser owned db'.
  destruct (CloseRoom_writes userID roomID db Hs Hunique) as [Hmissing Hfound].
  split; [exact Hmissing|].
  intros Hex. destruct (Hfound Hex) as (Hres & Hrooms & Husers).
  split; [exact Hres|]. split; [exact Hrooms|].
  subst db'. rewrite Husers. apply map_ext_in. intros u Hin.
  destruct (String.eqb_spec (ActiveUser.ID u) userID) as [Hid|_];
    destruct (String.eqb_spec (ActiveUser.Room u) roomID) as [Hroom|_];
    destruct (isAudience (ActiveUser.Status u)) eqn:Haud; simpl; try reflexivity.
  now rewrite (Hcloser u Hin Hid Hroom Haud).
Qed.

Lemma Sample_unique_ids : unique_ids Sample.db.
Proof.
  split; simpl; repeat constructor; simpl; intuition discriminate.
Qed.

(** On the sample store: [u1] closes the own room [r1] with its three
    viewers; [u2], who does not own [r1], is turned down. *)
Lemma CloseRoom_cascade_witness :
  (fst (CloseRoom "u1" "r1" Sample.db) = None
   /\ rooms (snd (CloseRoom "u1" "r1" Sample.db)) = [Sample.r2]
   /\ activeUsers (snd (CloseRoom "u1" "r1" Sample.db))
      = [ActiveUser.mk "u1" UserStatusIdle "" None;
         Sample.u2;
         ActiveUser.mk "u3" UserStatusIdle "" None;
         ActiveUser.mk "u4" UserStatusIdle "" None;
         ActiveUser.mk "u5" UserStatusIdle "" None;
         Sample.u6])
  /\ (fst (CloseRoom "u2" "r1" Sample.db) = Some (ServerError ServerErrorRoomNotFound)
      /\ rooms (snd (CloseRoom "u2" "r1" Sample.db)) = rooms Sample.db
      /\ activeUsers (snd (CloseRoom "u2" "r1" Sample.db)) = activeUsers Sample.db).
Proof.
  split.
  - apply (CloseRoom_cascade "u1" "r1" Sample.db eq_refl Sample_unique_ids).
    + intros c [<-|[<-|[<-|[<-|[<-|[<-|[]]]]]]]; simpl; intros; solve [reflexivity|discriminate].
    + exists Sample.r1. split; [left; reflexivity|]. split; reflexivity.
  - apply (CloseRoom_cascade "u2" "r1" Sample.db eq_refl Sample_unique_ids).
    + intros c [<-|[<-|[<-|[<-|[<-|[<-|[]]]]]]]; simpl; intros; solve [reflexivity|discriminate].
    + intros r [<-|[<-|[]]] [Hid Hcr]; discriminate.
Defined.

(** The hypothesis on the closer's record is what the order of the two
    updates asks for.  The closer's record is set idle with empty Room
    first, by an update that does not set the join position, so the update
    of the audience no longer matches it: were the closer recorded as
    joined in the room being closed, with a join position, the record
    would keep that join position. *)
Remark CloseRoom_keeps_closer_join_position :
  faults CloseSample.db = []
  /\ In CloseSample.host (activeUsers CloseSample.db)
  /\ ActiveUser.Room CloseSample.host = "r1"
  /\ ActiveUser.Status CloseSample.host = UserStatusJoined
  /\ fst (CloseRoom "u1" "r1" CloseSample.db) = None
  /\ activeUsers (snd (CloseRoom "u1" "r1" CloseSample.db))
     = [ActiveUser.mk "u1" UserStatusIdle "" (Some 1);
        ActiveUser.mk "u3" UserStatusIdle "" None].
Proof.
  repeat split. now left.
Qed.

(** ** UpdateRoom *)

(** C4: the code at the failing input.  Room ["lounge"] already bears the
    name ["lounge"] and is another room than ["r1"], so renaming ["r1"] to
    ["lounge"] should fail RoomNameUsed.  The filter of the check excludes
    the rooms whose ID is the new name ([newRoom.Name] stands where [id]
    was meant), the check finds nothing, and the rename goes through: two
    rooms are named ["lounge"]. *)
Theorem UpdateRoom_rename_onto_room_keyed_by_name :
  let db := UpdateSample.db in
  let newRoom := UpdateSample.rename in
  let renamed := LiveRoom.mk "r1" "lounge" "u1" "single" "rtc-1" "rtmp://play/1" "" in
  lookup_room "r1" db = Some Sample.r1
  /\ LiveRoom.Name newRoom <> ""
  /\ LiveRoom.Name newRoom <> LiveRoom.Name Sample.r1
  /\ (exists other, In other (rooms db)
                    /\ LiveRoom.ID other <> "r1"
                    /\ LiveRoom.Name other = LiveRoom.Name newRoom)
  /\ fst (UpdateRoom "r1" newRoom db) = Ok renamed
  /\ rooms (snd (UpdateRoom "r1" newRoom db)) = [renamed; UpdateSample.lounge].
Proof.
  repeat split; try discriminate.
  exists UpdateSample.lounge. split; [right; left; reflexivity|].
  split; [discriminate|reflexivity].
Qed.

Lemma matches_name_check newName (r : LiveRoom.t) :
  matches [("_id", Ne (BString newName)); ("name", Is (BString newName))] r
  = negb (String.eqb (LiveRoom.ID r) newName) && String.eqb (LiveRoom.Name r) newName.
Proof. unfold matches. simpl. now rewrite andb_true_r. Qed.

(** What the check of UpdateRoom does decide: on a store that serves every
    request, a rename fails RoomNameUsed exactly when a stored room bears the
    new name under an ID other than the new name. *)
Lemma UpdateRoom_name_check (id : string) (newRoom room : LiveRoom.t) (db : Mongo) :
  faults db = [] ->
  lookup_room id db = Some room ->
  LiveRoom.Name newRoom <> "" ->
  LiveRoom.Name newRoom <> LiveRoom.Name room ->
  fst (UpdateRoom id newRoom db) = Err (ServerError ServerErrorRoomNameUsed)
  <-> exists other, In other (rooms db)
                    /\ LiveRoom.ID other <> LiveRoom.Name newRoom
                    /\ LiveRoom.Name other = LiveRoom.Name newRoom.
Proof.
  intros Hs Hroom Hne Hdiff. rewrite <- find_room_by_id in Hroom.
  unfold UpdateRoom, GetRoomByID, GetRoomByFields. run_served Hs. rewrite Hroom. run_served Hs.
  rewrite (proj2 (String.eqb_neq _ _) Hne), (proj2 (String.eqb_neq _ _) Hdiff).
  run_served Hs.
  destruct (find (matches [("_id", Ne (BString (LiveRoom.Name newRoom)));
                           ("name", Is (BString (LiveRoom.Name newRoom)))]) (rooms db))
    as [other|] eqn:Hfind; run_served Hs.
  - split; [intros _|reflexivity].
    apply find_some in Hfind. destruct Hfind as [Hin Hm].
    rewrite matches_name_check in Hm. apply andb_true_iff in Hm. destruct Hm as [Hid Hname].
    exists other. split; [exact Hin|]. split.
    + now apply String.eqb_neq, negb_true_iff.
    + now apply String.eqb_eq.
  - split.
    + destruct (existsb _ (rooms db)); run; discriminate.
    + intros [other [Hin [Hid Hname]]].
      pose proof (find_none _ _ Hfind other Hin) as Hm. rewrite matches_name_check in Hm.
      rewrite (proj2 (String.eqb_neq _ _) Hid), (proj2 (String.eqb_eq _ _) Hname) in Hm.
      discriminate.
Qed.

Section KeyedLookup.
Context {T : Type}.
Variable key : T -> string.

Lemma find_update_first_hit (k : string) (d' : T) (l : list T) :
  key d' = k ->
  existsb (fun d => String.eqb (key d) k) l = true ->
  find (fun d => String.eqb (key d) k) (update_first (fun d => String.eqb (key d) k) (fun _ => d') l)
  = Some d'.
Proof.
  intros Hk. induction l as [|d l IH]; simpl; [discriminate|].
  destruct (String.eqb (key d) k) eqn:E; simpl.
  - intros _. now rewrite Hk, String.eqb_refl.
  - intros Hex. rewrite E. now apply IH.
Qed.

Lemma find_update_first_miss (k k' : string) (d' : T) (l : list T) :
  key d' = k -> k' <> k ->
  find (fun d => String.eqb (key d) k') (update_first (fun d => String.eqb (key d) k) (fun _ => d') l)
  = find (fun d => String.eqb (key d) k') l.
Proof.
  intros Hk Hne. induction l as [|d l IH]; simpl; [reflexivity|].
  destruct (String.eqb_spec (key d) k) as [Heq|Hneq]; simpl.
  - rewrite Hk, Heq. now rewrite (proj2 (String.eqb_neq k k')) by congruence.
  - now rewrite IH.
Qed.
End KeyedLookup.

Lemma find_existsb {T} (p : T -> bool) (l : list T) (d : T) :
  find p l = Some d -> existsb p l = true.
Proof.
  intros Hfind. apply find_some in Hfind. apply existsb_exists. now exists d.
Qed.

Ltac next_answer :=
  match goal with
  | |- context [hd None ?fs] => destruct (hd None fs) as [?flt|]; run
  end.

(** Closes a run of UpdateRoom that got to write: the record written is
    the one returned, and its fields are as the patch says. *)
Ltac patched room Hid Hstored :=
  let H := fresh "H" in
  intros H; injection H as <-;
  exists room; split; [reflexivity|];
  unfold lookup_room;
  cbn [rooms apply_update LiveRoom.set_Name LiveRoom.ID LiveRoom.Name LiveRoom.Creator
       LiveRoom.Status LiveRoom.RTCRoom LiveRoom.PlayURL LiveRoom.PKAnchor];
  match goal with
  | |- context [String.eqb (LiveRoom.Status ?n) (LiveRoom.Status room)] =>
      destruct (String.eqb_spec (LiveRoom.Status n) (LiveRoom.Status room));
      destruct (String.eqb (LiveRoom.RTCRoom n) "");
      destruct (String.eqb (LiveRoom.PlayURL n) "")
  end;
  cbn [negb]; (split; [apply Hstored; simpl; exact Hid|]); simpl; auto 10.

(** C5 (amended). For every successful UpdateRoom(id, newRoom), whatever the
    store answered on the way: a room was stored under [id]; the returned
    room is what is stored under [id] afterwards; its Status is
    newRoom.Status and its PKAnchor is newRoom.PKAnchor, empty or not; its
    RTCRoom and its PlayURL are those of newRoom when these are not empty
    and the stored ones otherwise; ID and Creator are the stored ones. *)
Theorem UpdateRoom_patch (id : string) (newRoom room' : LiveRoom.t) (db : Mongo) :
  fst (UpdateRoom id newRoom db) = Ok room' ->
  exists room,
    lookup_room id db = Some room
    /\ lookup_room id (snd (UpdateRoom id newRoom db)) = Some room'
    /\ LiveRoom.ID room' = LiveRoom.ID room
    /\ LiveRoom.Creator room' = LiveRoom.Creator room
    /\ LiveRoom.Status room' = LiveRoom.Status newRoom
    /\ LiveRoom.RTCRoom room'
       = (if String.eqb (LiveRoom.RTCRoom newRoom) "" then LiveRoom.RTCRoom room
          else LiveRoom.RTCRoom newRoom)
    /\ LiveRoom.PlayURL room'
       = (if String.eqb (LiveRoom.PlayURL newRoom) "" then LiveRoom.PlayURL room
          else LiveRoom.PlayURL newRoom)
    /\ LiveRoom.PKAnchor room' = LiveRoom.PKAnchor newRoom.
Proof.
  rewrite <- (find_room_by_id id db).
  unfold UpdateRoom, GetRoomByID, GetRoomByFields. run.
  next_answer.
  { destruct (isNoDocuments (fault_err flt)); run; discriminate. }
  destruct (find (matches [("_id", Is (BString id))]) (rooms db)) as [room|] eqn:Hroom; run;
    [|discriminate].
  assert (Hid : LiveRoom.ID room = id).
  { apply find_some in Hroom. destruct Hroom as [_ Hm].
    rewrite matches_room_id in Hm. now apply String.eqb_eq. }
  assert (Hthere : existsb (matches [("_id", Is (BString id))]) (rooms db) = true)
    by exact (find_existsb _ _ _ Hroom).
  assert (Hstored : forall room0 : LiveRoom.t,
            LiveRoom.ID room0 = id ->
            find (fun r => String.eqb (LiveRoom.ID r) id)
              (update_first (matches [("_id", Is (BString id))]) (apply_update (SetDoc room0))
                 (rooms db))
            = Some room0).
  { intros room0 Hid0. change (apply_update (SetDoc room0)) with (fun _ : LiveRoom.t => room0).
    rewrite (update_first_same _ _ _ (rooms db) (matches_room_id id)).
    apply (find_update_first_hit LiveRoom.ID); [exact Hid0|].
    now rewrite <- (existsb_same _ _ (rooms db) (matches_room_id id)). }
  destruct (negb (String.eqb (LiveRoom.Name newRoom) "")
            && negb (String.eqb (LiveRoom.Name newRoom) (LiveRoom.Name room))); run.
  - next_answer.
    + destruct (isNoDocuments (fault_err flt)); run; [|discriminate].
      next_answer; [discriminate|].
      rewrite Hthere. run. patched room Hid Hstored.
    + destruct (find (matches [("_id", Ne (BString (LiveRoom.Name newRoom)));
                               ("name", Is (BString (LiveRoom.Name newRoom)))]) (rooms db));
        run; [discriminate|].
      next_answer; [discriminate|].
      rewrite Hthere. run. patched room Hid Hstored.
  - next_answer; [discriminate|].
    rewrite Hthere. run. patched room Hid Hstored.
Qed.

(** On the sample store, a patch that only carries a play URL. *)
Lemma UpdateRoom_patch_witness :
  let room' := LiveRoom.mk "r1" "alice-room" "u1" "" "rtc-1" "rtmp://play/9" "" in
  exists room,
    lookup_room "r1" Sample.db = Some room
    /\ lookup_room "r1" (snd (UpdateRoom "r1" UpdateSample.new_url Sample.db)) = Some room'
    /\ LiveRoom.ID room' = LiveRoom.ID room
    /\ LiveRoom.Creator room' = LiveRoom.Creator room
    /\ LiveRoom.Status room' = LiveRoom.Status UpdateSample.new_url
    /\ LiveRoom.RTCRoom room' = LiveRoom.RTCRoom room
    /\ LiveRoom.PlayURL room' = LiveRoom.PlayURL UpdateSample.new_url
    /\ LiveRoom.PKAnchor room' = LiveRoom.PKAnchor UpdateSample.new_url.
Proof.
  intros room'.
  exact (UpdateRoom_patch "r1" UpdateSample.new_url room' Sample.db eq_refl).
Defined.

(** C5, as stated, fails for Status: a patch that carries only a play URL
    has the empty Status, and the stored Status ["single"] is overwritten
    with it. *)
Lemma UpdateRoom_empty_status_overwrites :
  lookup_room "r1" Sample.db = Some Sample.r1
  /\ LiveRoom.Status Sample.r1 = "single"
  /\ LiveRoom.Status UpdateSample.new_url = ""
  /\ fst (UpdateRoom "r1" UpdateSample.new_url Sample.db)
     = Ok (LiveRoom.mk "r1" "alice-room" "u1" "" "rtc-1" "rtmp://play/9" "")
  /\ option_map LiveRoom.Status
       (lookup_room "r1" (snd (UpdateRoom "r1" UpdateSample.new_url Sample.db)))
     = Some "".
Proof.
  repeat split.
Qed.

(** ** EnterRoom and LeaveRoom *)

(** Writing a whole presence record under its own ID: that ID then reads
    as the record written, every other ID as before. *)
Lemma user_written (userID : string) (u u' : ActiveUser.t) (users : list ActiveUser.t) :
  find (matches [("_id", Is (BString userID))]) users = Some u ->
  ActiveUser.ID u' = ActiveUser.ID u ->
  let users' := update_first (matches [("_id", Is (BString userID))])
                  (apply_update (SetDoc u')) users in
  existsb (matches [("_id", Is (BString userID))]) users = true
  /\ find (fun d => String.eqb (ActiveUser.ID d) userID) users' = Some u'
  /\ forall other, other <> userID ->
       find (fun d => String.eqb (ActiveUser.ID d) other) users'
       = find (fun d => String.eqb (ActiveUser.ID d) other) users.
Proof.
  intros Hfind Hsame users'. subst users'.
  assert (Hid : ActiveUser.ID u' = userID).
  { rewrite Hsame. apply find_some in Hfind. destruct Hfind as [_ Hm].
    rewrite matches_user_id in Hm. now apply String.eqb_eq. }
  pose proof (find_existsb _ _ _ Hfind) as Hthere.
  change (apply_update (SetDoc u')) with (fun _ : ActiveUser.t => u').
  rewrite (update_first_same _ _ _ users (matches_user_id userID)).
  split; [exact Hthere|]. split.
  - apply (find_update_first_hit ActiveUser.ID); [exact Hid|].
    now rewrite <- (existsb_same _ _ users (matches_user_id userID)).
  - intros other Hother. now apply (find_update_first_miss ActiveUser.ID).
Qed.

(** C6. On a store that serves every request: EnterRoom fails RoomNotFound
    when no room is stored under roomID.  When there is one and the user
    has a presence record: a user in singleLive, pkLive or pkWait is turned
    down with UserBroadcasting; a user joined or joinWait in this very room
    gets the room, nothing being written; a user joined or joinWait in
    another room is turned down with UserJoined; any other user (idle or
    watching) gets the room, and the user's record now reads watching with
    Room = roomID, all other records reading as before. *)
Theorem EnterRoom_transitions (userID roomID : string) (db : Mongo) :
  faults db = [] ->
  let run := EnterRoom userID roomID db in
  (lookup_room roomID db = None ->
   rejected run db ServerErrorRoomNotFound [(Rooms, OpOne)])
  /\ (forall room u,
      lookup_room roomID db = Some room ->
      lookup_user userID db = Some u ->
      let s := ActiveUser.Status u in
      (s = UserStatusSingleLive \/ s = UserStatusPKLive \/ s = UserStatusPKWait ->
       rejected run db ServerErrorUserBroadcasting [(Rooms, OpOne); (ActiveUsers, OpOne)])
      /\ (s = UserStatusJoined \/ s = UserStatusJoinWait ->
          ActiveUser.Room u = roomID ->
          fst run = Ok room
          /\ rooms (snd run) = rooms db
          /\ activeUsers (snd run) = activeUsers db
          /\ trace (snd run) = trace db ++ [(Rooms, OpOne); (ActiveUsers, OpOne)])
      /\ (s = UserStatusJoined \/ s = UserStatusJoinWait ->
          ActiveUser.Room u <> roomID ->
          rejected run db ServerErrorUserJoined [(Rooms, OpOne); (ActiveUsers, OpOne)])
      /\ (s = UserStatusIdle \/ s = UserStatusWatching ->
          fst run = Ok room
          /\ rooms (snd run) = rooms db
          /\ lookup_user userID (snd run)
             = Some (ActiveUser.mk (ActiveUser.ID u) UserStatusWatching roomID
                       (ActiveUser.JoinPosition u))
          /\ forall other, other <> userID ->
               lookup_user other (snd run) = lookup_user other db)).
Proof.
  intros Hs run. subst run. split.
  - intros Hroom. rewrite <- find_room_by_id in Hroom.
    unfold rejected, EnterRoom, GetRoomByID, GetRoomByFields. run_served Hs.
    rewrite Hroom. run. auto.
  - intros room u Hroom Hu s. subst s.
    rewrite <- find_room_by_id in Hroom. rewrite <- find_user_by_id in Hu.
    destruct (user_written userID u
                (ActiveUser.set_Room roomID (ActiveUser.set_Status UserStatusWatching u))
                (activeUsers db) Hu eq_refl) as (Hthere & Hhit & Hmiss).
    unfold rejected, lookup_user, EnterRoom, GetRoomByID, GetRoomByFields. run_served Hs.
    rewrite Hroom. run_served Hs. rewrite Hu.
    split; [|split; [|split]].
    + intros [Hst|[Hst|Hst]]; rewrite Hst; run; rewrite <- app_assoc; auto.
    + intros [Hst|Hst] Hsame; rewrite Hst; run;
        rewrite (proj2 (String.eqb_eq _ _) Hsame); run; rewrite <- app_assoc; auto.
    + intros [Hst|Hst] Hother; rewrite Hst; run;
        rewrite (proj2 (String.eqb_neq _ _) Hother); run; rewrite <- app_assoc; auto.
    + intros [Hst|Hst]; rewrite Hst; run_served Hs; rewrite Hthere; run_served Hs;
        (split; [reflexivity|]); (split; [reflexivity|]); (split; [|exact Hmiss]);
        exact Hhit.
Qed.

(** On the sample store: an unknown room; a broadcaster; a co-streamer
    entering the own room again, and another room; an idle user. *)
Lemma EnterRoom_transitions_witness :
  rejected (EnterRoom "u6" "r9" Sample.db) Sample.db ServerErrorRoomNotFound [(Rooms, OpOne)]
  /\ rejected (EnterRoom "u1" "r2" Sample.db) Sample.db ServerErrorUserBroadcasting
       [(Rooms, OpOne); (ActiveUsers, OpOne)]
  /\ (fst (EnterRoom "u5" "r1" Sample.db) = Ok Sample.r1
      /\ rooms (snd (EnterRoom "u5" "r1" Sample.db)) = rooms Sample.db
      /\ activeUsers (snd (EnterRoom "u5" "r1" Sample.db)) = activeUsers Sample.db
      /\ trace (snd (EnterRoom "u5" "r1" Sample.db))
         = trace Sample.db ++ [(Rooms, OpOne); (ActiveUsers, OpOne)])
  /\ rejected (EnterRoom "u5" "r2" Sample.db) Sample.db ServerErrorUserJoined
       [(Rooms, OpOne); (ActiveUsers, OpOne)]
  /\ (fst (EnterRoom "u6" "r1" Sample.db) = Ok Sample.r1
      /\ rooms (snd (EnterRoom "u6" "r1" Sample.db)) = rooms Sample.db
      /\ lookup_user "u6" (snd (EnterRoom "u6" "r1" Sample.db))
         = Some (ActiveUser.mk "u6" UserStatusWatching "r1" None)
      /\ forall other, other <> "u6" ->
           lookup_user other (snd (EnterRoom "u6" "r1" Sample.db))
           = lookup_user other Sample.db).
Proof.
  split; [|split; [|split; [|split]]].
  - apply (EnterRoom_transitions "u6" "r9" Sample.db eq_refl). reflexivity.
  - destruct (EnterRoom_transitions "u1" "r2" Sample.db eq_refl) as [_ H].
    apply (H Sample.r2 Sample.u1 eq_refl eq_refl). left. reflexivity.
  - destruct (EnterRoom_transitions "u5" "r1" Sample.db eq_refl) as [_ H].
    apply (H Sample.r1 Sample.u5 eq_refl eq_refl); [left|]; reflexivity.
  - destruct (EnterRoom_transitions "u5" "r2" Sample.db eq_refl) as [_ H].
    apply (H Sample.r2 Sample.u5 eq_refl eq_refl); [left; reflexivity|discriminate].
  - destruct (EnterRoom_transitions "u6" "r1" Sample.db eq_refl) as [_ H].
    apply (H Sample.r1 Sample.u6 eq_refl eq_refl). left. reflexivity.
Defined.

(** C7. Whatever the store answers to the lookup of the room (a room, no
    room, an error), provided it serves the requests after it and the user
    has a presence record: a user in singleLive, pkLive or pkWait is turned
    down with UserBroadcasting and nothing is written; any other user leaves
    with no error and the user's record reads idle, with empty Room and no
    JoinPosition, whatever Room it named before; all other records read as
    before. *)
Theorem LeaveRoom_transitions (userID roomID : string) (db : Mongo) (u : ActiveUser.t) :
  tl (faults db) = [] ->
  lookup_user userID db = Some u ->
  let run := LeaveRoom userID roomID db in
  let s := ActiveUser.Status u in
  (s = UserStatusSingleLive \/ s = UserStatusPKLive \/ s = UserStatusPKWait ->
   fst run = Some (ServerError ServerErrorUserBroadcasting)
   /\ rooms (snd run) = rooms db
   /\ activeUsers (snd run) = activeUsers db
   /\ trace (snd run) = trace db ++ [(Rooms, OpOne); (ActiveUsers, OpOne)])
  /\ (s = UserStatusIdle \/ s = UserStatusWatching
      \/ s = UserStatusJoinWait \/ s = UserStatusJoined ->
      fst run = None
      /\ rooms (snd run) = rooms db
      /\ lookup_user userID (snd run)
         = Some (ActiveUser.mk (ActiveUser.ID u) UserStatusIdle "" None)
      /\ forall other, other <> userID ->
           lookup_user other (snd run) = lookup_user other db).
Proof.
  intros Hs Hu run s. subst run s. rewrite <- find_user_by_id in Hu.
  destruct (user_written userID u
              (ActiveUser.set_JoinPosition None
                 (ActiveUser.set_Room "" (ActiveUser.set_Status UserStatusIdle u)))
              (activeUsers db) Hu eq_refl) as (Hthere & Hhit & Hmiss).
  unfold lookup_user, LeaveRoom, GetRoomByID, GetRoomByFields. run.
  destruct (hd None (faults db)) as [flt|];
    [destruct (isNoDocuments (fault_err flt))
    |destruct (find (matches [("_id", Is (BString roomID))]) (rooms db))];
    run_served Hs; rewrite Hu; (split; [intros [Hst|[Hst|Hst]]|intros [Hst|[Hst|[Hst|Hst]]]]);
    rewrite Hst; run_served Hs; rewrite <- ?app_assoc; auto;
    rewrite Hthere; run; auto.
Qed.

(** On the sample store: [u4], waiting to join in [r1], leaves a room that
    does not exist, the lookup of the room being failed by the store on
    top; broadcaster [u1] cannot leave. *)
Lemma LeaveRoom_transitions_witness :
  let db := {| rooms := rooms Sample.db; activeUsers := activeUsers Sample.db;
               faults := [Some {| fault_err := ErrUnavailable; fault_decoded := 0 |}];
               trace := [] |} in
  (fst (LeaveRoom "u4" "r9" db) = None
   /\ rooms (snd (LeaveRoom "u4" "r9" db)) = rooms db
   /\ lookup_user "u4" (snd (LeaveRoom "u4" "r9" db))
      = Some (ActiveUser.mk "u4" UserStatusIdle "" None)
   /\ forall other, other <> "u4" ->
        lookup_user other (snd (LeaveRoom "u4" "r9" db)) = lookup_user other db)
  /\ (fst (LeaveRoom "u1" "r1" Sample.db) = Some (ServerError ServerErrorUserBroadcasting)
      /\ rooms (snd (LeaveRoom "u1" "r1" Sample.db)) = rooms Sample.db
      /\ activeUsers (snd (LeaveRoom "u1" "r1" Sample.db)) = activeUsers Sample.db
      /\ trace (snd (LeaveRoom "u1" "r1" Sample.db))
         = trace Sample.db ++ [(Rooms, OpOne); (ActiveUsers, OpOne)]).
Proof.
  intros db. split.
  - apply (LeaveRoom_transitions "u4" "r9" db Sample.u4 eq_refl eq_refl).
    right. right. left. reflexivity.
  - apply (LeaveRoom_transitions "u1" "r1" Sample.db Sample.u1 eq_refl eq_refl).
    left. reflexivity.
Defined.

(** ** Queries *)

(** C9. ListRoomsByFields never returns an error.  When the store serves the
    read, the list is the matching rooms; when the store fails it, the list
    is what had been decoded and the error is dropped; a failed read with
    nothing decoded gives the caller exactly what an empty collection
    gives. *)
Theorem ListRoomsByFields_never_errors (fields : option filterM) (db : Mongo) :
  let f := match fields with Some f => f | None => [] end in
  let found := filter (matches f) (rooms db) in
  let run := ListRoomsByFields fields db in
  snd (fst run) = None
  /\ rooms (snd run) = rooms db
  /\ activeUsers (snd run) = activeUsers db
  /\ (hd None (faults db) = None -> fst (fst run) = found)
  /\ (forall flt, hd None (faults db) = Some flt ->
        fst (fst run) = firstn (fault_decoded flt) found
        /\ (fault_decoded flt = 0%nat ->
            fst run
            = fst (ListRoomsByFields fields
                     {| rooms := []; activeUsers := activeUsers db;
                        faults := []; trace := trace db |}))).
Proof.
  intros f found run. subst f found run. unfold ListRoomsByFields. run.
  destruct (hd None (faults db)) as [flt|]; run.
  - do 3 (split; [reflexivity|]). split; [discriminate|].
    intros flt' Heq. injection Heq as <-. split; [reflexivity|].
    intros Hzero. now rewrite Hzero.
  - do 3 (split; [reflexivity|]). split; [reflexivity|]. discriminate.
Qed.

(** On the sample store with the read failed after one room was decoded:
    the caller gets that room and no error. *)
Lemma ListRoomsByFields_never_errors_witness :
  let db := {| rooms := rooms Sample.db; activeUsers := activeUsers Sample.db;
               faults := [Some {| fault_err := ErrUnavailable; fault_decoded := 1 |}];
               trace := [] |} in
  fst (ListRoomsByFields None db) = ([Sample.r1], None).
Proof.
  intros db.
  destruct (ListRoomsByFields_never_errors None db) as (Herr & _ & _ & _ & Hfailed).
  destruct (Hfailed {| fault_err := ErrUnavailable; fault_decoded := 1 |} eq_refl)
    as [Hlist _].
  destruct (ListRoomsByFields None db) as [[l e] db']. simpl in *.
  now rewrite Herr, Hlist.
Defined.

(** C10. When the store serves the lookup of the room and no room is stored
    under roomID, GetAudienceNumber and GetAllAudiences both fail
    RoomNotFound, having issued the lookup of the room and nothing else.
    In every run of either, the query on the presence records is issued
    only after a lookup that was served and found the room. *)
Theorem audience_queries_need_the_room (roomID : string) (db : Mongo) :
  (hd None (faults db) = None ->
   lookup_room roomID db = None ->
   rejected (GetAudienceNumber roomID db) db ServerErrorRoomNotFound [(Rooms, OpOne)]
   /\ rejected (GetAllAudiences roomID db) db ServerErrorRoomNotFound [(Rooms, OpOne)])
  /\ (trace (snd (GetAudienceNumber roomID db)) = trace db ++ [(Rooms, OpOne)]
      \/ (hd None (faults db) = None
          /\ (exists room, lookup_room roomID db = Some room)
          /\ trace (snd (GetAudienceNumber roomID db))
             = trace db ++ [(Rooms, OpOne); (ActiveUsers, OpCount)]))
  /\ (trace (snd (GetAllAudiences roomID db)) = trace db ++ [(Rooms, OpOne)]
      \/ (hd None (faults db) = None
          /\ (exists room, lookup_room roomID db = Some room)
          /\ trace (snd (GetAllAudiences roomID db))
             = trace db ++ [(Rooms, OpOne); (ActiveUsers, OpAll)])).
Proof.
  rewrite <- (find_room_by_id roomID db).
  unfold rejected, GetAudienceNumber, GetAllAudiences, GetRoomByID, GetRoomByFields. run.
  destruct (hd None (faults db)) as [flt|].
  - destruct (isNoDocuments (fault_err flt)); run;
      (split; [discriminate|]); split; left; reflexivity.
  - destruct (find (matches [("_id", Is (BString roomID))]) (rooms db)) as [room|]; run.
    + split; [discriminate|].
      split; right; (split; [reflexivity|]); (split; [now exists room|]);
        destruct (hd None (tl (faults db))); run; now rewrite <- app_assoc.
    + split; [|split; left; reflexivity]. intros _ _. auto 10.
Qed.

Lemma audience_queries_need_the_room_witness :
  rejected (GetAudienceNumber "r9" Sample.db) Sample.db ServerErrorRoomNotFound [(Rooms, OpOne)]
  /\ rejected (GetAllAudiences "r9" Sample.db) Sample.db ServerErrorRoomNotFound [(Rooms, OpOne)].
Proof.
  apply (audience_queries_need_the_room "r9" Sample.db); reflexivity.
Defined.

(** ** The store keeps its IDs unique *)

Section KeyedWrites.
Context {T : Type}.
Variable key : T -> string.

Lemma keys_update_first (p : T -> bool) (g : T -> T) (l : list T) :
  (forall d, p d = true -> key (g d) = key d) ->
  map key (update_first p g l) = map key l.
Proof.
  intros Hg. induction l as [|d l IH]; simpl; [reflexivity|].
  destruct (p d) eqn:E; simpl; [now rewrite (Hg d E)|now rewrite IH].
Qed.

Lemma keys_map_if (p : T -> bool) (g : T -> T) (l : list T) :
  (forall d, key (g d) = key d) ->
  map key (map (fun d => if p d then g d else d) l) = map key l.
Proof.
  intros Hg. rewrite map_map. apply map_ext. intros d. now destruct (p d).
Qed.

Lemma keys_remove_first (p : T -> bool) (l : list T) :
  NoDup (map key l) -> NoDup (map key (remove_first p l)).
Proof.
  induction l as [|d l IH]; simpl; [auto|].
  intros Hnd. inversion Hnd as [|? ? Hnot Hnd']; subst.
  destruct (p d); [exact Hnd'|]. simpl. constructor; [|now apply IH].
  intros Hin. apply Hnot. clear - Hin.
  induction l as [|d' l IH]; simpl in *; [contradiction|].
  destruct (p d'); [now right|]. destruct Hin as [Heq|Hin]; [now left|right; now apply IH].
Qed.

Lemma keys_snoc (d : T) (l : list T) :
  NoDup (map key l) -> ~ In (key d) (map key l) -> NoDup (map key (l ++ [d])).
Proof.
  intros Hnd Hnot. rewrite map_app. simpl.
  apply NoDup_app; [exact Hnd|repeat constructor; intros []|].
  intros k Hk [<-|[]]. exact (Hnot Hk).
Qed.
End KeyedWrites.

Lemma hoare_ret {A} (P : Mongo -> Prop) (Q : A -> Mongo -> Prop) (a : A) :
  (forall db, P db -> Q a db) -> hoare P (ret a) Q.
Proof. intros HPQ db HP. now apply HPQ. Qed.

Lemma hoare_bind {A B} (P : Mongo -> Prop) (m : M A) (Q : A -> Mongo -> Prop)
    (k : A -> M B) (R : B -> Mongo -> Prop) :
  hoare P m Q -> (forall a, hoare (Q a) (k a) R) -> hoare P (bind m k) R.
Proof.
  intros Hm Hk db HP. unfold bind. specialize (Hm db HP).
  destruct (m db) as [a db']. now apply Hk.
Qed.

Lemma hoare_pre {A} (P P' : Mongo -> Prop) (m : M A) (Q : A -> Mongo -> Prop) :
  (forall db, P' db -> P db) -> hoare P m Q -> hoare P' m Q.
Proof. intros HP Hm db HP'. apply Hm. now apply HP. Qed.

Lemma ActiveUser_set_field_id k v (u : ActiveUser.t) :
  ActiveUser.ID (set_field k v u) = ActiveUser.ID u.
Proof.
  simpl. destruct (String.eqb k "room"); [now destruct v|].
  destruct (String.eqb k "status"); [now destruct v|].
  destruct (String.eqb k "joinPosition"); [now destruct v|reflexivity].
Qed.

Lemma ActiveUser_apply_set_id kvs (u : ActiveUser.t) :
  ActiveUser.ID (apply_set kvs u) = ActiveUser.ID u.
Proof.
  unfold apply_set. revert u.
  induction kvs as [|kv kvs IH]; intros u; cbn [fold_left]; [reflexivity|].
  now rewrite IH, ActiveUser_set_field_id.
Qed.

(** The reads leave the collections alone. *)
Ltac read_only :=
  intros db Hdb; run; destruct (hd None (faults db)); run;
  repeat match goal with
         | |- context [find ?p ?l] => destruct (find p l); run
         end;
  exact Hdb.

Lemma Count_rooms_unique f :
  hoare unique_ids (Count roomColl f) (fun _ => unique_ids).
Proof. read_only. Qed.

Lemma One_rooms_unique f :
  hoare unique_ids (One roomColl f) (fun _ => unique_ids).
Proof. read_only. Qed.

Lemma GetRoomByFields_unique f :
  hoare unique_ids (GetRoomByFields f) (fun _ => unique_ids).
Proof.
  unfold GetRoomByFields. eapply hoare_bind; [apply One_rooms_unique|].
  intros [room|e]; [|destruct (isNoDocuments e)]; now apply hoare_ret.
Qed.

(** The lookup of a presence record by ID answers with a record of that ID. *)
Lemma One_user_unique id :
  hoare unique_ids (One activeUserColl [("_id", Is (BString id))])
    (fun found db => unique_ids db /\ forall u, found = Ok u -> ActiveUser.ID u = id).
Proof.
  intros db Hdb. run. destruct (hd None (faults db)); run; [split; [exact Hdb|discriminate]|].
  destruct (find _ (activeUsers db)) as [u|] eqn:Hfind; run;
    (split; [exact Hdb|]); [|discriminate].
  intros u' Heq. injection Heq as <-. apply find_some in Hfind. destruct Hfind as [_ Hm].
  rewrite matches_user_id in Hm. now apply String.eqb_eq.
Qed.

Lemma One_room_by_id_unique id :
  hoare unique_ids (One roomColl [("_id", Is (BString id))])
    (fun found db => unique_ids db /\ forall r, found = Ok r -> LiveRoom.ID r = id).
Proof.
  intros db Hdb. run. destruct (hd None (faults db)); run; [split; [exact Hdb|discriminate]|].
  destruct (find _ (rooms db)) as [r|] eqn:Hfind; run;
    (split; [exact Hdb|]); [|discriminate].
  intros r' Heq. injection Heq as <-. apply find_some in Hfind. destruct Hfind as [_ Hm].
  rewrite matches_room_id in Hm. now apply String.eqb_eq.
Qed.

Lemma InsertOne_room_unique room :
  hoare unique_ids (InsertOne roomColl room) (fun _ => unique_ids).
Proof.
  intros db [Hrooms Husers]. run. destruct (hd None (faults db)); run; [now split|].
  destruct (existsb _ (rooms db)) eqn:Hdup; run; (split; [|exact Husers]); [exact Hrooms|].
  cbn [rooms]. apply (keys_snoc LiveRoom.ID); [exact Hrooms|].
  intros Hin. apply in_map_iff in Hin. destruct Hin as [r [Hid Hin]].
  assert (Htrue : existsb (fun d' : LiveRoom.t => bson_eqb (field d' "_id") (field room "_id"))
                    (rooms db) = true).
  { apply existsb_exists. exists r. split; [exact Hin|]. simpl. now apply String.eqb_eq. }
  rewrite Htrue in Hdup. discriminate.
Qed.

Lemma RemoveId_room_unique id :
  hoare unique_ids (RemoveId roomColl id) (fun _ => unique_ids).
Proof.
  intros db [Hrooms Husers]. run. destruct (hd None (faults db)); run; [now split|].
  destruct (existsb _ (rooms db)); run; (split; [|exact Husers]); [|exact Hrooms].
  cbn [rooms]. now apply (keys_remove_first LiveRoom.ID).
Qed.

Lemma UpdateOne_room_unique id room :
  LiveRoom.ID room = id ->
  hoare unique_ids (UpdateOne roomColl [("_id", Is (BString id))] (SetDoc room))
    (fun _ => unique_ids).
Proof.
  intros Hid db [Hrooms Husers]. run. destruct (hd None (faults db)); run; [now split|].
  destruct (existsb _ (rooms db)); run; (split; [|exact Husers]); [|exact Hrooms].
  cbn [rooms]. rewrite (keys_update_first LiveRoom.ID); [exact Hrooms|].
  intros d Hd. rewrite matches_room_id in Hd. apply String.eqb_eq in Hd. simpl. congruence.
Qed.

Lemma UpdateOne_user_unique id u :
  ActiveUser.ID u = id ->
  hoare unique_ids (UpdateOne activeUserColl [("_id", Is (BString id))] (SetDoc u))
    (fun _ => unique_ids).
Proof.
  intros Hid db [Hrooms Husers]. run. destruct (hd None (faults db)); run; [now split|].
  destruct (existsb _ (activeUsers db)); run; (split; [exact Hrooms|]); [|exact Husers].
  cbn [activeUsers]. rewrite (keys_update_first ActiveUser.ID); [exact Husers|].
  intros d Hd. rewrite matches_user_id in Hd. apply String.eqb_eq in Hd. simpl. congruence.
Qed.

Lemma UpdateOne_user_fields_unique f kvs :
  hoare unique_ids (UpdateOne activeUserColl f (SetFields kvs)) (fun _ => unique_ids).
Proof.
  intros db [Hrooms Husers]. run. destruct (hd None (faults db)); run; [now split|].
  destruct (existsb _ (activeUsers db)); run; (split; [exact Hrooms|]); [|exact Husers].
  cbn [activeUsers]. rewrite (keys_update_first ActiveUser.ID); [exact Husers|].
  intros d _. apply ActiveUser_apply_set_id.
Qed.

Lemma UpdateAll_user_fields_unique f kvs :
  hoare unique_ids (UpdateAll activeUserColl f (SetFields kvs)) (fun _ => unique_ids).
Proof.
  intros db [Hrooms Husers]. run. destruct (hd None (faults db)); run; [now split|].
  split; [exact Hrooms|]. cbn [activeUsers].
  rewrite (keys_map_if ActiveUser.ID); [exact Husers|].
  intros d. apply ActiveUser_apply_set_id.
Qed.

Lemma hoare_assume {A} (F : Prop) (P : Mongo -> Prop) (m : M A) (Q : A -> Mongo -> Prop) :
  (F -> hoare P m Q) -> hoare (fun db => P db /\ F) m Q.
Proof. intros Hm db [HP HF]. now apply Hm. Qed.

Ltac returns := apply hoare_ret; intros ? ?; assumption.
Ltac then_ H := eapply hoare_bind; [apply H|].

Lemma CreateRoom_unique c room :
  hoare unique_ids (CreateRoom c room) (fun _ => unique_ids).
Proof.
  unfold CreateRoom. then_ Count_rooms_unique. intros [n err].
  destruct err; [returns|]. destruct (n >=? roomNumberLimit c); [returns|].
  cbv zeta. then_ One_rooms_unique. intros [existingRoom|e].
  { destruct (negb _); returns. }
  destruct (negb (isNoDocuments e)); [returns|].
  then_ Count_rooms_unique. intros [n' err'].
  destruct (match err' with Some e0 => negb (isNoDocuments e0) | None => false end); [returns|].
  destruct (n' >? 0); [returns|].
  then_ One_user_unique. intros [activeUser|e']; apply hoare_assume; intros Hid; [|returns].
  destruct (UserStatus_eqb _ UserStatusWatching); [returns|].
  destruct (_ || _); [returns|].
  then_ InsertOne_room_unique. intros [e'|]; [returns|].
  then_ UpdateOne_user_unique; [|intro; returns].
  simpl. now apply Hid.
Qed.

Lemma CloseRoom_unique userID roomID :
  hoare unique_ids (CloseRoom userID roomID) (fun _ => unique_ids).
Proof.
  unfold CloseRoom. then_ One_rooms_unique. intros [room|e].
  - then_ RemoveId_room_unique. intros [e|]; [returns|].
    then_ UpdateOne_user_fields_unique. intro.
    then_ UpdateAll_user_fields_unique. intro. returns.
  - destruct (isNoDocuments e); returns.
Qed.

Lemma GetRoomByID_unique id :
  hoare unique_ids (GetRoomByID id)
    (fun got db => unique_ids db /\ forall r, got = Ok r -> LiveRoom.ID r = id).
Proof.
  unfold GetRoomByID, GetRoomByFields. then_ One_room_by_id_unique.
  intros found. apply hoare_assume. intros Hfound.
  destruct found as [r|e]; [|destruct (isNoDocuments e)];
    apply hoare_ret; intros db Hdb; (split; [exact Hdb|]); try discriminate.
  intros r' Heq. injection Heq as <-. now apply Hfound.
Qed.

Lemma UpdateRoom_unique id newRoom :
  hoare unique_ids (UpdateRoom id newRoom) (fun _ => unique_ids).
Proof.
  unfold UpdateRoom. then_ GetRoomByID_unique.
  intros [room|err]; apply hoare_assume; intros Hid; [|returns].
  specialize (Hid room eq_refl). cbv zeta.
  assert (Hstore : forall room0, LiveRoom.ID room0 = id ->
            hoare unique_ids
              (err <- UpdateOne roomColl [("_id", Is (BString id))] (SetDoc room0) ;;
               match err with
               | Some e => ret (Err (MongoError e))
               | None => ret (Ok room0)
               end) (fun _ : result error LiveRoom.t => unique_ids)).
  { intros room0 Hid0. then_ UpdateOne_room_unique; [exact Hid0|].
    intros [e|]; returns. }
  destruct (_ && _).
  - then_ GetRoomByFields_unique. intros [other|[[]|e]]; try returns.
    apply Hstore.
    destruct (negb (String.eqb (LiveRoom.Status newRoom) _));
      destruct (negb (String.eqb (LiveRoom.RTCRoom newRoom) ""));
      destruct (negb (String.eqb (LiveRoom.PlayURL newRoom) "")); exact Hid.
  - apply Hstore.
    destruct (negb (String.eqb (LiveRoom.Status newRoom) _));
      destruct (negb (String.eqb (LiveRoom.RTCRoom newRoom) ""));
      destruct (negb (String.eqb (LiveRoom.PlayURL newRoom) "")); exact Hid.
Qed.

Lemma EnterRoom_unique userID roomID :
  hoare unique_ids (EnterRoom userID roomID) (fun _ => unique_ids).
Proof.
  unfold EnterRoom, GetRoomByID. then_ GetRoomByFields_unique. intros [room|err]; [|returns].
  then_ One_user_unique. intros [activeUser|e]; apply hoare_assume; intros Hid; [|returns].
  destruct (isBroadcasting _); [returns|].
  destruct (_ || _); [destruct (String.eqb _ roomID); returns|].
  then_ UpdateOne_user_unique; [|intros [e|]; returns].
  simpl. now apply Hid.
Qed.

Lemma LeaveRoom_unique userID roomID :
  hoare unique_ids (LeaveRoom userID roomID) (fun _ => unique_ids).
Proof.
  unfold LeaveRoom, GetRoomByID. then_ GetRoomByFields_unique. intro.
  then_ One_user_unique. intros [activeUser|e]; apply hoare_assume; intros Hid; [|returns].
  destruct (isBroadcasting _); [returns|].
  then_ UpdateOne_user_unique; [|intro; returns].
  simpl. now apply Hid.
Qed.

(** ** Further properties of the controller *)

(** Walks through every answer the store can give and every branch of the
    code. *)
Ltac every_run :=
  repeat (run;
          match goal with
          | |- context [hd None ?fs] => destruct (hd None fs)
          | |- context [match find ?p ?l with _ => _ end] => destruct (find p l)
          | |- context [if ?b then _ else _] => destruct b
          end);
  run.

(** X1. Whatever the store answers, the lookups write nothing: after
    GetRoomByFields, GetRoomByID, GetAudienceNumber and GetAllAudiences both
    collections are as they were. *)
Theorem lookups_write_nothing (db : Mongo) :
  (forall fields, same_data db (snd (GetRoomByFields fields db)))
  /\ (forall id, same_data db (snd (GetRoomByID id db)))
  /\ (forall roomID, same_data db (snd (GetAudienceNumber roomID db)))
  /\ (forall roomID, same_data db (snd (GetAllAudiences roomID db))).
Proof.
  unfold same_data, GetAudienceNumber, GetAllAudiences, GetRoomByID, GetRoomByFields.
  repeat split; intros; every_run; reflexivity.
Qed.

(** X2. Whatever the store answers, the listings write nothing: after
    ListAllRooms, ListPKRooms and ListRoomsByFields both collections are as
    they were. *)
Theorem listings_write_nothing (db : Mongo) :
  same_data db (snd (ListAllRooms db))
  /\ (forall userID, same_data db (snd (ListPKRooms userID db)))
  /\ (forall fields, same_data db (snd (ListRoomsByFields fields db))).
Proof.
  unfold same_data, ListRoomsByFields, ListPKRooms, ListAllRooms.
  repeat split; intros; every_run; reflexivity.
Qed.

(** X3. Whatever the store answers, an error from CreateRoom, CloseRoom or
    UpdateRoom means that nothing was written: both collections are as they
    were. *)
Theorem failed_room_operation_writes_nothing (c : RoomController) (db : Mongo) :
  (forall room e, fst (CreateRoom c room db) = Err e ->
                  same_data db (snd (CreateRoom c room db)))
  /\ (forall userID roomID e, fst (CloseRoom userID roomID db) = Some e ->
                              same_data db (snd (CloseRoom userID roomID db)))
  /\ (forall id newRoom e, fst (UpdateRoom id newRoom db) = Err e ->
                           same_data db (snd (UpdateRoom id newRoom db))).
Proof.
  unfold same_data, CreateRoom, CloseRoom, UpdateRoom, GetRoomByID, GetRoomByFields.
  repeat split; revert H; every_run; intros; solve [reflexivity | discriminate].
Qed.

(** X4. Whatever the store answers, an error from EnterRoom or LeaveRoom
    means that nothing was written: both collections are as they were. *)
Theorem failed_entry_or_leave_writes_nothing (db : Mongo) :
  (forall userID roomID e, fst (EnterRoom userID roomID db) = Err e ->
                           same_data db (snd (EnterRoom userID roomID db)))
  /\ (forall userID roomID e, fst (LeaveRoom userID roomID db) = Some e ->
                              same_data db (snd (LeaveRoom userID roomID db))).
Proof.
  unfold same_data, EnterRoom, LeaveRoom, GetRoomByID, GetRoomByFields.
  repeat split; revert H; every_run; intros; solve [reflexivity | discriminate].
Qed.

(** X5. Whatever the store answers, CreateRoom, CloseRoom and UpdateRoom
    keep the IDs of each collection unique: the whole-struct writes of
    CreateRoom and UpdateRoom carry the ID of the record they replace. *)
Theorem room_operations_keep_ids_unique (c : RoomController) (db : Mongo) :
  unique_ids db ->
  (forall room, unique_ids (snd (CreateRoom c room db)))
  /\ (forall userID roomID, unique_ids (snd (CloseRoom userID roomID db)))
  /\ (forall id newRoom, unique_ids (snd (UpdateRoom id newRoom db))).
Proof.
  intros Hdb. split; [|split]; intros.
  - now apply CreateRoom_unique.
  - now apply CloseRoom_unique.
  - now apply UpdateRoom_unique.
Qed.

(** On the sample store: a creation, a close and a rename. *)
Lemma room_operations_keep_ids_unique_witness :
  unique_ids (snd (CreateRoom NewRoomController
                     (LiveRoom.mk "r3" "carol-room" "u6" "single" "" "" "") Sample.db))
  /\ unique_ids (snd (CloseRoom "u1" "r1" Sample.db))
  /\ unique_ids (snd (UpdateRoom "r1" UpdateSample.rename Sample.db)).
Proof.
  destruct (room_operations_keep_ids_unique NewRoomController Sample.db Sample_unique_ids)
    as (H1 & H2 & H3).
  split; [apply H1|]. split; [apply H2|apply H3].
Defined.

(** X6. Whatever the store answers, EnterRoom and LeaveRoom keep the IDs of
    each collection unique: both write the presence record back under the
    ID it was read by. *)
Theorem entry_and_leave_keep_ids_unique (db : Mongo) :
  unique_ids db ->
  (forall userID roomID, unique_ids (snd (EnterRoom userID roomID db)))
  /\ (forall userID roomID, unique_ids (snd (LeaveRoom userID roomID db))).
Proof.
  intros Hdb. split; intros.
  - now apply EnterRoom_unique.
  - now apply LeaveRoom_unique.
Qed.

(** On the sample store: an entry and a leave. *)
Lemma entry_and_leave_keep_ids_unique_witness :
  unique_ids (snd (EnterRoom "u6" "r1" Sample.db))
  /\ unique_ids (snd (LeaveRoom "u3" "r1" Sample.db)).
Proof.
  destruct (entry_and_leave_keep_ids_unique Sample.db Sample_unique_ids) as (H1 & H2).
  split; [apply H1|apply H2].
Defined.


(** The stored fields that room.go itself never filters on are keys like
    the others. *)
Lemma matches_transport_fields v (r : LiveRoom.t) :
  matches [("rtcRoom", Is (BString v))] r = String.eqb (LiveRoom.RTCRoom r) v
  /\ matches [("playURL", Is (BString v))] r = String.eqb (LiveRoom.PlayURL r) v
  /\ matches [("pkAnchor", Is (BString v))] r = String.eqb (LiveRoom.PKAnchor r) v.
Proof. unfold matches. simpl. now rewrite !andb_true_r. Qed.

(** A stored room is found by its transport handle, by its play URL and by
    its opponent: on a store that serves the lookup, GetRoomByFields
    returns a room with that value, not RoomNotFound. *)
Lemma GetRoomByFields_by_transport_fields (r : LiveRoom.t) (db : Mongo) :
  faults db = [] ->
  In r (rooms db) ->
  (exists found,
     fst (GetRoomByFields [("rtcRoom", Is (BString (LiveRoom.RTCRoom r)))] db) = Ok found
     /\ LiveRoom.RTCRoom found = LiveRoom.RTCRoom r)
  /\ (exists found,
        fst (GetRoomByFields [("playURL", Is (BString (LiveRoom.PlayURL r)))] db) = Ok found
        /\ LiveRoom.PlayURL found = LiveRoom.PlayURL r)
  /\ (exists found,
        fst (GetRoomByFields [("pkAnchor", Is (BString (LiveRoom.PKAnchor r)))] db) = Ok found
        /\ LiveRoom.PKAnchor found = LiveRoom.PKAnchor r).
Proof.
  intros Hs Hin.
  assert (Hfound : forall fields (get : LiveRoom.t -> string) v,
            (forall d, matches fields d = String.eqb (get d) v) ->
            get r = v ->
            exists found, fst (GetRoomByFields fields db) = Ok found /\ get found = v).
  { intros fields get v Hm Hv.
    destruct (find_present (matches fields) (rooms db)) as [d [Hfind [_ Hd]]].
    { exists r. split; [exact Hin|]. rewrite Hm, Hv. apply String.eqb_refl. }
    exists d. unfold GetRoomByFields. run_served Hs. rewrite Hfind. run.
    split; [reflexivity|]. rewrite Hm in Hd. now apply String.eqb_eq. }
  split; [|split].
  - apply (Hfound _ LiveRoom.RTCRoom); [|reflexivity].
    intros d. apply (matches_transport_fields (LiveRoom.RTCRoom r) d).
  - apply (Hfound _ LiveRoom.PlayURL); [|reflexivity].
    intros d. apply (matches_transport_fields (LiveRoom.PlayURL r) d).
  - apply (Hfound _ LiveRoom.PKAnchor); [|reflexivity].
    intros d. apply (matches_transport_fields (LiveRoom.PKAnchor r) d).
Qed.

Lemma matches_pk_candidates userID (r : LiveRoom.t) :
  matches [("status", Is (BString "single")); ("creator", Ne (BString userID))] r = true
  <-> LiveRoom.Status r = "single" /\ LiveRoom.Creator r <> userID.
Proof.
  unfold matches. simpl. rewrite andb_true_r, andb_true_iff, negb_true_iff.
  now rewrite String.eqb_eq, String.eqb_neq.
Qed.

Lemma In_firstn {T} (n : nat) (l : list T) (d : T) : In d (firstn n l) -> In d l.
Proof.
  revert l. induction n as [|n IH]; intros [|d' l]; simpl; try tauto.
  intros [Heq|Hin]; [now left|right; now apply IH].
Qed.

(** X8. ListPKRooms(userID), whatever the store answers: every room listed
    is a stored room with Status "single" that userID did not create.  When
    the store serves the read the list holds exactly these rooms and the
    error is nil; when it fails the read, the error is returned beside what
    had been decoded. *)
Theorem ListPKRooms_candidates (userID : string) (db : Mongo) :
  let listed := fst (fst (ListPKRooms userID db)) in
  let err := snd (fst (ListPKRooms userID db)) in
  let candidate r :=
    In r (rooms db) /\ LiveRoom.Status r = "single" /\ LiveRoom.Creator r <> userID in
  (forall r, In r listed -> candidate r)
  /\ (hd None (faults db) = None -> err = None /\ forall r, candidate r -> In r listed)
  /\ (forall flt, hd None (faults db) = Some flt -> err = Some (MongoError (fault_err flt))).
Proof.
  intros listed err candidate. subst listed err candidate. unfold ListPKRooms. run.
  destruct (hd None (faults db)) as [flt|]; run.
  - split; [|split; [discriminate|]].
    + intros r Hin. apply In_firstn, filter_In in Hin. destruct Hin as [Hin Hm].
      apply matches_pk_candidates in Hm. tauto.
    + intros flt' Heq. now injection Heq as <-.
  - split; [|split; [|discriminate]].
    + intros r Hin. apply filter_In in Hin. destruct Hin as [Hin Hm].
      apply matches_pk_candidates in Hm. tauto.
    + intros _. split; [reflexivity|]. intros r (Hin & Hst & Hcr).
      apply filter_In. split; [exact Hin|]. now apply matches_pk_candidates.
Qed.

Lemma filter_all {T} `{Document T} (l : list T) : filter (matches []) l = l.
Proof. induction l as [|d l IH]; simpl; [reflexivity|now rewrite IH]. Qed.

(** X9. ListAllRooms returns every stored room, in store order, when the
    store serves the read, and hands the store's error back beside what had
    been decoded when it does not.  ListRoomsByFields with the nil map or
    the empty map returns the same list in every case. *)
Theorem ListAllRooms_lists_the_store (db : Mongo) :
  (hd None (faults db) = None -> fst (ListAllRooms db) = (rooms db, None))
  /\ (forall flt, hd None (faults db) = Some flt ->
        fst (ListAllRooms db)
        = (firstn (fault_decoded flt) (rooms db), Some (MongoError (fault_err flt))))
  /\ fst (fst (ListRoomsByFields None db)) = fst (fst (ListAllRooms db))
  /\ fst (fst (ListRoomsByFields (Some []) db)) = fst (fst (ListAllRooms db)).
Proof.
  unfold ListAllRooms, ListRoomsByFields. run. rewrite filter_all.
  destruct (hd None (faults db)) as [flt|]; run.
  - split; [discriminate|]. split; [|split; reflexivity].
    intros flt' Heq. now injection Heq as <-.
  - split; [reflexivity|]. split; [discriminate|]. split; reflexivity.
Qed.

Lemma matches_audienceFilter roomID (u : ActiveUser.t) :
  matches (audienceFilter roomID) u
  = String.eqb (ActiveUser.Room u) roomID && isAudience (ActiveUser.Status u).
Proof.
  unfold matches, audienceFilter. simpl.
  destruct (ActiveUser.Status u); simpl; now rewrite ?andb_true_r.
Qed.

Lemma isAudience_iff (s : UserStatus) :
  isAudience s = true
  <-> s = UserStatusWatching \/ s = UserStatusJoined \/ s = UserStatusJoinWait.
Proof.
  destruct s; simpl; split; intros H; try discriminate; try tauto;
    destruct H as [H|[H|H]]; discriminate.
Qed.

(** X10. On a store that serves every request, for a stored room:
    GetAllAudiences lists exactly the presence records whose Room is the
    room and whose Status is watching, joined or joinWait (so neither the
    broadcaster nor an idle user), and GetAudienceNumber is the length of
    that list. *)
Theorem audience_number_is_the_length_of_the_audience
    (roomID : string) (room : LiveRoom.t) (db : Mongo) :
  faults db = [] ->
  lookup_room roomID db = Some room ->
  exists audience,
    fst (GetAllAudiences roomID db) = Ok audience
    /\ fst (GetAudienceNumber roomID db) = Ok (Z.of_nat (length audience))
    /\ forall u, In u audience
                 <-> In u (activeUsers db)
                     /\ ActiveUser.Room u = roomID
                     /\ (ActiveUser.Status u = UserStatusWatching
                         \/ ActiveUser.Status u = UserStatusJoined
                         \/ ActiveUser.Status u = UserStatusJoinWait).
Proof.
  intros Hs Hroom. rewrite <- find_room_by_id in Hroom.
  assert (Hid : LiveRoom.ID room = roomID).
  { apply find_some in Hroom. destruct Hroom as [_ Hm].
    rewrite matches_room_id in Hm. now apply String.eqb_eq. }
  exists (filter (matches (audienceFilter roomID)) (activeUsers db)).
  unfold GetAllAudiences, GetAudienceNumber, GetRoomByID, GetRoomByFields.
  run_served Hs. rewrite Hroom. run_served Hs. rewrite Hid.
  split; [reflexivity|]. split; [reflexivity|].
  intros u. rewrite filter_In, matches_audienceFilter, andb_true_iff, String.eqb_eq.
  now rewrite isAudience_iff.
Qed.

Lemma audience_number_is_the_length_of_the_audience_witness :
  exists audience,
    fst (GetAllAudiences "r1" Sample.db) = Ok audience
    /\ fst (GetAudienceNumber "r1" Sample.db) = Ok (Z.of_nat (length audience))
    /\ forall u, In u audience
                 <-> In u (activeUsers Sample.db)
                     /\ ActiveUser.Room u = "r1"
                     /\ (ActiveUser.Status u = UserStatusWatching
                         \/ ActiveUser.Status u = UserStatusJoined
                         \/ ActiveUser.Status u = UserStatusJoinWait).
Proof.
  exact (audience_number_is_the_length_of_the_audience "r1" Sample.r1 Sample.db
           eq_refl eq_refl).
Defined.

(** *** CreateRoom *)

(** The run of CreateRoom that creates the room, in full. *)
Lemma CreateRoom_creates (c : RoomController) (room : LiveRoom.t) (db : Mongo)
    (u : ActiveUser.t) :
  faults db = [] ->
  Z.of_nat (length (rooms db)) < roomNumberLimit c ->
  (forall r, In r (rooms db) -> LiveRoom.Name r <> LiveRoom.Name room) ->
  (forall r, In r (rooms db) -> LiveRoom.Creator r <> LiveRoom.Creator room) ->
  lookup_user (LiveRoom.Creator room) db = Some u ->
  ActiveUser.Status u <> UserStatusWatching ->
  ActiveUser.Status u <> UserStatusJoined ->
  ActiveUser.Status u <> UserStatusJoinWait ->
  lookup_room (LiveRoom.ID room) db = None ->
  CreateRoom c room db
  = (Ok room,
     {| rooms := rooms db ++ [room];
        activeUsers :=
          update_first (matches [("_id", Is (BString (LiveRoom.Creator room)))])
            (apply_update
               (SetDoc (ActiveUser.set_Room (LiveRoom.ID room)
                          (ActiveUser.set_Status UserStatusSingleLive u))))
            (activeUsers db);
        faults := [];
        trace := trace db ++ [(Rooms, OpCount); (Rooms, OpOne); (Rooms, OpCount);
                              (ActiveUsers, OpOne); (Rooms, OpInsertOne);
                              (ActiveUsers, OpUpdateOne)] |}).
Proof.
  intros Hs Hn Hname Hcreator Hu Hw Hj Hjw Hid.
  destruct (CreateRoom_past_name_guard c room db Hn Hname) as [Hfind Hlim].
  pose proof (CreateRoom_past_creator_guard room db Hcreator) as Hcnt.
  rewrite <- find_user_by_id in Hu. pose proof (find_existsb _ _ _ Hu) as Hthere.
  unfold CreateRoom. run_served Hs.
  rewrite count_docs_all, Hlim. run_served Hs. rewrite Hfind. run_served Hs.
  rewrite Hcnt. run_served Hs. rewrite Hu.
  destruct (ActiveUser.Status u) eqn:Est; try congruence; run_served Hs;
    rewrite (insert_fresh room db Hid); run_served Hs; rewrite Hthere; run;
    rewrite <- !app_assoc; reflexivity.
Qed.

(** X11. On a store that serves every request, a call that passes the four
    guards with an ID no stored room has creates the room: CreateRoom
    returns the room, the room is appended to the rooms, the creator's
    record reads singleLive with Room = the room's ID (its JoinPosition as
    it was), every other presence record reads as before, and the six round
    trips are made in the order of the source. *)
Theorem CreateRoom_success (c : RoomController) (room : LiveRoom.t) (db : Mongo)
    (u : ActiveUser.t) :
  faults db = [] ->
  Z.of_nat (length (rooms db)) < roomNumberLimit c ->
  (forall r, In r (rooms db) -> LiveRoom.Name r <> LiveRoom.Name room) ->
  (forall r, In r (rooms db) -> LiveRoom.Creator r <> LiveRoom.Creator room) ->
  lookup_user (LiveRoom.Creator room) db = Some u ->
  ActiveUser.Status u <> UserStatusWatching ->
  ActiveUser.Status u <> UserStatusJoined ->
  ActiveUser.Status u <> UserStatusJoinWait ->
  lookup_room (LiveRoom.ID room) db = None ->
  let db' := snd (CreateRoom c room db) in
  fst (CreateRoom c room db) = Ok room
  /\ rooms db' = rooms db ++ [room]
  /\ lookup_user (LiveRoom.Creator room) db'
     = Some (ActiveUser.mk (ActiveUser.ID u) UserStatusSingleLive (LiveRoom.ID room)
               (ActiveUser.JoinPosition u))
  /\ (forall other, other <> LiveRoom.Creator room ->
        lookup_user other db' = lookup_user other db)
  /\ trace db' = trace db ++ [(Rooms, OpCount); (Rooms, OpOne); (Rooms, OpCount);
                              (ActiveUsers, OpOne); (Rooms, OpInsertOne);
                              (ActiveUsers, OpUpdateOne)].
Proof.
  intros Hs Hn Hname Hcreator Hu Hw Hj Hjw Hid db'. subst db'.
  rewrite (CreateRoom_creates c room db u Hs Hn Hname Hcreator Hu Hw Hj Hjw Hid).
  rewrite <- find_user_by_id in Hu.
  destruct (user_written (LiveRoom.Creator room) u
              (ActiveUser.set_Room (LiveRoom.ID room)
                 (ActiveUser.set_Status UserStatusSingleLive u))
              (activeUsers db) Hu eq_refl) as (_ & Hhit & Hmiss).
  cbn [fst snd rooms trace]. unfold lookup_user. cbn [activeUsers].
  split; [reflexivity|]. split; [reflexivity|]. split; [exact Hhit|].
  split; [exact Hmiss|reflexivity].
Qed.

Lemma CreateRoom_success_witness :
  let room := LiveRoom.mk "r3" "carol-room" "u6" "single" "" "" "" in
  let db' := snd (CreateRoom NewRoomController room Sample.db) in
  fst (CreateRoom NewRoomController room Sample.db) = Ok room
  /\ rooms db' = rooms Sample.db ++ [room]
  /\ lookup_user "u6" db' = Some (ActiveUser.mk "u6" UserStatusSingleLive "r3" None)
  /\ (forall other, other <> "u6" -> lookup_user other db' = lookup_user other Sample.db)
  /\ trace db' = trace Sample.db ++ [(Rooms, OpCount); (Rooms, OpOne); (Rooms, OpCount);
                                     (ActiveUsers, OpOne); (Rooms, OpInsertOne);
                                     (ActiveUsers, OpUpdateOne)].
Proof.
  intros room.
  apply (CreateRoom_success NewRoomController room Sample.db Sample.u6).
  - reflexivity.
  - reflexivity.
  - intros r [<-|[<-|[]]]; simpl; discriminate.
  - intros r [<-|[<-|[]]]; simpl; discriminate.
  - reflexivity.
  - simpl; discriminate.
  - simpl; discriminate.
  - simpl; discriminate.
  - reflexivity.
Defined.

(** As [every_run], keeping what each branch decided. *)
Ltac every_run_eq :=
  repeat (run;
          match goal with
          | |- context [hd None ?fs] => destruct (hd None fs) eqn:?
          | |- context [match find ?p ?l with _ => _ end] => destruct (find p l) eqn:?
          | |- context [if ?b then _ else _] => destruct b eqn:?
          end);
  run.

(** X12. Whatever the store answers, CreateRoom leaves the rooms as they
    were or appends the one room it was given, and it appends only when the
    count it read was below the limit: the number of rooms never goes above
    the limit through CreateRoom. *)
Theorem CreateRoom_capacity (c : RoomController) (room : LiveRoom.t) (db : Mongo) :
  let db' := snd (CreateRoom c room db) in
  (rooms db' = rooms db
   \/ (rooms db' = rooms db ++ [room]
       /\ Z.of_nat (length (rooms db)) < roomNumberLimit c))
  /\ Z.of_nat (length (rooms db'))
     <= Z.max (Z.of_nat (length (rooms db))) (roomNumberLimit c).
Proof.
  intros db'. subst db'.
  assert (Hcases :
            rooms (snd (CreateRoom c room db)) = rooms db
            \/ (rooms (snd (CreateRoom c room db)) = rooms db ++ [room]
                /\ Z.of_nat (length (rooms db)) < roomNumberLimit c)).
  { unfold CreateRoom. every_run_eq; try (left; reflexivity);
      right; (split; [reflexivity|]);
    match goal with
    | H : (count_docs (matches []) (rooms db) >=? roomNumberLimit c) = false |- _ =>
        rewrite count_docs_all in H;
        destruct (Z.geb_spec (Z.of_nat (length (rooms db))) (roomNumberLimit c));
        [discriminate|assumption]
    end. }
  split; [exact Hcases|].
  destruct Hcases as [Heq|[Heq Hlt]]; rewrite Heq; [lia|].
  rewrite length_app. simpl. lia.
Qed.

Lemma no_creator_room (creator : string) (l : list LiveRoom.t) :
  (count_docs (matches [("creator", Is (BString creator))]) l >? 0) = false ->
  forall r, In r l -> LiveRoom.Creator r <> creator.
Proof.
  intros Hcnt r Hin Heq.
  assert (Hpos : count_docs (matches [("creator", Is (BString creator))]) l > 0).
  { apply count_docs_pos. exists r. split; [exact Hin|].
    rewrite matches_creator. now apply String.eqb_eq. }
  destruct (Z.gtb_spec (count_docs (matches [("creator", Is (BString creator))]) l) 0);
    [discriminate|lia].
Qed.

Lemma no_named_room (name : string) (l : list LiveRoom.t) :
  find (matches [("name", Is (BString name))]) l = None ->
  forall r, In r l -> LiveRoom.Name r <> name.
Proof.
  intros Hfind r Hin Heq. pose proof (find_none _ _ Hfind r Hin) as Hm.
  rewrite matches_name in Hm. apply String.eqb_neq in Hm. contradiction.
Qed.

(** On a store that serves every request, CreateRoom appends the room only
    after it found no room of that name and no room of that creator. *)
Lemma CreateRoom_inserts_checked (c : RoomController) (room : LiveRoom.t) (db : Mongo) :
  faults db = [] ->
  rooms (snd (CreateRoom c room db)) = rooms db
  \/ (rooms (snd (CreateRoom c room db)) = rooms db ++ [room]
      /\ (forall r, In r (rooms db) -> LiveRoom.Name r <> LiveRoom.Name room)
      /\ (forall r, In r (rooms db) -> LiveRoom.Creator r <> LiveRoom.Creator room)).
Proof.
  intros Hs. unfold CreateRoom.
  repeat (run_served Hs;
          match goal with
          | |- context [match find ?p ?l with _ => _ end] => destruct (find p l) eqn:?
          | |- context [if ?b then _ else _] => destruct b eqn:?
          end);
    run_served Hs; try (left; reflexivity);
    right; (split; [reflexivity|]);
    (split; [eapply no_named_room; eassumption|eapply no_creator_room; eassumption]).
Qed.

Lemma not_in_keys {T} (key : T -> string) (d : T) (l : list T) :
  (forall r, In r l -> key r <> key d) -> ~ In (key d) (map key l).
Proof.
  intros Hall Hin. apply in_map_iff in Hin. destruct Hin as [r [Heq Hin]].
  exact (Hall r Hin Heq).
Qed.

(** X13. On a store that serves every request, CreateRoom keeps the names of
    the rooms pairwise different and keeps at most one room per creator:
    whichever holds before the call holds after it. *)
Theorem CreateRoom_keeps_names_and_creators_unique
    (c : RoomController) (room : LiveRoom.t) (db : Mongo) :
  faults db = [] ->
  (NoDup (map LiveRoom.Name (rooms db)) ->
   NoDup (map LiveRoom.Name (rooms (snd (CreateRoom c room db)))))
  /\ (NoDup (map LiveRoom.Creator (rooms db)) ->
      NoDup (map LiveRoom.Creator (rooms (snd (CreateRoom c room db))))).
Proof.
  intros Hs.
  destruct (CreateRoom_inserts_checked c room db Hs) as [Heq|(Heq & Hname & Hcreator)];
    rewrite Heq; split; intros Hnd; try exact Hnd.
  - apply (keys_snoc LiveRoom.Name); [exact Hnd|]. now apply not_in_keys.
  - apply (keys_snoc LiveRoom.Creator); [exact Hnd|]. now apply not_in_keys.
Qed.

(** On the sample store: a room that is created, and one that is refused. *)
Lemma CreateRoom_keeps_names_and_creators_unique_witness :
  let created := snd (CreateRoom NewRoomController
                        (LiveRoom.mk "r3" "carol-room" "u6" "single" "" "" "") Sample.db) in
  let refused := snd (CreateRoom NewRoomController
                        (LiveRoom.mk "r3" "bob-room" "u6" "single" "" "" "") Sample.db) in
  map LiveRoom.Name (rooms created) = ["alice-room"; "bob-room"; "carol-room"]
  /\ NoDup (map LiveRoom.Name (rooms created))
  /\ NoDup (map LiveRoom.Creator (rooms created))
  /\ NoDup (map LiveRoom.Name (rooms refused))
  /\ NoDup (map LiveRoom.Creator (rooms refused)).
Proof.
  intros created refused.
  assert (Hnames : NoDup (map LiveRoom.Name (rooms Sample.db)))
    by (simpl; repeat constructor; simpl; intuition discriminate).
  assert (Hcreators : NoDup (map LiveRoom.Creator (rooms Sample.db)))
    by (simpl; repeat constructor; simpl; intuition discriminate).
  split; [reflexivity|].
  split; [|split; [|split]].
  - now apply (CreateRoom_keeps_names_and_creators_unique NewRoomController
                 (LiveRoom.mk "r3" "carol-room" "u6" "single" "" "" "") Sample.db eq_refl).
  - now apply (CreateRoom_keeps_names_and_creators_unique NewRoomController
                 (LiveRoom.mk "r3" "carol-room" "u6" "single" "" "" "") Sample.db eq_refl).
  - now apply (CreateRoom_keeps_names_and_creators_unique NewRoomController
                 (LiveRoom.mk "r3" "bob-room" "u6" "single" "" "" "") Sample.db eq_refl).
  - now apply (CreateRoom_keeps_names_and_creators_unique NewRoomController
                 (LiveRoom.mk "r3" "bob-room" "u6" "single" "" "" "") Sample.db eq_refl).
Defined.

Section Appended.
Context {T : Type}.

Lemma find_snoc (p : T -> bool) (d : T) (l : list T) :
  find p l = None -> p d = true -> find p (l ++ [d]) = Some d.
Proof.
  intros Hnone Hd. induction l as [|d' l IH]; simpl in *; [now rewrite Hd|].
  destruct (p d'); [discriminate|now apply IH].
Qed.

Lemma remove_first_snoc (p : T -> bool) (d : T) (l : list T) :
  find p l = None -> p d = true -> remove_first p (l ++ [d]) = l.
Proof.
  intros Hnone Hd. induction l as [|d' l IH]; simpl in *; [now rewrite Hd|].
  destruct (p d'); [discriminate|]. now rewrite IH.
Qed.

Lemma existsb_snoc (p : T -> bool) (d : T) (l : list T) :
  p d = true -> existsb p (l ++ [d]) = true.
Proof. intros Hd. rewrite existsb_app. simpl. rewrite Hd. apply orb_true_r. Qed.
End Appended.

Section KeyedRead.
Context {T : Type}.
Variable key : T -> string.

Lemma find_key_update_first (k : string) (g : T -> T) (l : list T) :
  (forall d, key (g d) = key d) ->
  find (fun d => String.eqb (key d) k) (update_first (fun d => String.eqb (key d) k) g l)
  = option_map g (find (fun d => String.eqb (key d) k) l).
Proof.
  intros Hg. induction l as [|d l IH]; simpl; [reflexivity|].
  destruct (String.eqb (key d) k) eqn:E; simpl.
  - now rewrite Hg, E.
  - now rewrite E.
Qed.

Lemma find_key_map (k : string) (g : T -> T) (l : list T) :
  (forall d, key (g d) = key d) ->
  find (fun d => String.eqb (key d) k) (map g l)
  = option_map g (find (fun d => String.eqb (key d) k) l).
Proof.
  intros Hg. induction l as [|d l IH]; simpl; [reflexivity|].
  rewrite Hg. now destruct (String.eqb (key d) k).
Qed.
End KeyedRead.

(** The run of CloseRoom that closes the room, in full. *)
Lemma CloseRoom_closes (userID roomID : string) (db : Mongo) (e : LiveRoom.t) :
  faults db = [] ->
  find (matches [("_id", Is (BString roomID)); ("creator", Is (BString userID))]) (rooms db)
  = Some e ->
  CloseRoom userID roomID db
  = (None,
     {| rooms := remove_first (matches [("_id", Is (BString roomID))]) (rooms db);
        activeUsers :=
          map (fun d : ActiveUser.t =>
                 if matches [("room", Is (BString roomID)); ("status", OneOf audienceStatuses)] d
                 then apply_update
                        (SetFields [("room", BString ""); ("status", BStatus UserStatusIdle);
                                    ("joinPosition", BNull)]) d
                 else d)
              (if existsb (matches [("_id", Is (BString userID))]) (activeUsers db)
               then update_first (matches [("_id", Is (BString userID))])
                      (apply_update
                         (SetFields [("room", BString ""); ("status", BStatus UserStatusIdle)]))
                      (activeUsers db)
               else activeUsers db);
        faults := [];
        trace := trace db ++ [(Rooms, OpOne); (Rooms, OpRemoveId);
                              (ActiveUsers, OpUpdateOne); (ActiveUsers, OpUpdateAll)] |}).
Proof.
  intros Hs Hfind.
  assert (Hthere : existsb (matches [("_id", Is (BString roomID))]) (rooms db) = true).
  { apply find_some in Hfind. destruct Hfind as [Hin Hm].
    rewrite matches_id_creator in Hm. apply andb_true_iff in Hm.
    apply existsb_exists. exists e. split; [exact Hin|]. now rewrite matches_room_id. }
  unfold CloseRoom. run_served Hs. rewrite Hfind. run_served Hs. rewrite Hthere.
  run_served Hs.
  destruct (existsb (matches [("_id", Is (BString userID))]) (activeUsers db));
    run_served Hs; rewrite <- !app_assoc; reflexivity.
Qed.

(** X14. A room that CreateRoom has just created (on a store that serves
    every request) is found by GetRoomByID under its ID, and its creator
    can close it: CloseRoom succeeds, the rooms are again exactly those
    before the creation, and the creator's record reads idle with empty
    Room. *)
Theorem CreateRoom_then_CloseRoom (c : RoomController) (room : LiveRoom.t) (db : Mongo)
    (u : ActiveUser.t) :
  faults db = [] ->
  Z.of_nat (length (rooms db)) < roomNumberLimit c ->
  (forall r, In r (rooms db) -> LiveRoom.Name r <> LiveRoom.Name room) ->
  (forall r, In r (rooms db) -> LiveRoom.Creator r <> LiveRoom.Creator room) ->
  lookup_user (LiveRoom.Creator room) db = Some u ->
  ActiveUser.Status u <> UserStatusWatching ->
  ActiveUser.Status u <> UserStatusJoined ->
  ActiveUser.Status u <> UserStatusJoinWait ->
  lookup_room (LiveRoom.ID room) db = None ->
  let created := snd (CreateRoom c room db) in
  let closed := snd (CloseRoom (LiveRoom.Creator room) (LiveRoom.ID room) created) in
  fst (GetRoomByID (LiveRoom.ID room) created) = Ok room
  /\ fst (CloseRoom (LiveRoom.Creator room) (LiveRoom.ID room) created) = None
  /\ rooms closed = rooms db
  /\ lookup_user (LiveRoom.Creator room) closed
     = Some (ActiveUser.mk (ActiveUser.ID u) UserStatusIdle "" (ActiveUser.JoinPosition u)).
Proof.
  intros Hs Hn Hname Hcreator Hu Hw Hj Hjw Hid created closed. subst created closed.
  rewrite (CreateRoom_creates c room db u Hs Hn Hname Hcreator Hu Hw Hj Hjw Hid).
  cbn [snd].
  match goal with
  | |- context [GetRoomByID _ ?st] => set (created := st)
  end.
  rewrite <- find_room_by_id in Hid. rewrite <- find_user_by_id in Hu.
  destruct (user_written (LiveRoom.Creator room) u
              (ActiveUser.set_Room (LiveRoom.ID room)
                 (ActiveUser.set_Status UserStatusSingleLive u))
              (activeUsers db) Hu eq_refl) as (_ & Hhit & _).
  assert (Hroom : find (matches [("_id", Is (BString (LiveRoom.ID room)))]) (rooms created)
                  = Some room).
  { apply find_snoc; [exact Hid|]. rewrite matches_room_id. apply String.eqb_refl. }
  assert (Hmine : find (matches [("_id", Is (BString (LiveRoom.ID room)));
                                 ("creator", Is (BString (LiveRoom.Creator room)))])
                    (rooms created) = Some room).
  { apply find_snoc.
    - apply find_absent. intros r Hin. rewrite matches_id_creator.
      pose proof (find_none _ _ Hid r Hin) as Hm. rewrite matches_room_id in Hm.
      now rewrite Hm.
    - rewrite matches_id_creator. now rewrite !String.eqb_refl. }
  split.
  { unfold GetRoomByID, GetRoomByFields. run. rewrite Hroom. reflexivity. }
  rewrite (CloseRoom_closes (LiveRoom.Creator room) (LiveRoom.ID room) created room eq_refl
             Hmine).
  cbn [fst snd rooms]. split; [reflexivity|]. split.
  { apply remove_first_snoc; [exact Hid|]. rewrite matches_room_id. apply String.eqb_refl. }
  unfold lookup_user. cbn [activeUsers].
  rewrite (find_key_map ActiveUser.ID).
  2:{ intros d. destruct (matches _ d); [apply ActiveUser_apply_set_id|reflexivity]. }
  subst created. cbn [activeUsers].
  rewrite (existsb_same _ _ _ (matches_user_id (LiveRoom.Creator room))).
  rewrite (find_existsb _ _ _ Hhit).
  rewrite (update_first_same _ _ _ _ (matches_user_id (LiveRoom.Creator room))).
  rewrite (find_key_update_first ActiveUser.ID).
  2:{ intros d. apply ActiveUser_apply_set_id. }
  rewrite Hhit. cbn [option_map]. rewrite matches_audience. simpl.
  rewrite andb_false_r. reflexivity.
Qed.

Lemma CreateRoom_then_CloseRoom_witness :
  let room := LiveRoom.mk "r3" "carol-room" "u6" "single" "" "" "" in
  let created := snd (CreateRoom NewRoomController room Sample.db) in
  let closed := snd (CloseRoom "u6" "r3" created) in
  fst (GetRoomByID "r3" created) = Ok room
  /\ fst (CloseRoom "u6" "r3" created) = None
  /\ rooms closed = rooms Sample.db
  /\ lookup_user "u6" closed = Some (ActiveUser.mk "u6" UserStatusIdle "" None).
Proof.
  intros room.
  apply (CreateRoom_then_CloseRoom NewRoomController room Sample.db Sample.u6).
  - reflexivity.
  - reflexivity.
  - intros r [<-|[<-|[]]]; simpl; discriminate.
  - intros r [<-|[<-|[]]]; simpl; discriminate.
  - reflexivity.
  - simpl; discriminate.
  - simpl; discriminate.
  - simpl; discriminate.
  - reflexivity.
Defined.

(** X15. A user without a presence record gets the driver's bare
    ErrNoDocuments, not a ServerError: from CreateRoom once the three guards
    on the rooms are passed, from EnterRoom into a stored room, and from
    LeaveRoom whatever the room; nothing is written (on a store that serves
    every request). *)
Theorem missing_presence_record (c : RoomController) (userID : string) (db : Mongo) :
  faults db = [] ->
  lookup_user userID db = None ->
  (forall room,
     LiveRoom.Creator room = userID ->
     Z.of_nat (length (rooms db)) < roomNumberLimit c ->
     (forall r, In r (rooms db) -> LiveRoom.Name r <> LiveRoom.Name room) ->
     (forall r, In r (rooms db) -> LiveRoom.Creator r <> LiveRoom.Creator room) ->
     fst (CreateRoom c room db) = Err (MongoError ErrNoDocuments)
     /\ same_data db (snd (CreateRoom c room db)))
  /\ (forall roomID room,
        lookup_room roomID db = Some room ->
        fst (EnterRoom userID roomID db) = Err (MongoError ErrNoDocuments)
        /\ same_data db (snd (EnterRoom userID roomID db)))
  /\ (forall roomID,
        fst (LeaveRoom userID roomID db) = Some (MongoError ErrNoDocuments)
        /\ same_data db (snd (LeaveRoom userID roomID db))).
Proof.
  intros Hs Hu. rewrite <- find_user_by_id in Hu. unfold same_data.
  split; [|split].
  - intros room Hcr Hn Hname Hcreator. subst userID.
    destruct (CreateRoom_past_name_guard c room db Hn Hname) as [Hfind Hlim].
    pose proof (CreateRoom_past_creator_guard room db Hcreator) as Hcnt.
    unfold CreateRoom. run_served Hs.
    rewrite count_docs_all, Hlim. run_served Hs. rewrite Hfind. run_served Hs.
    rewrite Hcnt. run_served Hs. rewrite Hu. run. auto.
  - intros roomID room Hroom. rewrite <- find_room_by_id in Hroom.
    unfold EnterRoom, GetRoomByID, GetRoomByFields. run_served Hs.
    rewrite Hroom. run_served Hs. rewrite Hu. run. auto.
  - intros roomID. unfold LeaveRoom, GetRoomByID, GetRoomByFields. run_served Hs.
    destruct (find (matches [("_id", Is (BString roomID))]) (rooms db));
      run_served Hs; rewrite Hu; run; auto.
Qed.

(** On the sample store, for a user ["u9"] nobody has recorded. *)
Lemma missing_presence_record_witness :
  (fst (CreateRoom NewRoomController
          (LiveRoom.mk "r3" "carol-room" "u9" "single" "" "" "") Sample.db)
   = Err (MongoError ErrNoDocuments)
   /\ same_data Sample.db
        (snd (CreateRoom NewRoomController
                (LiveRoom.mk "r3" "carol-room" "u9" "single" "" "" "") Sample.db)))
  /\ (fst (EnterRoom "u9" "r1" Sample.db) = Err (MongoError ErrNoDocuments)
      /\ same_data Sample.db (snd (EnterRoom "u9" "r1" Sample.db)))
  /\ (fst (LeaveRoom "u9" "r1" Sample.db) = Some (MongoError ErrNoDocuments)
      /\ same_data Sample.db (snd (LeaveRoom "u9" "r1" Sample.db))).
Proof.
  destruct (missing_presence_record NewRoomController "u9" Sample.db eq_refl eq_refl)
    as (Hcreate & Henter & Hleave).
  split; [|split].
  - apply Hcreate.
    + reflexivity.
    + reflexivity.
    + intros r [<-|[<-|[]]]; simpl; discriminate.
    + intros r [<-|[<-|[]]]; simpl; discriminate.
  - apply (Henter "r1" Sample.r1). reflexivity.
  - apply Hleave.
Defined.

(** *** CloseRoom *)

(** X16. CloseRoom by the owner of a stored room, when the store fails part
    of the work.  If the removal of the room fails, that error is returned
    as it is, nothing is written and no update is issued.  If the removal
    is served and both updates of the presence records fail, CloseRoom
    still returns no error: the room is gone and every presence record,
    the closer's and the audience's, is as it was. *)
Theorem CloseRoom_store_failures (userID roomID : string) (db : Mongo) (e : LiveRoom.t) :
  NoDup (map LiveRoom.ID (rooms db)) ->
  In e (rooms db) ->
  LiveRoom.ID e = roomID ->
  LiveRoom.Creator e = userID ->
  let closed := snd (CloseRoom userID roomID db) in
  (forall flt later,
     faults db = None :: Some flt :: later ->
     fst (CloseRoom userID roomID db) = Some (MongoError (fault_err flt))
     /\ same_data db closed
     /\ trace closed = trace db ++ [(Rooms, OpOne); (Rooms, OpRemoveId)])
  /\ (forall flt1 flt2 later,
        faults db = None :: None :: Some flt1 :: Some flt2 :: later ->
        fst (CloseRoom userID roomID db) = None
        /\ rooms closed = filter (fun r => negb (String.eqb (LiveRoom.ID r) roomID)) (rooms db)
        /\ activeUsers closed = activeUsers db
        /\ trace closed = trace db ++ [(Rooms, OpOne); (Rooms, OpRemoveId);
                                       (ActiveUsers, OpUpdateOne);
                                       (ActiveUsers, OpUpdateAll)]).
Proof.
  intros Hnd Hin Hid Hcr closed. subst closed.
  destruct (find_present
              (matches [("_id", Is (BString roomID)); ("creator", Is (BString userID))])
              (rooms db)) as [e' [Hfind _]].
  { exists e. split; [exact Hin|]. rewrite matches_id_creator, Hid, Hcr.
    now rewrite !String.eqb_refl. }
  assert (Hthere : existsb (matches [("_id", Is (BString roomID))]) (rooms db) = true).
  { apply existsb_exists. exists e. split; [exact Hin|].
    rewrite matches_room_id, Hid. apply String.eqb_refl. }
  unfold same_data. split.
  - intros flt later Hf. unfold CloseRoom. run_served Hf. rewrite Hfind. run_served Hf.
    rewrite <- app_assoc. auto.
  - intros flt1 flt2 later Hf. unfold CloseRoom. run_served Hf. rewrite Hfind.
    run_served Hf. rewrite Hthere. run_served Hf. rewrite <- !app_assoc.
    split; [reflexivity|]. split; [|auto].
    rewrite (remove_first_same _ _ (rooms db) (matches_room_id roomID)).
    now apply (remove_first_unique LiveRoom.ID).
Qed.

Lemma CloseRoom_store_failures_witness :
  let down := {| fault_err := ErrUnavailable; fault_decoded := 0 |} in
  let db1 := {| rooms := rooms Sample.db; activeUsers := activeUsers Sample.db;
                faults := [None; Some down]; trace := [] |} in
  let db2 := {| rooms := rooms Sample.db; activeUsers := activeUsers Sample.db;
                faults := [None; None; Some down; Some down]; trace := [] |} in
  (fst (CloseRoom "u1" "r1" db1) = Some (MongoError ErrUnavailable)
   /\ same_data db1 (snd (CloseRoom "u1" "r1" db1))
   /\ trace (snd (CloseRoom "u1" "r1" db1)) = trace db1 ++ [(Rooms, OpOne); (Rooms, OpRemoveId)])
  /\ (fst (CloseRoom "u1" "r1" db2) = None
      /\ rooms (snd (CloseRoom "u1" "r1" db2)) = [Sample.r2]
      /\ activeUsers (snd (CloseRoom "u1" "r1" db2)) = activeUsers db2
      /\ trace (snd (CloseRoom "u1" "r1" db2))
         = trace db2 ++ [(Rooms, OpOne); (Rooms, OpRemoveId);
                         (ActiveUsers, OpUpdateOne); (ActiveUsers, OpUpdateAll)]).
Proof.
  intros down db1 db2.
  assert (Hnd : NoDup (map LiveRoom.ID (rooms Sample.db))) by apply Sample_unique_ids.
  split.
  - destruct (CloseRoom_store_failures "u1" "r1" db1 Sample.r1 Hnd
                (or_introl eq_refl) eq_refl eq_refl) as [H _].
    exact (H down [] eq_refl).
  - destruct (CloseRoom_store_failures "u1" "r1" db2 Sample.r1 Hnd
                (or_introl eq_refl) eq_refl eq_refl) as [_ H].
    exact (H down down [] eq_refl).
Defined.

Lemma find_key_removed {T} (key : T -> string) (k : string) (l : list T) :
  NoDup (map key l) ->
  find (fun d => String.eqb (key d) k) (remove_first (fun d => String.eqb (key d) k) l) = None.
Proof.
  intros Hnd. rewrite (remove_first_unique key k l Hnd).
  apply find_absent. intros d Hin. apply filter_In in Hin. destruct Hin as [_ Hne].
  now apply negb_true_iff.
Qed.

(** With no room stored under an ID, every operation that starts by
    looking the room up fails RoomNotFound. *)
Lemma room_not_found (roomID : string) (db : Mongo) :
  faults db = [] ->
  lookup_room roomID db = None ->
  fst (GetRoomByID roomID db) = Err (ServerError ServerErrorRoomNotFound)
  /\ (forall who, fst (CloseRoom who roomID db) = Some (ServerError ServerErrorRoomNotFound))
  /\ (forall who, fst (EnterRoom who roomID db) = Err (ServerError ServerErrorRoomNotFound))
  /\ (forall patch, fst (UpdateRoom roomID patch db)
                    = Err (ServerError ServerErrorRoomNotFound))
  /\ fst (GetAudienceNumber roomID db) = Err (ServerError ServerErrorRoomNotFound)
  /\ fst (GetAllAudiences roomID db) = Err (ServerError ServerErrorRoomNotFound).
Proof.
  intros Hs Hnone. rewrite <- find_room_by_id in Hnone.
  assert (Hmine : forall who,
            find (matches [("_id", Is (BString roomID)); ("creator", Is (BString who))])
              (rooms db) = None).
  { intros who. apply find_absent. intros r Hin. rewrite matches_id_creator.
    pose proof (find_none _ _ Hnone r Hin) as Hm. rewrite matches_room_id in Hm.
    now rewrite Hm. }
  unfold GetAudienceNumber, GetAllAudiences, UpdateRoom, EnterRoom, CloseRoom,
    GetRoomByID, GetRoomByFields.
  repeat split; intros; run_served Hs; rewrite ?Hnone, ?Hmine; reflexivity.
Qed.

(** X17. Once CloseRoom has succeeded (on a store that serves every request
    and keeps the room IDs unique), no room is stored under that ID any
    more, and GetRoomByID, a second CloseRoom by anybody, EnterRoom by
    anybody, UpdateRoom, GetAudienceNumber and GetAllAudiences on that ID
    all fail RoomNotFound. *)
Theorem CloseRoom_then_room_is_gone (userID roomID : string) (db : Mongo) :
  faults db = [] ->
  NoDup (map LiveRoom.ID (rooms db)) ->
  fst (CloseRoom userID roomID db) = None ->
  let closed := snd (CloseRoom userID roomID db) in
  lookup_room roomID closed = None
  /\ fst (GetRoomByID roomID closed) = Err (ServerError ServerErrorRoomNotFound)
  /\ (forall who, fst (CloseRoom who roomID closed)
                  = Some (ServerError ServerErrorRoomNotFound))
  /\ (forall who, fst (EnterRoom who roomID closed)
                  = Err (ServerError ServerErrorRoomNotFound))
  /\ (forall patch, fst (UpdateRoom roomID patch closed)
                    = Err (ServerError ServerErrorRoomNotFound))
  /\ fst (GetAudienceNumber roomID closed) = Err (ServerError ServerErrorRoomNotFound)
  /\ fst (GetAllAudiences roomID closed) = Err (ServerError ServerErrorRoomNotFound).
Proof.
  intros Hs Hnd Hok closed. subst closed.
  destruct (find (matches [("_id", Is (BString roomID)); ("creator", Is (BString userID))])
              (rooms db)) as [e|] eqn:Hfind.
  - rewrite (CloseRoom_closes userID roomID db e Hs Hfind). cbn [snd].
    match goal with |- lookup_room _ ?st = None /\ _ => set (closed := st) end.
    assert (Hgone : lookup_room roomID closed = None).
    { unfold lookup_room. subst closed. cbn [rooms].
      rewrite (remove_first_same _ _ (rooms db) (matches_room_id roomID)).
      now apply (find_key_removed LiveRoom.ID). }
    split; [exact Hgone|]. now apply room_not_found.
  - revert Hok. unfold CloseRoom. run_served Hs. rewrite Hfind. run. discriminate.
Qed.

Lemma CloseRoom_then_room_is_gone_witness :
  let closed := snd (CloseRoom "u1" "r1" Sample.db) in
  lookup_room "r1" closed = None
  /\ fst (GetRoomByID "r1" closed) = Err (ServerError ServerErrorRoomNotFound)
  /\ (forall who, fst (CloseRoom who "r1" closed)
                  = Some (ServerError ServerErrorRoomNotFound))
  /\ (forall who, fst (EnterRoom who "r1" closed)
                  = Err (ServerError ServerErrorRoomNotFound))
  /\ (forall patch, fst (UpdateRoom "r1" patch closed)
                    = Err (ServerError ServerErrorRoomNotFound))
  /\ fst (GetAudienceNumber "r1" closed) = Err (ServerError ServerErrorRoomNotFound)
  /\ fst (GetAllAudiences "r1" closed) = Err (ServerError ServerErrorRoomNotFound).
Proof.
  apply (CloseRoom_then_room_is_gone "u1" "r1" Sample.db eq_refl).
  - apply Sample_unique_ids.
  - reflexivity.
Defined.

(** *** EnterRoom and LeaveRoom *)

Section FirstMatch.
Context {T : Type}.

Lemma count_update_first (p q : T -> bool) (u u' : T) (l : list T) :
  find q l = Some u ->
  count_docs p (update_first q (fun _ => u') l)
  = count_docs p l - (if p u then 1 else 0) + (if p u' then 1 else 0).
Proof.
  unfold count_docs. induction l as [|d l IH]; simpl; [discriminate|].
  destruct (q d) eqn:Hq.
  - intros Heq. injection Heq as ->. simpl.
    destruct (p u), (p u'); simpl length; lia.
  - intros Hfind. specialize (IH Hfind). simpl.
    destruct (p d); simpl length; lia.
Qed.

Lemma update_first_twice (q : T -> bool) (u' u'' : T) (l : list T) :
  q u' = true ->
  update_first q (fun _ => u'') (update_first q (fun _ => u') l)
  = update_first q (fun _ => u'') l.
Proof.
  intros Hq. induction l as [|d l IH]; simpl; [reflexivity|].
  destruct (q d) eqn:E; simpl; [now rewrite Hq|now rewrite E, IH].
Qed.

Lemma update_first_same_record (q : T -> bool) (u : T) (l : list T) :
  find q l = Some u -> update_first q (fun _ => u) l = l.
Proof.
  induction l as [|d l IH]; simpl; [discriminate|].
  destruct (q d); [now intros [= ->]|]. intros Hfind. now rewrite IH.
Qed.
End FirstMatch.

Lemma in_update_first_key {T} (key : T -> string) (k : string) (d' x : T) (l : list T) :
  NoDup (map key l) ->
  In x (update_first (fun d => String.eqb (key d) k) (fun _ => d') l) ->
  key x = k -> x = d'.
Proof.
  induction l as [|d l IH]; simpl; [contradiction|].
  intros Hnd Hin Hk. inversion Hnd as [|? ? Hnot Hnd']; subst.
  destruct (String.eqb_spec (key d) (key x)) as [Heq|Hne].
  - destruct Hin as [Hx|Hin]; [now symmetry|].
    exfalso. apply Hnot. rewrite Heq. now apply in_map.
  - destruct Hin as [Hx|Hin]; [subst; contradiction|now apply IH].
Qed.

(** The run of EnterRoom that makes the user a viewer, in full. *)
Lemma EnterRoom_enters (userID roomID : string) (db : Mongo)
    (room : LiveRoom.t) (u : ActiveUser.t) :
  faults db = [] ->
  lookup_room roomID db = Some room ->
  lookup_user userID db = Some u ->
  ActiveUser.Status u = UserStatusIdle \/ ActiveUser.Status u = UserStatusWatching ->
  EnterRoom userID roomID db
  = (Ok room,
     {| rooms := rooms db;
        activeUsers :=
          update_first (matches [("_id", Is (BString userID))])
            (apply_update
               (SetDoc (ActiveUser.set_Room roomID
                          (ActiveUser.set_Status UserStatusWatching u))))
            (activeUsers db);
        faults := [];
        trace := trace db ++ [(Rooms, OpOne); (ActiveUsers, OpOne);
                              (ActiveUsers, OpUpdateOne)] |}).
Proof.
  intros Hs Hroom Hu Hst.
  rewrite <- find_room_by_id in Hroom. rewrite <- find_user_by_id in Hu.
  pose proof (find_existsb _ _ _ Hu) as Hthere.
  unfold EnterRoom, GetRoomByID, GetRoomByFields. run_served Hs.
  rewrite Hroom. run_served Hs. rewrite Hu.
  destruct Hst as [Hst|Hst]; rewrite Hst; run_served Hs; rewrite Hthere; run;
    rewrite <- !app_assoc; reflexivity.
Qed.

(** X18. Entering a room makes the user count in its audience, once: on a
    store that serves every request, after EnterRoom by an idle user, or by
    a user watching another room, GetAudienceNumber of the room is one more
    than before; after EnterRoom by a user already watching that room it is
    what it was. *)
Theorem EnterRoom_counts_the_viewer (userID roomID : string) (db : Mongo)
    (room : LiveRoom.t) (u : ActiveUser.t) (n : Z) :
  faults db = [] ->
  lookup_room roomID db = Some room ->
  lookup_user userID db = Some u ->
  fst (GetAudienceNumber roomID db) = Ok n ->
  let entered := snd (EnterRoom userID roomID db) in
  (ActiveUser.Status u = UserStatusIdle
   \/ (ActiveUser.Status u = UserStatusWatching /\ ActiveUser.Room u <> roomID) ->
   fst (GetAudienceNumber roomID entered) = Ok (n + 1))
  /\ (ActiveUser.Status u = UserStatusWatching /\ ActiveUser.Room u = roomID ->
      fst (GetAudienceNumber roomID entered) = Ok n).
Proof.
  intros Hs Hroom Hu Hn entered. subst entered.
  assert (Hfound : find (matches [("_id", Is (BString roomID))]) (rooms db) = Some room)
    by now rewrite find_room_by_id.
  assert (Hid : LiveRoom.ID room = roomID).
  { apply find_some in Hfound. destruct Hfound as [_ Hm].
    rewrite matches_room_id in Hm. now apply String.eqb_eq. }
  assert (Hfu : find (matches [("_id", Is (BString userID))]) (activeUsers db) = Some u)
    by now rewrite find_user_by_id.
  revert Hn. unfold GetAudienceNumber at 1, GetRoomByID, GetRoomByFields.
  run_served Hs. rewrite Hfound. run_served Hs. rewrite Hid. intros Hn.
  injection Hn as Hn.
  assert (Hafter : forall st : ActiveUser.Status u = UserStatusIdle
                               \/ ActiveUser.Status u = UserStatusWatching,
            fst (GetAudienceNumber roomID (snd (EnterRoom userID roomID db)))
            = Ok (n - (if matches (audienceFilter roomID) u then 1 else 0) + 1)).
  { intros Hst. rewrite (EnterRoom_enters userID roomID db room u Hs Hroom Hu Hst).
    unfold GetAudienceNumber, GetRoomByID, GetRoomByFields. run. rewrite Hfound. run.
    rewrite Hid.
    change (apply_update
              (SetDoc (ActiveUser.set_Room roomID (ActiveUser.set_Status UserStatusWatching u))))
      with (fun _ : ActiveUser.t =>
              ActiveUser.set_Room roomID (ActiveUser.set_Status UserStatusWatching u)).
    rewrite (count_update_first _ _ u _ _ Hfu), Hn.
    rewrite (matches_audienceFilter roomID (ActiveUser.set_Room roomID _)). simpl.
    now rewrite String.eqb_refl. }
  split.
  - intros [Hst|[Hst Hother]].
    + rewrite (Hafter (or_introl Hst)), matches_audienceFilter, Hst. simpl.
      rewrite andb_false_r. f_equal. lia.
    + rewrite (Hafter (or_intror Hst)), matches_audienceFilter.
      rewrite (proj2 (String.eqb_neq _ _) Hother). simpl. f_equal. lia.
  - intros [Hst Hsame].
    rewrite (Hafter (or_intror Hst)), matches_audienceFilter, Hst, Hsame.
    rewrite String.eqb_refl. simpl. f_equal. lia.
Qed.

(** On the sample store: idle [u6] enters [r1], which has three viewers;
    [u3], who is watching [r1], enters it again. *)
Lemma EnterRoom_counts_the_viewer_witness :
  fst (GetAudienceNumber "r1" Sample.db) = Ok 3
  /\ fst (GetAudienceNumber "r1" (snd (EnterRoom "u6" "r1" Sample.db))) = Ok (3 + 1)
  /\ fst (GetAudienceNumber "r1" (snd (EnterRoom "u3" "r1" Sample.db))) = Ok 3.
Proof.
  split; [reflexivity|]. split.
  - apply (EnterRoom_counts_the_viewer "u6" "r1" Sample.db Sample.r1 Sample.u6 3
             eq_refl eq_refl eq_refl eq_refl).
    left. reflexivity.
  - apply (EnterRoom_counts_the_viewer "u3" "r1" Sample.db Sample.r1 Sample.u3 3
             eq_refl eq_refl eq_refl eq_refl).
    split; reflexivity.
Defined.

(** The run of LeaveRoom that sets the user idle, in full. *)
Lemma LeaveRoom_leaves (userID roomID : string) (db : Mongo) (u : ActiveUser.t) :
  faults db = [] ->
  find (matches [("_id", Is (BString userID))]) (activeUsers db) = Some u ->
  isBroadcasting (ActiveUser.Status u) = false ->
  LeaveRoom userID roomID db
  = (None,
     {| rooms := rooms db;
        activeUsers :=
          update_first (matches [("_id", Is (BString userID))])
            (apply_update
               (SetDoc (ActiveUser.set_JoinPosition None
                          (ActiveUser.set_Room ""
                             (ActiveUser.set_Status UserStatusIdle u)))))
            (activeUsers db);
        faults := [];
        trace := trace db ++ [(Rooms, OpOne); (ActiveUsers, OpOne);
                              (ActiveUsers, OpUpdateOne)] |}).
Proof.
  intros Hs Hu Hst. pose proof (find_existsb _ _ _ Hu) as Hthere.
  unfold LeaveRoom, GetRoomByID, GetRoomByFields. run_served Hs.
  destruct (find (matches [("_id", Is (BString roomID))]) (rooms db));
    run_served Hs; rewrite Hu; cbv beta iota; rewrite Hst; run_served Hs;
    rewrite Hthere; run; rewrite <- !app_assoc; reflexivity.
Qed.

(** X19. Entering a room and leaving again, on a store that serves every
    request: for an idle or watching user, LeaveRoom after EnterRoom
    succeeds, the rooms are untouched, the user's record reads idle with
    empty Room and no JoinPosition, and every other record reads as before.
    For a user whose record was already idle, with empty Room and no
    JoinPosition, the presence records are exactly what they were before
    the user entered. *)
Theorem EnterRoom_then_LeaveRoom (userID roomID : string) (db : Mongo)
    (room : LiveRoom.t) (u : ActiveUser.t) :
  faults db = [] ->
  lookup_room roomID db = Some room ->
  lookup_user userID db = Some u ->
  ActiveUser.Status u = UserStatusIdle \/ ActiveUser.Status u = UserStatusWatching ->
  let entered := snd (EnterRoom userID roomID db) in
  let away := snd (LeaveRoom userID roomID entered) in
  fst (LeaveRoom userID roomID entered) = None
  /\ rooms away = rooms db
  /\ lookup_user userID away
     = Some (ActiveUser.mk (ActiveUser.ID u) UserStatusIdle "" None)
  /\ (forall other, other <> userID -> lookup_user other away = lookup_user other db)
  /\ (u = ActiveUser.mk (ActiveUser.ID u) UserStatusIdle "" None ->
      activeUsers away = activeUsers db).
Proof.
  intros Hs Hroom Hu Hst entered away. subst entered away.
  rewrite (EnterRoom_enters userID roomID db room u Hs Hroom Hu Hst). cbn [snd].
  rewrite <- find_user_by_id in Hu.
  set (viewer := ActiveUser.set_Room roomID (ActiveUser.set_Status UserStatusWatching u)).
  set (idle := ActiveUser.mk (ActiveUser.ID u) UserStatusIdle "" None).
  destruct (user_written userID u viewer (activeUsers db) Hu eq_refl)
    as (_ & Hhit & Hmiss).
  destruct (user_written userID u idle (activeUsers db) Hu eq_refl)
    as (_ & Hhit' & Hmiss').
  assert (Hviewer :
            find (matches [("_id", Is (BString userID))])
              (update_first (matches [("_id", Is (BString userID))])
                 (apply_update (SetDoc viewer)) (activeUsers db)) = Some viewer).
  { rewrite <- Hhit. apply find_same. intros d. apply matches_user_id. }
  assert (Hq : matches [("_id", Is (BString userID))] viewer = true).
  { apply find_some in Hviewer. tauto. }
  match goal with
  | |- fst (LeaveRoom _ _ ?st) = None /\ _ =>
      rewrite (LeaveRoom_leaves userID roomID st viewer eq_refl Hviewer
                 ltac:(destruct Hst as [Hst|Hst]; reflexivity))
  end.
  cbn [fst snd rooms]. unfold lookup_user. cbn [activeUsers].
  change (apply_update
            (SetDoc (ActiveUser.set_JoinPosition None
                       (ActiveUser.set_Room "" (ActiveUser.set_Status UserStatusIdle viewer)))))
    with (fun _ : ActiveUser.t => idle).
  change (apply_update (SetDoc viewer)) with (fun _ : ActiveUser.t => viewer) in *.
  change (apply_update (SetDoc idle)) with (fun _ : ActiveUser.t => idle) in *.
  rewrite (update_first_twice _ viewer idle (activeUsers db) Hq).
  split; [reflexivity|]. split; [reflexivity|]. split; [exact Hhit'|].
  split; [exact Hmiss'|].
  intros Heq. rewrite <- Heq. now apply update_first_same_record.
Qed.

Lemma EnterRoom_then_LeaveRoom_witness :
  let entered := snd (EnterRoom "u6" "r1" Sample.db) in
  let away := snd (LeaveRoom "u6" "r1" entered) in
  fst (LeaveRoom "u6" "r1" entered) = None
  /\ rooms away = rooms Sample.db
  /\ lookup_user "u6" away = Some (ActiveUser.mk "u6" UserStatusIdle "" None)
  /\ (forall other, other <> "u6" -> lookup_user other away = lookup_user other Sample.db)
  /\ (Sample.u6 = ActiveUser.mk "u6" UserStatusIdle "" None ->
      activeUsers away = activeUsers Sample.db).
Proof.
  apply (EnterRoom_then_LeaveRoom "u6" "r1" Sample.db Sample.r1 Sample.u6
           eq_refl eq_refl eq_refl).
  left. reflexivity.
Defined.

(** X20. After LeaveRoom has set a user idle (the store serving every
    request and keeping the user IDs unique), the user is in the audience
    of no room: no list that GetAllAudiences returns, for any room, holds a
    record of that user. *)
Theorem LeaveRoom_takes_the_user_out_of_every_audience
    (userID roomID : string) (db : Mongo) (u : ActiveUser.t) :
  faults db = [] ->
  NoDup (map ActiveUser.ID (activeUsers db)) ->
  lookup_user userID db = Some u ->
  ActiveUser.Status u <> UserStatusSingleLive ->
  ActiveUser.Status u <> UserStatusPKLive ->
  ActiveUser.Status u <> UserStatusPKWait ->
  let away := snd (LeaveRoom userID roomID db) in
  fst (LeaveRoom userID roomID db) = None
  /\ forall anyRoom audience,
       fst (GetAllAudiences anyRoom away) = Ok audience ->
       forall x, In x audience -> ActiveUser.ID x <> userID.
Proof.
  intros Hs Hnd Hu Hsl Hpl Hpw away. subst away.
  rewrite <- find_user_by_id in Hu.
  assert (Hnb : isBroadcasting (ActiveUser.Status u) = false)
    by (destruct (ActiveUser.Status u); try reflexivity; congruence).
  rewrite (LeaveRoom_leaves userID roomID db u Hs Hu Hnb). cbn [fst snd].
  split; [reflexivity|].
  intros anyRoom audience. unfold GetAllAudiences, GetRoomByID, GetRoomByFields. run.
  destruct (find (matches [("_id", Is (BString anyRoom))]) (rooms db)); run;
    [|discriminate].
  intros Heq x Hin Hx. injection Heq as <-.
  apply filter_In in Hin. destruct Hin as [Hin Hm].
  change (apply_update
            (SetDoc (ActiveUser.set_JoinPosition None
                       (ActiveUser.set_Room "" (ActiveUser.set_Status UserStatusIdle u)))))
    with (fun _ : ActiveUser.t =>
            ActiveUser.set_JoinPosition None
              (ActiveUser.set_Room "" (ActiveUser.set_Status UserStatusIdle u))) in Hin.
  rewrite (update_first_same _ _ _ _ (matches_user_id userID)) in Hin.
  rewrite (in_update_first_key ActiveUser.ID userID _ x _ Hnd Hin Hx) in Hm.
  rewrite matches_audienceFilter in Hm. simpl in Hm. rewrite andb_false_r in Hm.
  discriminate.
Qed.

Lemma LeaveRoom_takes_the_user_out_of_every_audience_witness :
  let away := snd (LeaveRoom "u3" "r1" Sample.db) in
  fst (LeaveRoom "u3" "r1" Sample.db) = None
  /\ forall anyRoom audience,
       fst (GetAllAudiences anyRoom away) = Ok audience ->
       forall x, In x audience -> ActiveUser.ID x <> "u3".
Proof.
  apply (LeaveRoom_takes_the_user_out_of_every_audience "u3" "r1" Sample.db Sample.u3
           eq_refl).
  - apply Sample_unique_ids.
  - reflexivity.
  - simpl; discriminate.
  - simpl; discriminate.
  - simpl; discriminate.
Defined.

(** *** UpdateRoom *)

(** Every successful run of UpdateRoom, whatever the store answered: what
    was stored, what is written, and the record written field by field. *)
Lemma UpdateRoom_written (id : string) (newRoom room' : LiveRoom.t) (db : Mongo) :
  fst (UpdateRoom id newRoom db) = Ok room' ->
  exists room,
    find (matches [("_id", Is (BString id))]) (rooms db) = Some room
    /\ rooms (snd (UpdateRoom id newRoom db))
       = update_first (matches [("_id", Is (BString id))]) (fun _ => room') (rooms db)
    /\ activeUsers (snd (UpdateRoom id newRoom db)) = activeUsers db
    /\ LiveRoom.ID room' = id
    /\ LiveRoom.Name room'
       = (if String.eqb (LiveRoom.Name newRoom) "" then LiveRoom.Name room
          else LiveRoom.Name newRoom)
    /\ LiveRoom.Status room' = LiveRoom.Status newRoom
    /\ LiveRoom.RTCRoom room'
       = (if String.eqb (LiveRoom.RTCRoom newRoom) "" then LiveRoom.RTCRoom room
          else LiveRoom.RTCRoom newRoom)
    /\ LiveRoom.PlayURL room'
       = (if String.eqb (LiveRoom.PlayURL newRoom) "" then LiveRoom.PlayURL room
          else LiveRoom.PlayURL newRoom)
    /\ LiveRoom.PKAnchor room' = LiveRoom.PKAnchor newRoom.
Proof.
  unfold UpdateRoom, GetRoomByID, GetRoomByFields. run.
  next_answer.
  { destruct (isNoDocuments (fault_err flt)); run; discriminate. }
  destruct (find (matches [("_id", Is (BString id))]) (rooms db)) as [room|] eqn:Hroom; run;
    [|discriminate].
  assert (Hid : LiveRoom.ID room = id).
  { apply find_some in Hroom. destruct Hroom as [_ Hm].
    rewrite matches_room_id in Hm. now apply String.eqb_eq. }
  assert (Hthere : existsb (matches [("_id", Is (BString id))]) (rooms db) = true)
    by exact (find_existsb _ _ _ Hroom).
  assert (Hleaf : forall stored : LiveRoom.t,
            LiveRoom.ID stored = id ->
            LiveRoom.Name stored
            = (if String.eqb (LiveRoom.Name newRoom) "" then LiveRoom.Name room
               else LiveRoom.Name newRoom) ->
            LiveRoom.RTCRoom stored = LiveRoom.RTCRoom room ->
            LiveRoom.PlayURL stored = LiveRoom.PlayURL room ->
            forall written,
              written
              = LiveRoom.set_PKAnchor (LiveRoom.PKAnchor newRoom)
                  (let r :=
                     let r :=
                       if negb (String.eqb (LiveRoom.Status newRoom) (LiveRoom.Status stored))
                       then LiveRoom.set_Status (LiveRoom.Status newRoom) stored else stored in
                     if negb (String.eqb (LiveRoom.RTCRoom newRoom) "")
                     then LiveRoom.set_RTCRoom (LiveRoom.RTCRoom newRoom) r else r in
                   if negb (String.eqb (LiveRoom.PlayURL newRoom) "")
                   then LiveRoom.set_PlayURL (LiveRoom.PlayURL newRoom) r else r) ->
              LiveRoom.ID written = id
              /\ LiveRoom.Name written
                 = (if String.eqb (LiveRoom.Name newRoom) "" then LiveRoom.Name room
                    else LiveRoom.Name newRoom)
              /\ LiveRoom.Status written = LiveRoom.Status newRoom
              /\ LiveRoom.RTCRoom written
                 = (if String.eqb (LiveRoom.RTCRoom newRoom) "" then LiveRoom.RTCRoom room
                    else LiveRoom.RTCRoom newRoom)
              /\ LiveRoom.PlayURL written
                 = (if String.eqb (LiveRoom.PlayURL newRoom) "" then LiveRoom.PlayURL room
                    else LiveRoom.PlayURL newRoom)
              /\ LiveRoom.PKAnchor written = LiveRoom.PKAnchor newRoom).
  { intros stored H1 H2 H3 H4 written ->. cbv zeta.
    destruct (String.eqb_spec (LiveRoom.Status newRoom) (LiveRoom.Status stored));
      destruct (String.eqb (LiveRoom.RTCRoom newRoom) "");
      destruct (String.eqb (LiveRoom.PlayURL newRoom) "");
      simpl; auto 10. }
  assert (Hplain : (negb (String.eqb (LiveRoom.Name newRoom) "")
                    && negb (String.eqb (LiveRoom.Name newRoom) (LiveRoom.Name room))) = false ->
                   LiveRoom.Name room
                   = (if String.eqb (LiveRoom.Name newRoom) "" then LiveRoom.Name room
                      else LiveRoom.Name newRoom)).
  { destruct (String.eqb (LiveRoom.Name newRoom) ""); [reflexivity|]. simpl.
    intros Hsame. apply negb_false_iff, String.eqb_eq in Hsame. now symmetry. }
  assert (Hrenamed : (negb (String.eqb (LiveRoom.Name newRoom) "")
                      && negb (String.eqb (LiveRoom.Name newRoom) (LiveRoom.Name room))) = true ->
                     LiveRoom.Name newRoom
                     = (if String.eqb (LiveRoom.Name newRoom) "" then LiveRoom.Name room
                        else LiveRoom.Name newRoom)).
  { destruct (String.eqb (LiveRoom.Name newRoom) ""); [discriminate|reflexivity]. }
  destruct (negb (String.eqb (LiveRoom.Name newRoom) "")
            && negb (String.eqb (LiveRoom.Name newRoom) (LiveRoom.Name room))) eqn:Hcond; run.
  - specialize (Hleaf (LiveRoom.set_Name (LiveRoom.Name newRoom) room) Hid
                  (Hrenamed eq_refl) eq_refl eq_refl).
    next_answer.
    + destruct (isNoDocuments (fault_err flt)); run; [|discriminate].
      next_answer; [discriminate|].
      rewrite Hthere. run. intros Heq. injection Heq as <-.
      exists room. split; [reflexivity|]. split; [reflexivity|]. split; [reflexivity|].
      now apply Hleaf.
    + destruct (find (matches [("_id", Ne (BString (LiveRoom.Name newRoom)));
                               ("name", Is (BString (LiveRoom.Name newRoom)))]) (rooms db));
        run; [discriminate|].
      next_answer; [discriminate|].
      rewrite Hthere. run. intros Heq. injection Heq as <-.
      exists room. split; [reflexivity|]. split; [reflexivity|]. split; [reflexivity|].
      now apply Hleaf.
  - specialize (Hleaf room Hid (Hplain eq_refl) eq_refl eq_refl).
    next_answer; [discriminate|].
    rewrite Hthere. run. intros Heq. injection Heq as <-.
    exists room. split; [reflexivity|]. split; [reflexivity|]. split; [reflexivity|].
    now apply Hleaf.
Qed.

(** X21. Every successful UpdateRoom(id, newRoom), whatever the store
    answered: the stored Name is newRoom.Name when that is not empty and the
    stored one otherwise; the presence records are untouched; the rooms keep
    their IDs in their order, and every room under another ID reads as
    before. *)
Theorem UpdateRoom_name_and_frame (id : string) (newRoom room' : LiveRoom.t) (db : Mongo) :
  fst (UpdateRoom id newRoom db) = Ok room' ->
  let updated := snd (UpdateRoom id newRoom db) in
  exists room,
    lookup_room id db = Some room
    /\ LiveRoom.Name room'
       = (if String.eqb (LiveRoom.Name newRoom) "" then LiveRoom.Name room
          else LiveRoom.Name newRoom)
    /\ activeUsers updated = activeUsers db
    /\ map LiveRoom.ID (rooms updated) = map LiveRoom.ID (rooms db)
    /\ forall other, other <> id -> lookup_room other updated = lookup_room other db.
Proof.
  intros Hok updated. subst updated.
  destruct (UpdateRoom_written id newRoom room' db Hok)
    as (room & Hroom & Hrooms & Husers & Hid & Hname & _).
  exists room. rewrite <- find_room_by_id. split; [exact Hroom|]. split; [exact Hname|].
  split; [exact Husers|]. unfold lookup_room. rewrite Hrooms.
  rewrite (update_first_same _ _ _ (rooms db) (matches_room_id id)). split.
  - apply (keys_update_first LiveRoom.ID). intros d Hd. apply String.eqb_eq in Hd. congruence.
  - intros other Hother. now apply (find_update_first_miss LiveRoom.ID).
Qed.

(** On the sample store: a patch without a name, and a rename. *)
Lemma UpdateRoom_name_and_frame_witness :
  (exists room,
     lookup_room "r1" Sample.db = Some room
     /\ "alice-room" = (if String.eqb (LiveRoom.Name UpdateSample.new_url) ""
                        then LiveRoom.Name room else LiveRoom.Name UpdateSample.new_url)
     /\ activeUsers (snd (UpdateRoom "r1" UpdateSample.new_url Sample.db))
        = activeUsers Sample.db
     /\ map LiveRoom.ID (rooms (snd (UpdateRoom "r1" UpdateSample.new_url Sample.db)))
        = map LiveRoom.ID (rooms Sample.db)
     /\ forall other, other <> "r1" ->
          lookup_room other (snd (UpdateRoom "r1" UpdateSample.new_url Sample.db))
          = lookup_room other Sample.db)
  /\ (exists room,
        lookup_room "r1" Sample.db = Some room
        /\ "lounge" = (if String.eqb (LiveRoom.Name UpdateSample.rename) ""
                       then LiveRoom.Name room else LiveRoom.Name UpdateSample.rename)
        /\ activeUsers (snd (UpdateRoom "r1" UpdateSample.rename Sample.db))
           = activeUsers Sample.db
        /\ map LiveRoom.ID (rooms (snd (UpdateRoom "r1" UpdateSample.rename Sample.db)))
           = map LiveRoom.ID (rooms Sample.db)
        /\ forall other, other <> "r1" ->
             lookup_room other (snd (UpdateRoom "r1" UpdateSample.rename Sample.db))
             = lookup_room other Sample.db).
Proof.
  split.
  - exact (UpdateRoom_name_and_frame "r1" UpdateSample.new_url
             (LiveRoom.mk "r1" "alice-room" "u1" "" "rtc-1" "rtmp://play/9" "")
             Sample.db eq_refl).
  - exact (UpdateRoom_name_and_frame "r1" UpdateSample.rename
             (LiveRoom.mk "r1" "lounge" "u1" "single" "rtc-1" "rtmp://play/1" "")
             Sample.db eq_refl).
Defined.

Lemma UpdateRoom_stays_served (id : string) (newRoom : LiveRoom.t) (db : Mongo) :
  faults db = [] -> faults (snd (UpdateRoom id newRoom db)) = [].
Proof.
  intros Hs. unfold UpdateRoom, GetRoomByID, GetRoomByFields.
  repeat (run_served Hs;
          match goal with
          | |- context [match find ?p ?l with _ => _ end] => destruct (find p l)
          | |- context [if ?b then _ else _] => destruct b
          end);
    run_served Hs; reflexivity.
Qed.

(** A patch that the stored room already carries changes nothing. *)
Lemma UpdateRoom_again (id : string) (newRoom room' : LiveRoom.t) (db : Mongo) :
  faults db = [] ->
  find (matches [("_id", Is (BString id))]) (rooms db) = Some room' ->
  (negb (String.eqb (LiveRoom.Name newRoom) "")
   && negb (String.eqb (LiveRoom.Name newRoom) (LiveRoom.Name room'))) = false ->
  LiveRoom.Status room' = LiveRoom.Status newRoom ->
  (if String.eqb (LiveRoom.RTCRoom newRoom) "" then True
   else LiveRoom.RTCRoom room' = LiveRoom.RTCRoom newRoom) ->
  (if String.eqb (LiveRoom.PlayURL newRoom) "" then True
   else LiveRoom.PlayURL room' = LiveRoom.PlayURL newRoom) ->
  LiveRoom.PKAnchor room' = LiveRoom.PKAnchor newRoom ->
  fst (UpdateRoom id newRoom db) = Ok room'
  /\ same_data db (snd (UpdateRoom id newRoom db)).
Proof.
  intros Hs Hroom Hcond Hst Hrtc Hurl Hpk.
  pose proof (find_existsb _ _ _ Hroom) as Hthere.
  assert (Hsame :
            LiveRoom.set_PKAnchor (LiveRoom.PKAnchor newRoom)
              (let r :=
                 let r :=
                   if negb (String.eqb (LiveRoom.Status newRoom) (LiveRoom.Status room'))
                   then LiveRoom.set_Status (LiveRoom.Status newRoom) room' else room' in
                 if negb (String.eqb (LiveRoom.RTCRoom newRoom) "")
                 then LiveRoom.set_RTCRoom (LiveRoom.RTCRoom newRoom) r else r in
               if negb (String.eqb (LiveRoom.PlayURL newRoom) "")
               then LiveRoom.set_PlayURL (LiveRoom.PlayURL newRoom) r else r)
            = room').
  { cbv zeta. rewrite <- Hst, String.eqb_refl. destruct room' as [i n cr st rtc url pk].
    simpl in *. subst pk. revert Hrtc Hurl.
    destruct (String.eqb (LiveRoom.RTCRoom newRoom) "");
      destruct (String.eqb (LiveRoom.PlayURL newRoom) "");
      unfold LiveRoom.set_PKAnchor, LiveRoom.set_PlayURL, LiveRoom.set_RTCRoom; simpl;
      intros; congruence. }
  unfold same_data, UpdateRoom, GetRoomByID, GetRoomByFields. run_served Hs.
  rewrite Hroom. run_served Hs. rewrite Hcond. run_served Hs. rewrite Hthere. run.
  cbv zeta in Hsame. rewrite Hsame.
  change (apply_update (SetDoc room')) with (fun _ : LiveRoom.t => room').
  rewrite (update_first_same_record _ room' (rooms db) Hroom). auto.
Qed.

(** X22. UpdateRoom is idempotent: on a store that serves every request,
    repeating a successful UpdateRoom(id, newRoom) succeeds again, returns
    the same room and writes nothing new. *)
Theorem UpdateRoom_idempotent (id : string) (newRoom room' : LiveRoom.t) (db : Mongo) :
  faults db = [] ->
  fst (UpdateRoom id newRoom db) = Ok room' ->
  let once := snd (UpdateRoom id newRoom db) in
  fst (UpdateRoom id newRoom once) = Ok room'
  /\ same_data once (snd (UpdateRoom id newRoom once)).
Proof.
  intros Hs Hok once.
  destruct (UpdateRoom_written id newRoom room' db Hok)
    as (room & Hroom & Hrooms & _ & Hid & Hname & Hst & Hrtc & Hurl & Hpk).
  pose proof (UpdateRoom_stays_served id newRoom db Hs) as Hs1.
  fold once in Hrooms, Hs1.
  apply UpdateRoom_again; try assumption.
  - rewrite Hrooms. rewrite (find_same _ _ _ (matches_room_id id)).
    rewrite (update_first_same _ _ _ (rooms db) (matches_room_id id)).
    apply (find_update_first_hit LiveRoom.ID); [exact Hid|].
    rewrite <- (existsb_same _ _ (rooms db) (matches_room_id id)).
    exact (find_existsb _ _ _ Hroom).
  - rewrite Hname. destruct (String.eqb (LiveRoom.Name newRoom) "") eqn:E; [reflexivity|].
    now rewrite String.eqb_refl.
  - destruct (String.eqb (LiveRoom.RTCRoom newRoom) ""); [exact I|exact Hrtc].
  - destruct (String.eqb (LiveRoom.PlayURL newRoom) ""); [exact I|exact Hurl].
Qed.

Lemma UpdateRoom_idempotent_witness :
  let room' := LiveRoom.mk "r1" "lounge" "u1" "single" "rtc-1" "rtmp://play/1" "" in
  let once := snd (UpdateRoom "r1" UpdateSample.rename Sample.db) in
  fst (UpdateRoom "r1" UpdateSample.rename once) = Ok room'
  /\ same_data once (snd (UpdateRoom "r1" UpdateSample.rename once)).
Proof.
  intros room'.
  exact (UpdateRoom_idempotent "r1" UpdateSample.rename room' Sample.db eq_refl eq_refl).
Defined.

(** *** CreateRoom, continued *)

(** X23. One room per creator, seen from the caller: once CreateRoom has
    created a room (on a store that serves every request) and the rooms are
    still fewer than the limit, a second CreateRoom by the same creator
    under the same name returns the stored room and inserts nothing, and
    under a name no stored room bears it fails CanOnlyCreateOneRoom. *)
Theorem CreateRoom_twice (c : RoomController) (room again : LiveRoom.t) (db : Mongo)
    (u : ActiveUser.t) :
  faults db = [] ->
  Z.of_nat (length (rooms db)) + 1 < roomNumberLimit c ->
  (forall r, In r (rooms db) -> LiveRoom.Name r <> LiveRoom.Name room) ->
  (forall r, In r (rooms db) -> LiveRoom.Creator r <> LiveRoom.Creator room) ->
  lookup_user (LiveRoom.Creator room) db = Some u ->
  ActiveUser.Status u <> UserStatusWatching ->
  ActiveUser.Status u <> UserStatusJoined ->
  ActiveUser.Status u <> UserStatusJoinWait ->
  lookup_room (LiveRoom.ID room) db = None ->
  LiveRoom.Creator again = LiveRoom.Creator room ->
  let created := snd (CreateRoom c room db) in
  (LiveRoom.Name again = LiveRoom.Name room ->
   fst (CreateRoom c again created) = Ok room
   /\ same_data created (snd (CreateRoom c again created)))
  /\ (LiveRoom.Name again <> LiveRoom.Name room ->
      (forall r, In r (rooms db) -> LiveRoom.Name r <> LiveRoom.Name again) ->
      rejected (CreateRoom c again created) created ServerErrorCanOnlyCreateOneRoom
        [(Rooms, OpCount); (Rooms, OpOne); (Rooms, OpCount)]).
Proof.
  intros Hs Hn Hname Hcreator Hu Hw Hj Hjw Hid Hsame created. subst created.
  rewrite (CreateRoom_creates c room db u Hs ltac:(lia) Hname Hcreator Hu Hw Hj Hjw Hid).
  cbn [snd].
  match goal with
  | |- (_ -> fst (CreateRoom _ _ ?st) = _ /\ _) /\ _ => set (created := st)
  end.
  assert (Hlen : Z.of_nat (length (rooms created)) < roomNumberLimit c).
  { subst created. cbn [rooms]. rewrite length_app. simpl. lia. }
  split.
  - intros Heq.
    assert (Hfind : find (matches [("name", Is (BString (LiveRoom.Name again)))])
                      (rooms db ++ [room]) = Some room).
    { apply find_snoc.
      - apply find_absent. intros r Hin. rewrite matches_name, Heq.
        apply String.eqb_neq. now apply Hname.
      - rewrite matches_name, Heq. apply String.eqb_refl. }
    subst created. cbn [rooms] in Hlen.
    unfold same_data, CreateRoom. run. rewrite count_docs_all.
    destruct (Z.geb_spec (Z.of_nat (length (rooms db ++ [room]))) (roomNumberLimit c));
      [lia|].
    run. rewrite Hfind, Hsame, String.eqb_refl. run. auto.
  - intros Hne Hfree.
    apply (CreateRoom_creator_guard c again created eq_refl Hlen).
    + intros r Hin. subst created. cbn [rooms] in Hin. apply in_app_iff in Hin.
      destruct Hin as [Hin|[<-|[]]]; [now apply Hfree|congruence].
    + exists room. split; [|now symmetry].
      subst created. cbn [rooms]. apply in_app_iff. right. now left.
Qed.

Lemma CreateRoom_twice_witness :
  let room := LiveRoom.mk "r3" "carol-room" "u6" "single" "" "" "" in
  let created := snd (CreateRoom NewRoomController room Sample.db) in
  (fst (CreateRoom NewRoomController
          (LiveRoom.mk "r4" "carol-room" "u6" "single" "" "" "") created) = Ok room
   /\ same_data created
        (snd (CreateRoom NewRoomController
                (LiveRoom.mk "r4" "carol-room" "u6" "single" "" "" "") created)))
  /\ rejected (CreateRoom NewRoomController
                 (LiveRoom.mk "r4" "second-room" "u6" "single" "" "" "") created)
       created ServerErrorCanOnlyCreateOneRoom
       [(Rooms, OpCount); (Rooms, OpOne); (Rooms, OpCount)].
Proof.
  intros room created.
  assert (Hnames : forall r, In r (rooms Sample.db) -> LiveRoom.Name r <> "carol-room")
    by (intros r [<-|[<-|[]]]; simpl; discriminate).
  assert (Hcreators : forall r, In r (rooms Sample.db) -> LiveRoom.Creator r <> "u6")
    by (intros r [<-|[<-|[]]]; simpl; discriminate).
  split.
  - apply (CreateRoom_twice NewRoomController room
             (LiveRoom.mk "r4" "carol-room" "u6" "single" "" "" "") Sample.db Sample.u6
             eq_refl eq_refl Hnames Hcreators eq_refl); try (simpl; discriminate);
      reflexivity.
  - apply (CreateRoom_twice NewRoomController room
             (LiveRoom.mk "r4" "second-room" "u6" "single" "" "" "") Sample.db Sample.u6
             eq_refl eq_refl Hnames Hcreators eq_refl); try (simpl; discriminate);
      try reflexivity.
    intros r [<-|[<-|[]]]; simpl; discriminate.
Defined.

(** X24. A creator is a broadcaster: after CreateRoom has created a room
    (on a store that serves every request), the creator can neither enter a
    stored room as a viewer nor leave a room; EnterRoom and LeaveRoom fail
    UserBroadcasting and write nothing. *)
Theorem CreateRoom_makes_the_creator_a_broadcaster
    (c : RoomController) (room : LiveRoom.t) (db : Mongo) (u : ActiveUser.t) :
  faults db = [] ->
  Z.of_nat (length (rooms db)) < roomNumberLimit c ->
  (forall r, In r (rooms db) -> LiveRoom.Name r <> LiveRoom.Name room) ->
  (forall r, In r (rooms db) -> LiveRoom.Creator r <> LiveRoom.Creator room) ->
  lookup_user (LiveRoom.Creator room) db = Some u ->
  ActiveUser.Status u <> UserStatusWatching ->
  ActiveUser.Status u <> UserStatusJoined ->
  ActiveUser.Status u <> UserStatusJoinWait ->
  lookup_room (LiveRoom.ID room) db = None ->
  let created := snd (CreateRoom c room db) in
  (forall roomID stored,
     lookup_room roomID created = Some stored ->
     fst (EnterRoom (LiveRoom.Creator room) roomID created)
     = Err (ServerError ServerErrorUserBroadcasting)
     /\ same_data created (snd (EnterRoom (LiveRoom.Creator room) roomID created)))
  /\ (forall roomID,
        fst (LeaveRoom (LiveRoom.Creator room) roomID created)
        = Some (ServerError ServerErrorUserBroadcasting)
        /\ same_data created (snd (LeaveRoom (LiveRoom.Creator room) roomID created))).
Proof.
  intros Hs Hn Hname Hcreator Hu Hw Hj Hjw Hid created. subst created.
  rewrite (CreateRoom_creates c room db u Hs Hn Hname Hcreator Hu Hw Hj Hjw Hid).
  cbn [snd]. rewrite <- find_user_by_id in Hu.
  destruct (user_written (LiveRoom.Creator room) u
              (ActiveUser.set_Room (LiveRoom.ID room)
                 (ActiveUser.set_Status UserStatusSingleLive u))
              (activeUsers db) Hu eq_refl) as (_ & Hhit & _).
  rewrite <- (find_same _ _ _ (matches_user_id (LiveRoom.Creator room))) in Hhit.
  unfold same_data. split.
  - intros roomID stored Hstored. rewrite <- find_room_by_id in Hstored.
    cbn [rooms] in Hstored.
    unfold EnterRoom, GetRoomByID, GetRoomByFields. run. rewrite Hstored. run.
    rewrite Hhit. run. auto.
  - intros roomID. unfold LeaveRoom, GetRoomByID, GetRoomByFields. run.
    destruct (find (matches [("_id", Is (BString roomID))]) (rooms db ++ [room]));
      run; rewrite Hhit; run; auto.
Qed.

Lemma CreateRoom_makes_the_creator_a_broadcaster_witness :
  let room := LiveRoom.mk "r3" "carol-room" "u6" "single" "" "" "" in
  let created := snd (CreateRoom NewRoomController room Sample.db) in
  (fst (EnterRoom "u6" "r1" created) = Err (ServerError ServerErrorUserBroadcasting)
   /\ same_data created (snd (EnterRoom "u6" "r1" created)))
  /\ (fst (LeaveRoom "u6" "r3" created) = Some (ServerError ServerErrorUserBroadcasting)
      /\ same_data created (snd (LeaveRoom "u6" "r3" created))).
Proof.
  intros room created.
  destruct (CreateRoom_makes_the_creator_a_broadcaster NewRoomController room Sample.db
              Sample.u6 eq_refl eq_refl) as [Henter Hleave];
    try (simpl; discriminate); try reflexivity;
    try (intros r [<-|[<-|[]]]; simpl; discriminate).
  split; [apply (Henter "r1" Sample.r1); reflexivity|apply Hleave].
Defined.

(** X25. What CreateRoom makes of a failure of the store.  A failed count
    of the rooms, a failed lookup by name and a failed count of the
    creator's rooms become ServerError MongoOpFail (for the last two unless
    the error is ErrNoDocuments); a failed lookup of the creator's presence
    record and a failed insert are returned as the driver gave them, and
    after a failed insert no update of the creator is issued. *)
Theorem CreateRoom_store_failures (c : RoomController) (room : LiveRoom.t) (db : Mongo)
    (flt : Fault) (later : list (option Fault)) :
  let n := Z.of_nat (length (rooms db)) in
  let named r := LiveRoom.Name r = LiveRoom.Name room in
  let owned r := LiveRoom.Creator r = LiveRoom.Creator room in
  let res := fst (CreateRoom c room db) in
  (faults db = Some flt :: later -> res = Err (ServerError ServerErrorMongoOpFail))
  /\ (faults db = None :: Some flt :: later ->
      fault_err flt <> ErrNoDocuments ->
      n < roomNumberLimit c ->
      res = Err (ServerError ServerErrorMongoOpFail))
  /\ (faults db = None :: None :: Some flt :: later ->
      fault_err flt <> ErrNoDocuments ->
      n < roomNumberLimit c ->
      (forall r, In r (rooms db) -> ~ named r) ->
      res = Err (ServerError ServerErrorMongoOpFail))
  /\ (faults db = None :: None :: None :: Some flt :: later ->
      n < roomNumberLimit c ->
      (forall r, In r (rooms db) -> ~ named r) ->
      (forall r, In r (rooms db) -> ~ owned r) ->
      res = Err (MongoError (fault_err flt)))
  /\ (forall u,
      faults db = None :: None :: None :: None :: Some flt :: later ->
      n < roomNumberLimit c ->
      (forall r, In r (rooms db) -> ~ named r) ->
      (forall r, In r (rooms db) -> ~ owned r) ->
      lookup_user (LiveRoom.Creator room) db = Some u ->
      ActiveUser.Status u <> UserStatusWatching ->
      ActiveUser.Status u <> UserStatusJoined ->
      ActiveUser.Status u <> UserStatusJoinWait ->
      res = Err (MongoError (fault_err flt))
      /\ trace (snd (CreateRoom c room db))
         = trace db ++ [(Rooms, OpCount); (Rooms, OpOne); (Rooms, OpCount);
                        (ActiveUsers, OpOne); (Rooms, OpInsertOne)]).
Proof.
  intros n named owned res. subst n named owned res.
  assert (Hreal : fault_err flt <> ErrNoDocuments -> isNoDocuments (fault_err flt) = false)
    by (destruct (fault_err flt); [congruence|reflexivity|reflexivity]).
  split; [|split; [|split; [|split]]].
  - intros Hf. unfold CreateRoom. run_served Hf. reflexivity.
  - intros Hf Hne Hn. unfold CreateRoom. run_served Hf. rewrite count_docs_all.
    destruct (Z.geb_spec (Z.of_nat (length (rooms db))) (roomNumberLimit c)); [lia|].
    run_served Hf. rewrite (Hreal Hne). reflexivity.
  - intros Hf Hne Hn Hname.
    destruct (CreateRoom_past_name_guard c room db Hn Hname) as [Hfind Hlim].
    unfold CreateRoom. run_served Hf. rewrite count_docs_all, Hlim. run_served Hf.
    rewrite Hfind. run_served Hf. rewrite (Hreal Hne). reflexivity.
  - intros Hf Hn Hname Hcreator.
    destruct (CreateRoom_past_name_guard c room db Hn Hname) as [Hfind Hlim].
    pose proof (CreateRoom_past_creator_guard room db Hcreator) as Hcnt.
    unfold CreateRoom. run_served Hf. rewrite count_docs_all, Hlim. run_served Hf.
    rewrite Hfind. run_served Hf. rewrite Hcnt. run_served Hf. reflexivity.
  - intros u Hf Hn Hname Hcreator Hu Hw Hj Hjw.
    destruct (CreateRoom_past_name_guard c room db Hn Hname) as [Hfind Hlim].
    pose proof (CreateRoom_past_creator_guard room db Hcreator) as Hcnt.
    rewrite <- find_user_by_id in Hu.
    unfold CreateRoom. run_served Hf. rewrite count_docs_all, Hlim. run_served Hf.
    rewrite Hfind. run_served Hf. rewrite Hcnt. run_served Hf. rewrite Hu.
    destruct (ActiveUser.Status u); try congruence; run_served Hf;
      rewrite <- !app_assoc; auto.
Qed.

(** On the sample store: the store fails the first count, and it fails the
    insert. *)
Lemma CreateRoom_store_failures_witness :
  let down := {| fault_err := ErrUnavailable; fault_decoded := 0 |} in
  let room := LiveRoom.mk "r3" "carol-room" "u6" "single" "" "" "" in
  let db1 := {| rooms := rooms Sample.db; activeUsers := activeUsers Sample.db;
                faults := [Some down]; trace := [] |} in
  let db5 := {| rooms := rooms Sample.db; activeUsers := activeUsers Sample.db;
                faults := [None; None; None; None; Some down]; trace := [] |} in
  fst (CreateRoom NewRoomController room db1) = Err (ServerError ServerErrorMongoOpFail)
  /\ fst (CreateRoom NewRoomController room db5) = Err (MongoError ErrUnavailable)
  /\ trace (snd (CreateRoom NewRoomController room db5))
     = trace db5 ++ [(Rooms, OpCount); (Rooms, OpOne); (Rooms, OpCount);
                     (ActiveUsers, OpOne); (Rooms, OpInsertOne)].
Proof.
  intros down room db1 db5. split.
  - destruct (CreateRoom_store_failures NewRoomController room db1 down []) as [H _].
    exact (H eq_refl).
  - destruct (CreateRoom_store_failures NewRoomController room db5 down [])
      as (_ & _ & _ & _ & H).
    apply (H Sample.u6); try reflexivity; try (simpl; discriminate);
      intros r [<-|[<-|[]]]; simpl; discriminate.
Defined.
